(** * A shallow embedding of the SMART device session orchestrator

    Sources: [kasa/smart/smartdevice.py] and
    [kasa/smart/modules/childsetup.py].

    Conventions of the embedding.
    - Python values travelling through the protocol are JSON-like terms
      ([value]); a [SmartErrorCode] is a value of its own, as in the code.
    - A Python [dict] is an association list with unique keys kept in
      insertion order ([dict_set] overwrites in place, appends otherwise),
      because the per-key fallback replays the request in that order.
    - Timestamps ([time.time()], [on_time]) are integers; the code only
      subtracts and compares them.
    - Effects are explicit: a computation transforms a [world] (the remote
      device behind the protocol, the clock, the log of issued requests and
      invoked hooks) and an in-memory device, and ends with a value or a
      raised exception; the state reached when an exception is raised is
      kept, as in Python. *)

From Stdlib Require Import List String Ascii NArith ZArith Bool Lia Arith
  DecimalString.
Import ListNotations.
Open Scope string_scope.
Open Scope Z_scope.
Open Scope list_scope.

Set Implicit Arguments.

(** ** Values *)

Inductive SmartErrorCode :=
| INTERNAL_QUERY_ERROR
| DeviceErrorCode (code : Z).

#[warnings="-register-all"]
Inductive value :=
| VNone
| VBool (b : bool)
| VNum (z : Z)
| VStr (s : string)
| VList (l : list value)
| VDict (d : list (string * value))
| VErr (e : SmartErrorCode).

(** Python truthiness, [bool(v)].  [SmartErrorCode] is an [IntEnum]: only
    the code 0 is falsy, and the internal codes are negative. *)
Definition truthy (v : value) : bool :=
  match v with
  | VNone => false
  | VBool b => b
  | VNum z => negb (z =? 0)
  | VStr s => negb (String.eqb s "")
  | VList l => match l with [] => false | _ => true end
  | VDict d => match d with [] => false | _ => true end
  | VErr INTERNAL_QUERY_ERROR => true
  | VErr (DeviceErrorCode c) => negb (c =? 0)
  end.

(** [isinstance(v, SmartErrorCode)] *)
Definition is_error_code (v : value) : bool :=
  match v with VErr _ => true | _ => false end.

(** [needle in hay] on strings. *)
Fixpoint contains (needle hay : string) : bool :=
  String.prefix needle hay
  || match hay with
     | EmptyString => false
     | String _ rest => contains needle rest
     end.

(** ** Dictionaries *)

Section Dict.
Variable V : Type.

Definition dict := list (string * V).

Fixpoint dict_get (k : string) (d : dict) : option V :=
  match d with
  | [] => None
  | (k', v) :: rest => if String.eqb k k' then Some v else dict_get k rest
  end.

(** [d[k] = v] *)
Fixpoint dict_set (k : string) (v : V) (d : dict) : dict :=
  match d with
  | [] => [(k, v)]
  | (k', v') :: rest =>
      if String.eqb k k' then (k, v) :: rest else (k', v') :: dict_set k v rest
  end.

(** [d.update(e)] *)
Definition dict_update (d e : dict) : dict :=
  fold_left (fun acc kv => dict_set (fst kv) (snd kv) acc) e d.

(** [d.pop(k)] for a key that is present; a missing key is reported by
    the caller through [dict_get]. *)
Fixpoint dict_pop (k : string) (d : dict) : dict :=
  match d with
  | [] => []
  | (k', v) :: rest =>
      if String.eqb k k' then rest else (k', v) :: dict_pop k rest
  end.

Definition dict_keys (d : dict) : list string := map fst d.
Definition dict_values (d : dict) : list V := map snd d.

(** [k in d] *)
Definition dict_mem (k : string) (d : dict) : bool :=
  match dict_get k d with Some _ => true | None => false end.

(** Well-formed dictionaries have pairwise distinct keys. *)
Definition dict_wf (d : dict) : Prop := NoDup (dict_keys d).
End Dict.

Arguments dict_get {V} k d.
Arguments dict_set {V} k v d.
Arguments dict_update {V} d e.
Arguments dict_pop {V} k d.
Arguments dict_keys {V} d.
Arguments dict_values {V} d.
Arguments dict_mem {V} k d.
Arguments dict_wf {V} d.

(** ** Exceptions and results *)

Inductive exn :=
| AuthenticationError
| KasaException
| TimeoutError
| KeyError
| TypeError
| AttributeError
| OtherError (msg : string).

Inductive result (A : Type) :=
| Ok (a : A)
| Raise (e : exn).
Arguments Ok {A} a.
Arguments Raise {A} e.

(** The answer of a computation that returned. *)
Definition answer_of {A} (default : A) (r : result A) : A :=
  match r with Ok a => a | Raise _ => default end.

(** ** Device classifier *)

Inductive DeviceType :=
| Hub | Plug | Strip | LightStrip | WallSwitch | Dimmer | Bulb
| Sensor | Thermostat | Unknown.

(** [x in components], [components] being a list of strings. *)
Definition list_mem (x : string) (l : list string) : bool :=
  existsb (String.eqb x) l.

(** [SmartDevice._get_device_type_from_components] *)
Definition _get_device_type_from_components
    (components : list string) (device_type : string) : DeviceType :=
  if contains "HUB" device_type then Hub
  else if contains "PLUG" device_type then
    if list_mem "child_device" components then Strip else Plug
  else if list_mem "light_strip" components then LightStrip
  else if contains "SWITCH" device_type && list_mem "child_device" components
  then WallSwitch
  else if list_mem "dimmer_calibration" components then Dimmer
  else if list_mem "brightness" components then Bulb
  else if contains "SWITCH" device_type then WallSwitch
  else if contains "SENSOR" device_type then Sensor
  else if contains "ENERGY" device_type then Thermostat
  else Plug.

(** ** Modules, features, devices *)

(** [module.__class__]; the classes named in this file, and any other. *)
Inductive ModuleClass :=
| DeviceModule | ChildDevice | Cloud | Firmware | Time | Light
| OtherModule (class_name : string).

Definition ModuleClass_eqb (a b : ModuleClass) : bool :=
  match a, b with
  | DeviceModule, DeviceModule | ChildDevice, ChildDevice | Cloud, Cloud
  | Firmware, Firmware | Time, Time | Light, Light => true
  | OtherModule x, OtherModule y => String.eqb x y
  | _, _ => false
  end.

(** Modules that are called as part of the init procedure on first update *)
Definition FIRST_UPDATE_MODULES : list ModuleClass :=
  [DeviceModule; ChildDevice; Cloud].

Definition NON_HUB_PARENT_ONLY_MODULES : list ModuleClass :=
  [DeviceModule; Time; Firmware; Cloud].

Definition class_in (c : ModuleClass) (l : list ModuleClass) : bool :=
  existsb (ModuleClass_eqb c) l.

(** A feature: its id and the module that is its container ([None] when
    the device itself is). *)
Record Feature := mkFeature {
  feat_id : string;
  feat_container : option string;
}.

Module SmartModule.
(** The part of a module object the orchestrator reads and writes.
    [query] is what [module.query()] returns, [_module_features] what the
    module contributes once [_initialize_features] has run. *)
Record t := mk {
  name : string;
  cls : ModuleClass;
  MINIMUM_UPDATE_INTERVAL_SECS : Z;
  _last_update_time : option Z;
  query : dict value;
  _module_features : dict Feature;
}.

Definition set_last_update_time (m : t) (now : Z) : t :=
  {| name := name m; cls := cls m;
     MINIMUM_UPDATE_INTERVAL_SECS := MINIMUM_UPDATE_INTERVAL_SECS m;
     _last_update_time := Some now;
     query := query m; _module_features := _module_features m |}.
End SmartModule.

(** The state every device, root or child, carries. *)
Record DeviceCore := mkCore {
  _info : value;
  _last_update : dict value;
  _components : dict Z;
  _modules : dict SmartModule.t;
  _features : dict Feature;
  _device_type : DeviceType;
}.

(** A root device: its own state, its credentials, the time of its last
    update cycle and its children.  The topology is one root and its
    children; a child has no children of its own. *)
Record SmartDevice := mkDevice {
  core : DeviceCore;
  credentials : option (string * string);
  credentials_hash : option string;
  _last_update_time : option Z;
  _children : dict DeviceCore;
}.

Definition with_info (c : DeviceCore) (i : value) : DeviceCore :=
  mkCore i (_last_update c) (_components c) (_modules c) (_features c)
         (_device_type c).
Definition with_last_update (c : DeviceCore) (l : dict value) : DeviceCore :=
  mkCore (_info c) l (_components c) (_modules c) (_features c)
         (_device_type c).
Definition with_components (c : DeviceCore) (k : dict Z) : DeviceCore :=
  mkCore (_info c) (_last_update c) k (_modules c) (_features c)
         (_device_type c).
Definition with_modules (c : DeviceCore) (m : dict SmartModule.t) : DeviceCore :=
  mkCore (_info c) (_last_update c) (_components c) m (_features c)
         (_device_type c).
Definition with_features (c : DeviceCore) (f : dict Feature) : DeviceCore :=
  mkCore (_info c) (_last_update c) (_components c) (_modules c) f
         (_device_type c).
Definition with_device_type (c : DeviceCore) (t : DeviceType) : DeviceCore :=
  mkCore (_info c) (_last_update c) (_components c) (_modules c) (_features c)
         t.

Definition with_core (d : SmartDevice) (c : DeviceCore) : SmartDevice :=
  mkDevice c (credentials d) (credentials_hash d) (_last_update_time d)
           (_children d).
Definition with_last_update_time (d : SmartDevice) (t : option Z) : SmartDevice :=
  mkDevice (core d) (credentials d) (credentials_hash d) t (_children d).
Definition with_children (d : SmartDevice) (k : dict DeviceCore) : SmartDevice :=
  mkDevice (core d) (credentials d) (credentials_hash d) (_last_update_time d) k.

(** An entry of [SmartModule.REGISTERED_MODULES]: a module class with the
    class attributes the loader reads. *)
Record ModuleDescriptor := mkDescriptor {
  mod_class : ModuleClass;
  REQUIRED_COMPONENT : option string;
  REQUIRED_KEY_ON_PARENT : option string;
}.

(** ** Text: UTF-8, base64, [str] *)

(** A Python [str] is kept as its UTF-8 encoding: [s.encode()] is the
    string itself, and [b.decode()] checks that the bytes are well formed. *)

Definition byte_in (lo hi : N) (c : ascii) : bool :=
  ((lo <=? N_of_ascii c) && (N_of_ascii c <=? hi))%N.

(** Well-formed UTF-8: no stray continuation byte, no overlong form, no
    surrogate, nothing beyond U+10FFFF. *)
Fixpoint utf8_valid (b : string) : bool :=
  match b with
  | EmptyString => true
  | String c0 rest =>
      if byte_in 0 127 c0 then utf8_valid rest
      else
        match rest with
        | EmptyString => false
        | String c1 rest1 =>
            if byte_in 194 223 c0 then byte_in 128 191 c1 && utf8_valid rest1
            else
              match rest1 with
              | EmptyString => false
              | String c2 rest2 =>
                  if (byte_in 224 224 c0 && byte_in 160 191 c1
                      || byte_in 225 236 c0 && byte_in 128 191 c1
                      || byte_in 237 237 c0 && byte_in 128 159 c1
                      || byte_in 238 239 c0 && byte_in 128 191 c1)
                  then byte_in 128 191 c2 && utf8_valid rest2
                  else
                    match rest2 with
                    | EmptyString => false
                    | String c3 rest3 =>
                        (byte_in 240 240 c0 && byte_in 144 191 c1
                         || byte_in 241 243 c0 && byte_in 128 191 c1
                         || byte_in 244 244 c0 && byte_in 128 143 c1)
                        && byte_in 128 191 c2 && byte_in 128 191 c3
                        && utf8_valid rest3
                    end
              end
        end
  end.

(** [s.encode()] *)
Definition str_encode (s : string) : string := s.

(** [b.decode()] *)
Definition bytes_decode (b : string) : result string :=
  if utf8_valid b then Ok b else Raise (OtherError "UnicodeDecodeError").

(** Every character is an ASCII one. *)
Fixpoint isascii (s : string) : bool :=
  match s with
  | EmptyString => true
  | String c rest => byte_in 0 127 c && isascii rest
  end.

Definition BASE64_PAD : ascii := "="%char.

Definition table_b2a_base64 : string :=
  "ABCDEFGHIJKLMNOPQRSTUVWXYZabcdefghijklmnopqrstuvwxyz0123456789+/".

(** The character of a six-bit group. *)
Definition b2a (n : N) : ascii :=
  match String.get (N.to_nat n) table_b2a_base64 with
  | Some c => c
  | None => BASE64_PAD
  end.

Fixpoint index_of (c : ascii) (s : string) (i : N) : option N :=
  match s with
  | EmptyString => None
  | String c' rest => if Ascii.eqb c c' then Some i else index_of c rest (i + 1)%N
  end.

(** The six-bit group of a character of the alphabet. *)
Definition a2b (c : ascii) : option N := index_of c table_b2a_base64 0.

(** The six-bit groups of three bytes, and the last group of one byte and
    of two. *)
Definition group1 (a : ascii) : N := N.shiftr (N_of_ascii a) 2.
Definition group2 (a b : ascii) : N :=
  N.lor (N.shiftl (N.land (N_of_ascii a) 3) 4) (N.shiftr (N_of_ascii b) 4).
Definition group3 (b c : ascii) : N :=
  N.lor (N.shiftl (N.land (N_of_ascii b) 15) 2) (N.shiftr (N_of_ascii c) 6).
Definition group4 (c : ascii) : N := N.land (N_of_ascii c) 63.
Definition last2 (a : ascii) : N := N.shiftl (N.land (N_of_ascii a) 3) 4.
Definition last3 (b : ascii) : N := N.shiftl (N.land (N_of_ascii b) 15) 2.

(** [base64.b64encode(data)] *)
Fixpoint b64encode (data : string) : string :=
  match data with
  | EmptyString => EmptyString
  | String a EmptyString =>
      String (b2a (group1 a))
        (String (b2a (last2 a))
           (String BASE64_PAD (String BASE64_PAD EmptyString)))
  | String a (String b EmptyString) =>
      String (b2a (group1 a))
        (String (b2a (group2 a b))
           (String (b2a (last3 b)) (String BASE64_PAD EmptyString)))
  | String a (String b (String c rest)) =>
      String (b2a (group1 a))
        (String (b2a (group2 a b))
           (String (b2a (group3 b c))
              (String (b2a (group4 c)) (b64encode rest))))
  end.

(** The decoding loop of [binascii.a2b_base64], as [base64.b64decode] runs
    it (no validation): a character outside the alphabet is skipped, and so
    is a pad that does not end a group; the loop stops at the pad that
    ends one. *)
Fixpoint a2b_base64 (ascii_data : string) (quad_pos : nat) (leftchar : N)
    (pads : nat) (bin_data : string) : result string :=
  match ascii_data with
  | EmptyString =>
      match quad_pos with
      | O => Ok bin_data
      | _ => Raise (OtherError "binascii.Error")
      end
  | String this_ch rest =>
      if Ascii.eqb this_ch BASE64_PAD
      then
        if (2 <=? quad_pos)%nat
        then
          if (4 <=? quad_pos + S pads)%nat
          then Ok bin_data
          else a2b_base64 rest quad_pos leftchar (S pads) bin_data
        else a2b_base64 rest quad_pos leftchar pads bin_data
      else
        match a2b this_ch with
        | None => a2b_base64 rest quad_pos leftchar pads bin_data
        | Some this_ch =>
            match quad_pos with
            | 0%nat => a2b_base64 rest 1 this_ch 0 bin_data
            | 1%nat =>
                a2b_base64 rest 2 (N.land this_ch 15) 0
                  (String.append bin_data
                     (String (ascii_of_N (N.lor (N.shiftl leftchar 2)
                                                (N.shiftr this_ch 4))) ""))
            | 2%nat =>
                a2b_base64 rest 3 (N.land this_ch 3) 0
                  (String.append bin_data
                     (String (ascii_of_N (N.lor (N.shiftl leftchar 4)
                                                (N.shiftr this_ch 2))) ""))
            | _ =>
                a2b_base64 rest 0 0 0
                  (String.append bin_data
                     (String (ascii_of_N (N.lor (N.shiftl leftchar 6) this_ch)) ""))
            end
        end
  end.

(** [base64.b64decode(v)]: a [str] must be an ASCII one. *)
Definition b64decode (v : value) : result string :=
  match v with
  | VStr s =>
      if isascii s then a2b_base64 s 0 0 0 ""
      else Raise (OtherError "ValueError")
  | _ => Raise TypeError
  end.

(** [base64.b64decode(v).decode()] *)
Definition b64decode_text (v : value) : result string :=
  match b64decode v with
  | Ok b => bytes_decode b
  | Raise e => Raise e
  end.

(** [base64.b64encode(s.encode()).decode()] *)
Definition b64encode_text (s : string) : result string :=
  bytes_decode (b64encode (str_encode s)).

(** [s.replace(old, new)], [old] and [new] being one character each. *)
Fixpoint str_replace (old new : ascii) (s : string) : string :=
  match s with
  | EmptyString => EmptyString
  | String c rest =>
      String (if Ascii.eqb c old then new else c) (str_replace old new rest)
  end.

(** The bytes and the six-bit groups, all of them. *)
Definition all_ascii : list ascii := map ascii_of_nat (seq 0 256).
Definition sextets : list N := map N.of_nat (seq 0 64).

(** A network found by [wifi_scan]: the [WifiNetwork] of [device.py], with
    the fields [wifi_scan] fills in. *)
Module WifiNetwork.
Record t := mk {
  ssid : string;
  cipher_type : value;
  key_type : value;
  channel : value;
  signal_level : value;
  bssid : value;
}.
End WifiNetwork.

(** ** A scripted remote end and a plug, for the examples at the end *)

(** The remote end answers the requests it gets with the answers of a
    script, in order, and the connection is lost when the script is over. *)
Definition script := list (result (dict value)).

Definition scripted_query (e : script) (request : dict value)
  : script * result (dict value) :=
  match e with
  | [] => ([], Raise (OtherError "connection lost"))
  | answer :: rest => (rest, answer)
  end.

(** The wall clock advances with the script. *)
Definition script_clock (e : script) : script * Z :=
  (e, 1000 - 100 * Z.of_nat (List.length e)).

(** Every request takes a fifth of a second. *)
Definition script_latency (e : script) (request : dict value) : Z := 200.

(** A hook that raises when the device holds an error code under a key its
    module queries. *)
Definition data_hook (owner : DeviceCore) (m : SmartModule.t) : bool :=
  forallb
    (fun kv => match dict_get (fst kv) (_last_update owner) with
               | Some (VErr _) => false
               | _ => true
               end)
    (SmartModule.query m).

Definition device_module : SmartModule.t :=
  SmartModule.mk "DeviceModule" DeviceModule 0 None
    [("get_device_info", VNone)] [].

Definition energy_module : SmartModule.t :=
  SmartModule.mk "Energy" (OtherModule "Energy") 0 None
    [("get_energy_usage", VNone)]
    [("consumption_today", mkFeature "consumption_today" (Some "Energy"))].

Definition cloud_module : SmartModule.t :=
  SmartModule.mk "Cloud" Cloud 60 None
    [("get_connect_cloud_state", VNone)] [].

(** A module of the bootstrap whitelist that has nothing to query. *)
Definition silent_child_module : SmartModule.t :=
  SmartModule.mk "ChildDevice" ChildDevice 0 None [] [].

(** A firmware module last updated at time 0, due every 60 seconds. *)
Definition firmware_module : SmartModule.t :=
  SmartModule.mk "Firmware" Firmware 60 (Some 0)
    [("get_latest_fw", VNone)] [].

Definition plug_registry : list ModuleDescriptor :=
  [ mkDescriptor DeviceModule (Some "device") None;
    mkDescriptor (OtherModule "Energy") (Some "energy_monitoring") None;
    mkDescriptor Cloud (Some "cloud_connect") None ].

Definition plug_module (c : ModuleClass) (component : option string)
    (d : DeviceCore) : SmartModule.t :=
  match c with
  | DeviceModule => device_module
  | Cloud => cloud_module
  | OtherModule "Energy" => energy_module
  | _ => SmartModule.mk "" c 0 None [] []
  end.

Definition always_supported (d : DeviceCore) (m : SmartModule.t) (e : script)
  : script * result bool :=
  (e, Ok true).

Definition no_child (parent : SmartDevice) (child_info : value)
    (child_components : dict Z) (e : script) : script * result DeviceCore :=
  (e, Raise (OtherError "no children")).

Definition idle_child (c : DeviceCore) (e : script)
  : script * (DeviceCore * result unit) :=
  (e, (c, Ok tt)).

Definition no_int (s : string) : option Z := None.

Definition plug_info : value :=
  VDict [("type", VStr "SMART.TAPOPLUG"); ("device_id", VStr "8022");
         ("device_on", VBool true); ("on_time", VNum 30)].

Definition plug_components : value :=
  VDict [("component_list",
          VList [VDict [("id", VStr "device"); ("ver_code", VNum 2)];
                 VDict [("id", VStr "energy_monitoring"); ("ver_code", VNum 2)];
                 VDict [("id", VStr "cloud_connect"); ("ver_code", VNum 1)]])].

(** What the plug answers to the negotiation. *)
Definition negotiation : result (dict value) :=
  Ok [("component_nego", plug_components); ("get_device_info", plug_info);
      ("get_connect_cloud_state", VDict [("status", VNum 0)])].

(** A device that has never been updated. *)
Definition fresh_core : DeviceCore := mkCore VNone [] [] [] [] Unknown.

Definition fresh_plug : SmartDevice :=
  mkDevice fresh_core (Some ("user", "secret")) None None [].

(** The own state of the plug after its negotiation and the loading of its
    modules. *)
Definition plug_core : DeviceCore :=
  mkCore plug_info
    [("component_nego", plug_components); ("get_device_info", plug_info);
     ("get_connect_cloud_state", VDict [("status", VNum 0)])]
    [("device", 2); ("energy_monitoring", 2); ("cloud_connect", 1)]
    [("DeviceModule", device_module); ("Energy", energy_module);
     ("Cloud", cloud_module)]
    [] Unknown.

(** A hub with one paired child. *)
Definition hub : SmartDevice :=
  mkDevice
    (mkCore (VDict [("type", VStr "SMART.TAPOHUB")]) [] [] [] [] Hub)
    (Some ("user", "secret")) None (Some 100)
    [("child-1", fresh_core)].

Definition hub_categories (d : SmartDevice) : result value :=
  Ok (VList [VStr "subg.trv"; VStr "subg.trigger"]).

(** A re-negotiation request that forgets the time of the last update, so
    that the next update negotiates again. *)
Definition forget_last_update (d : SmartDevice) : SmartDevice :=
  with_last_update_time d None.

(** A hub of a class that has the method: the call returns, the time of
    the last update forgotten. *)
Definition renegotiation_requested (d : SmartDevice)
  : SmartDevice * result unit :=
  (forget_last_update d, Ok tt).

(** The hub as the classes of this file make it: none of them defines
    [request_renegotiation], and the call raises [AttributeError]. *)
Definition no_such_method (d : SmartDevice) : SmartDevice * result unit :=
  (d, Raise AttributeError).

(** The plug's own state in a later cycle: the cloud module was updated at
    time 690 and is due every 60 seconds. *)
Definition later_cloud_module : SmartModule.t :=
  SmartModule.mk "Cloud" Cloud 60 (Some 690)
    [("get_connect_cloud_state", VNone)] [].

Definition later_core : DeviceCore :=
  mkCore plug_info
    [("get_device_info", plug_info)]
    [("device", 2); ("energy_monitoring", 2); ("cloud_connect", 1)]
    [("DeviceModule", device_module); ("Energy", energy_module);
     ("Cloud", later_cloud_module)]
    [] Plug.

(** Scripts.  Two cycles of the plug: the negotiation and the first batch
    are answered; the second batch is lost, and so is the retry of the
    energy request. *)
Definition two_cycles : script :=
  [ negotiation;
    Ok [("get_energy_usage", VDict [("today", VNum 5)])];
    Raise TimeoutError;
    Ok [("get_device_info", plug_info)];
    Raise TimeoutError;
    Ok [("get_connect_cloud_state", VDict [("status", VNum 0)])] ].

(** A cycle whose batch is lost, with the retry of the second key lost too. *)
Definition lost_batch : script :=
  [ Raise TimeoutError;
    Ok [("get_device_info", plug_info)];
    Raise TimeoutError ].

(** A cycle whose batch is answered, without the device info. *)
Definition no_info_answer : script :=
  [ Ok [("get_device_info", VErr (DeviceErrorCode (-1001)));
        ("get_energy_usage", VDict [("today", VNum 5)])] ].

Definition one_answer : script :=
  [ Ok [("get_device_info", plug_info);
        ("get_energy_usage", VDict [("today", VNum 5)])] ].

(** A scan: scanning begins, two polls find nothing, the third finds a
    device, which is then added. *)
Definition found_device : value :=
  VDict [("child_device_list",
          VList [VDict [("device_id", VStr "child-2")]]);
         ("scan_status", VStr "idle")].

Definition nothing_found : value :=
  VDict [("child_device_list", VList []); ("scan_status", VStr "scanning")].

Definition scan_finds : script :=
  [ Ok [("begin_scanning_child_device", VNone)];
    Ok [("get_scan_child_device_list", nothing_found)];
    Ok [("get_scan_child_device_list", nothing_found)];
    Ok [("get_scan_child_device_list", found_device)];
    Ok [("add_child_device_list", VNone)] ].

(** A scan during which every poll finds nothing. *)
Definition scan_finds_nothing : script :=
  Ok [("begin_scanning_child_device", VNone)]
  :: repeat (Ok [("get_scan_child_device_list", nothing_found)]) 30.

(** The plug with a module of the whitelist that queries nothing, and with
    a firmware module whose last update is the zero time. *)
Definition odd_core : DeviceCore :=
  with_modules plug_core
    [("DeviceModule", device_module); ("ChildDevice", silent_child_module);
     ("Firmware", firmware_module)].

(** The plug after some update cycles. *)
Definition updated_plug : SmartDevice :=
  mkDevice later_core (Some ("user", "secret")) None (Some 500) [].


(** The plug once it has been given a name and has joined a network; the
    name is "Lamp" and the network is "Home", both in base64. *)
Definition named_info : value :=
  VDict [("type", VStr "SMART.TAPOPLUG"); ("nickname", VStr "TGFtcA==");
         ("ssid", VStr "SG9tZQ=="); ("mac", VStr "A8-42-A1-00-11-22")].

Definition named_core : DeviceCore := with_info plug_core named_info.

(** What the plug answers to a scan of the wireless networks. *)
Definition home_ap : value :=
  VDict [("ssid", VStr "SG9tZQ=="); ("cipher_type", VNum 2);
         ("key_type", VStr "wpa2_psk"); ("channel", VNum 6);
         ("signal_level", VNum 3); ("bssid", VStr "A8-42-A1-00-11-23")].

Definition scan_answer : script :=
  [ Ok [("get_wireless_scan_info", VDict [("ap_list", VList [home_ap])])] ].

(** The plug holding the time of the device among its last responses. *)
Definition device_time : value := VDict [("timestamp", VNum 1700000000)].

Definition timed_core : DeviceCore :=
  with_last_update later_core
    [("get_device_info", plug_info); ("get_device_time", device_time)].

Definition timed_plug : SmartDevice :=
  mkDevice timed_core (Some ("user", "secret")) None (Some 500) [].

(** The remote end drops the connection when the plug joins a network. *)
Definition dropped : script := [ Raise TimeoutError ].

Definition no_device_error (ex : exn) : bool := false.

Definition any_kasa_exception (ex : exn) : bool := true.

(** A hub whose last list of child devices names a device it does not
    hold, "child-9". *)
Definition hub_with_stranger : SmartDevice :=
  mkDevice
    (mkCore (VDict [("type", VStr "SMART.TAPOHUB")])
       [("get_child_device_list",
         VDict [("child_device_list",
                 VList [VDict [("device_id", VStr "child-1")];
                        VDict [("device_id", VStr "child-9")]])])]
       [] [] [] Hub)
    (Some ("user", "secret")) None (Some 100)
    [("child-1", fresh_core)].

Definition hub_answer : script :=
  [ Ok [("get_device_info", VDict [("type", VStr "SMART.TAPOHUB")])] ].

(** A child whose own update fails. *)
Definition failing_child (c : DeviceCore) (e : script)
  : script * (DeviceCore * result unit) :=
  (e, (c, Raise TimeoutError)).

(** A child made of its info and its components. *)
Definition bare_child (parent : SmartDevice) (child_info : value)
    (child_components : dict Z) (e : script) : script * result DeviceCore :=
  (e, Ok (mkCore child_info [] child_components [] [] Unknown)).

(** What a hub answers when asked for its children. *)
Definition children_answer : script :=
  [ Ok [("get_child_device_component_list",
         VDict [("child_component_list",
                 VList [VDict [("device_id", VStr "child-1");
                               ("component_list",
                                VList [VDict [("id", VStr "device");
                                              ("ver_code", VNum 1)]])]])]);
        ("get_child_device_list",
         VDict [("child_device_list",
                 VList [VDict [("device_id", VStr "child-1")]])])] ].

(** The plug holding the cloud module alone, which is not due at 700. *)
Definition idle_core : DeviceCore :=
  with_modules later_core [("Cloud", later_cloud_module)].

(** A cycle whose batch is answered, with an error code for the energy
    usage. *)
Definition energy_error_answer : script :=
  [ Ok [("get_device_info", plug_info);
        ("get_energy_usage", VErr (DeviceErrorCode (-1001)))] ].

(** A socket of a power strip before its modules are loaded. *)
Definition socket_core : DeviceCore := with_modules plug_core [].

(** ** Computations *)

(** What a computation leaves behind for an observer. *)
Inductive event :=
| Sent (request : dict value)          (* one [protocol.query] call *)
| Hooked (child : option string) (module_name : string)
                                       (* one [_post_update_hook] call, by a
                                          module of the device itself or of
                                          the child with that id *)
| ClockRead.                           (* one [time.time()] call *)

Section Computations.
(** The environment: the far end of the protocol and the wall clock. *)
Variable env : Type.

(** [clock] is the time of the event loop in milliseconds and [deadline]
    the deadline of the running [asyncio_timeout] block, when there is one. *)
Record world := mkWorld {
  remote : env;
  log : list event;
  clock : Z;
  deadline : option Z;
}.

Definition set_remote (w : world) (e : env) : world :=
  mkWorld e (log w) (clock w) (deadline w).
Definition add_event (w : world) (ev : event) : world :=
  mkWorld (remote w) (log w ++ [ev]) (clock w) (deadline w).
Definition set_clock (w : world) (t : Z) : world :=
  mkWorld (remote w) (log w) t (deadline w).
Definition set_deadline (w : world) (dl : option Z) : world :=
  mkWorld (remote w) (log w) (clock w) dl.

(** A computation over an in-memory state [S]. *)
Definition M (S A : Type) : Type := world * S -> (world * S) * result A.

Definition ret {S A} (a : A) : M S A := fun s => (s, Ok a).
Definition raise {S A} (e : exn) : M S A := fun s => (s, Raise e).
Definition bind {S A B} (m : M S A) (k : A -> M S B) : M S B :=
  fun s => match m s with
           | (s', Ok a) => k a s'
           | (s', Raise e) => (s', Raise e)
           end.
(** [try: m except Exception as ex: h ex] *)
Definition try_except {S A} (m : M S A) (h : exn -> M S A) : M S A :=
  fun s => match m s with
           | (s', Ok a) => (s', Ok a)
           | (s', Raise e) => h e s'
           end.
Definition get {S} : M S S := fun s => (s, Ok (snd s)).
Definition put {S} (x : S) : M S unit := fun s => ((fst s, x), Ok tt).
Definition modify {S} (f : S -> S) : M S unit :=
  fun s => ((fst s, f (snd s)), Ok tt).
Definition of_result {S A} (r : result A) : M S A := fun s => (s, r).
Definition emit {S} (e : event) : M S unit :=
  fun s => ((add_event (fst s) e, snd s), Ok tt).
End Computations.

Arguments mkWorld {env} remote log clock deadline.
Arguments clock {env} w.
Arguments deadline {env} w.
Arguments set_remote {env} w e.
Arguments add_event {env} w ev.
Arguments set_clock {env} w t.
Arguments set_deadline {env} w dl.
Arguments ret {env S A} a _.
Arguments raise {env S A} e _.
Arguments bind {env S A B} m k _.
Arguments try_except {env S A} m h _.
Arguments get {env S} _.
Arguments put {env S} x _.
Arguments modify {env S} f _.
Arguments of_result {env S A} r _.
Arguments emit {env S} e _.
Arguments remote {env} w.
Arguments log {env} w.

Declare Scope comp_scope.
Delimit Scope comp_scope with comp.
Notation "x <- m ;; k" := (bind m (fun x => k))
  (at level 100, m at next level, right associativity) : comp_scope.
Notation "m ;;; k" := (bind m (fun _ => k))
  (at level 100, right associativity) : comp_scope.
Open Scope comp_scope.

(** Run a computation on the own state of a root device. *)
Definition on_core {env A} (m : M env DeviceCore A) : M env SmartDevice A :=
  fun s =>
    match m (fst s, core (snd s)) with
    | ((w, c), r) => ((w, with_core (snd s) c), r)
    end.

(** [v[k]] on a value *)
Definition subscript (v : value) (k : string) : result value :=
  match v with
  | VDict d => match dict_get k d with Some x => Ok x | None => Raise KeyError end
  | _ => Raise TypeError
  end.

Section Orchestrator.
Set Default Proof Using "Type".
Variable env : Type.
(** [protocol.query]: answers with a response dictionary or raises. *)
Variable protocol_query : env -> dict value -> env * result (dict value).
(** [time.time()] *)
Variable time_time : env -> env * Z.
(** [module._post_update_hook()], run by a module of the device whose
    state is given: [true] when it returns, [false] when it raises. *)
Variable _post_update_hook : DeviceCore -> SmartModule.t -> bool.

Local Abbreviation M := (M env).

Definition query {S} (request : dict value) : M S (dict value) :=
  fun s =>
    let (e', r) := protocol_query (remote (fst s)) request in
    ((add_event (set_remote (fst s) e') (Sent request), snd s), r).

Definition now {S} : M S Z :=
  fun s =>
    let (e', t) := time_time (remote (fst s)) in
    ((add_event (set_remote (fst s) e') ClockRead, snd s), Ok t).

(** [SmartDevice._try_get_response] *)
Definition _try_get_response
    (responses : dict value) (request : string) (default : option value)
  : result value :=
  let response := match dict_get request responses with
                  | Some v => v
                  | None => VNone
                  end in
  let response := if is_error_code response then VNone else response in
  match response with
  | VNone => match default with
             | Some dflt => Ok dflt
             | None => Raise KasaException
             end
  | _ => Ok response
  end.

(** [SmartDevice._handle_modular_update_error]: every request is replayed
    on its own; a retry that raises, or whose response lacks the key (the
    [KeyError] of [resp[meth]] is caught by the same handler), leaves the
    sentinel. *)
Fixpoint replay_requests {S} (requests responses : dict value)
  : M S (dict value) :=
  match requests with
  | [] => ret responses
  | (meth, params) :: rest =>
      v <- try_except
             (resp <- query [(meth, params)] ;;
              of_result (subscript (VDict resp) meth))
             (fun iex => ret (VErr INTERNAL_QUERY_ERROR)) ;;
      replay_requests rest (dict_set meth v responses)
  end.

Definition _handle_modular_update_error {S}
    (ex : exn) (first_update : bool) (requests : dict value)
  : M S (dict value) :=
  replay_requests requests [].

(** [module.query()] is truthy *)
Definition has_query (m : SmartModule.t) : bool :=
  truthy (VDict (SmartModule.query m)).

(** The interval test of [_modular_update]; both [not] tests are Python
    truthiness tests, so an interval of 0 and a time of 0 count as unset. *)
Definition interval_elapsed (update_time : Z) (m : SmartModule.t) : bool :=
  (SmartModule.MINIMUM_UPDATE_INTERVAL_SECS m =? 0)
  || match SmartModule._last_update_time m with
     | None => true
     | Some t =>
         (t =? 0)
         || (SmartModule.MINIMUM_UPDATE_INTERVAL_SECS m <=? update_time - t)
     end.

(** The loop over [mq.items()].  Modules are objects held by [_modules]
    under their key; [module_queries] is kept as the list of these keys. *)
Fixpoint build_request (first_update : bool) (update_time : Z)
    (mq modules : dict SmartModule.t)
    (module_queries : list string) (req : dict value)
  : dict SmartModule.t * list string * dict value :=
  match mq with
  | [] => (modules, module_queries, req)
  | (key, module) :: rest =>
      if first_update && class_in (SmartModule.cls module) FIRST_UPDATE_MODULES
      then build_request first_update update_time rest
             (dict_set key (SmartModule.set_last_update_time module update_time)
                       modules)
             module_queries req
      else if interval_elapsed update_time module
      then build_request first_update update_time rest modules
             (module_queries ++ [key])
             (dict_update req (SmartModule.query module))
      else build_request first_update update_time rest modules
             module_queries req
  end.

(** [_handle_module_post_update_hook] over [modules.items()], collecting
    the keys of the modules whose hook raised. *)
Fixpoint run_hooks {S} (child : option string) (owner : DeviceCore)
    (items : dict SmartModule.t) (errors : list string) : M S (list string) :=
  match items with
  | [] => ret errors
  | (module_name, module) :: rest =>
      emit (Hooked child module_name) ;;;
      if _post_update_hook owner module
      then run_hooks child owner rest errors
      else run_hooks child owner rest (errors ++ [module_name])
  end.

(** [for error in errors: modules.pop(error)] *)
Definition pop_all (errors : list string) (modules : dict SmartModule.t)
  : dict SmartModule.t :=
  fold_left (fun d e => dict_pop e d) errors modules.

(** [module._last_update_time = update_time] for a module of
    [module_queries]; an evicted module is no longer part of the device. *)
Definition touch (update_time : Z) (modules : dict SmartModule.t)
    (key : string) : dict SmartModule.t :=
  match dict_get key modules with
  | Some m => dict_set key (SmartModule.set_last_update_time m update_time) modules
  | None => modules
  end.

(** [SmartDevice._modular_update] *)
Definition _modular_update (first_update : bool) (update_time : Z)
  : M DeviceCore (dict value) :=
  d <- get ;;
  let mq := filter (fun km => has_query (snd km)) (_modules d) in
  let '(modules, module_queries, req) :=
    build_request first_update update_time mq (_modules d) [] [] in
  put (with_modules d modules) ;;;
  resp <- try_except (query req)
            (fun ex => _handle_modular_update_error ex first_update req) ;;
  (* [info_resp] is [self._last_update] itself on the first update, so it
     sees the merge of the next statement *)
  d <- get ;;
  let merged := dict_update (_last_update d) resp in
  let info_resp := if first_update then merged else resp in
  put (with_last_update d merged) ;;;
  info <- of_result (_try_get_response info_resp "get_device_info" None) ;;
  modify (fun d => with_info d info) ;;;
  d <- get ;;
  errors <- run_hooks None d (_modules d) [] ;;
  modify (fun d => with_modules d (pop_all errors (_modules d))) ;;;
  modify (fun d => with_modules d
                     (fold_left (touch update_time) module_queries (_modules d))) ;;;
  ret resp.

(** *** Properties of a device *)

(** [self._info.get(k)] *)
Definition info_get (info : value) (k : string) : result value :=
  match info with
  | VDict d => Ok (match dict_get k d with Some v => v | None => VNone end)
  | _ => Raise AttributeError
  end.

(** [key in self._info] *)
Definition info_has (info : value) (k : string) : result bool :=
  match info with
  | VDict d => Ok (dict_mem k d)
  | VStr s => Ok (contains k s)
  | VList l =>
      Ok (existsb (fun v => match v with VStr s => String.eqb k s | _ => false end) l)
  | _ => Raise TypeError
  end.

(** The [time] of the Time module (the module itself is not part of this
    file) and the local clock [SmartDevice.time] falls back to. *)
Variable Time_time : SmartModule.t -> Z.
Variable local_time : Z.

(** [SmartDevice.time]; [parent] is [self._parent]. *)
Definition time (parent : option DeviceCore) (d : DeviceCore) : Z :=
  match match parent with
        | Some p => dict_get "Time" (_modules p)
        | None => None
        end with
  | Some time_mod => Time_time time_mod
  | None =>
      match dict_get "Time" (_modules d) with
      | Some time_mod => Time_time time_mod
      | None => local_time
      end
  end.

(** [timedelta(seconds=v)], in seconds *)
Definition timedelta_seconds (v : value) : result Z :=
  match v with
  | VNum z => Ok z
  | VBool b => Ok (Z.b2z b)
  | _ => Raise TypeError
  end.


(** [SmartDevice.on_since] *)
Definition on_since (parent : option DeviceCore) (d : DeviceCore)
  : result (option Z) :=
  match info_get (_info d) "device_on" with
  | Raise e => Raise e
  | Ok device_on =>
      if negb (truthy device_on) then Ok None
      else
        match info_get (_info d) "on_time" with
        | Raise e => Raise e
        | Ok VNone => Ok None
        | Ok on_time =>
            match timedelta_seconds on_time with
            | Raise e => Raise e
            | Ok secs => Ok (Some (time parent d - secs))
            end
        end
  end.

(** [SmartDevice.device_type], cached in [_device_type].  The tag is
    annotated [str]; another value is reported as a [TypeError]. *)
Definition device_type : M DeviceCore DeviceType :=
  d <- get ;;
  match _device_type d with
  | Unknown =>
      tag <- of_result (subscript (_info d) "type") ;;
      match tag with
      | VStr tag =>
          let t := _get_device_type_from_components
                     (dict_keys (_components d)) tag in
          put (with_device_type d t) ;;; ret t
      | _ => raise TypeError
      end
  | t => ret t
  end.

(** *** Negotiation *)

(** Iterating over a response value; the responses iterated here are JSON
    arrays, another value is reported as a [TypeError]. *)
Definition as_list (v : value) : result (list value) :=
  match v with
  | VList l => Ok l
  | _ => Raise TypeError
  end.

(** A value used as a dictionary key; the keys used here are strings. *)
Definition as_key (v : value) : result string :=
  match v with
  | VStr s => Ok s
  | _ => Raise TypeError
  end.

(** Python's [int] on a string. *)
Variable int_of_string : string -> option Z.

(** [int(v)] *)
Definition py_int (v : value) : result Z :=
  match v with
  | VNum z => Ok z
  | VBool b => Ok (Z.b2z b)
  | VStr s => match int_of_string s with
              | Some z => Ok z
              | None => Raise (OtherError "ValueError")
              end
  | _ => Raise TypeError
  end.

Fixpoint for_each {S A} (l : list A) (body : A -> M S unit) : M S unit :=
  match l with
  | [] => ret tt
  | x :: rest => body x ;;; for_each rest body
  end.

(** [{comp["id"]: int(comp["ver_code"]) for comp in component_list}] *)
Fixpoint components_of {S} (component_list : list value) (acc : dict Z)
  : M S (dict Z) :=
  match component_list with
  | [] => ret acc
  | comp :: rest =>
      id <- of_result (subscript comp "id") ;;
      id <- of_result (as_key id) ;;
      ver <- of_result (subscript comp "ver_code") ;;
      ver <- of_result (py_int ver) ;;
      components_of rest (dict_set id ver acc)
  end.

(** [SmartChildDevice.create(parent, child_info, child_components)]; the
    class is not part of this file. *)
Variable SmartChildDevice_create :
  SmartDevice -> value -> dict Z -> env -> env * result DeviceCore.

(** [SmartChildDevice._update()]: the child refreshes its own module data. *)
Variable SmartChildDevice__update :
  DeviceCore -> env -> env * (DeviceCore * result unit).

Fixpoint children_components_of {S} (child_component_list : list value)
    (acc : dict (dict Z)) : M S (dict (dict Z)) :=
  match child_component_list with
  | [] => ret acc
  | child :: rest =>
      id <- of_result (subscript child "device_id") ;;
      id <- of_result (as_key id) ;;
      comps <- of_result (subscript child "component_list") ;;
      comps <- of_result (as_list comps) ;;
      comps <- components_of comps [] ;;
      children_components_of rest (dict_set id comps acc)
  end.

Fixpoint create_children (children : list value)
    (children_components : dict (dict Z)) (acc : dict DeviceCore)
  : M SmartDevice (dict DeviceCore) :=
  match children with
  | [] => ret acc
  | child_info :: rest =>
      id <- of_result (subscript child_info "device_id") ;;
      id <- of_result (as_key id) ;;
      match dict_get id children_components with
      | None => raise KeyError
      | Some comps =>
          child <- (fun s =>
                      let (e', r) :=
                        SmartChildDevice_create (snd s) child_info comps
                                                (remote (fst s)) in
                      ((set_remote (fst s) e', snd s), r)) ;;
          create_children rest children_components (dict_set id child acc)
      end
  end.

(** [SmartDevice._initialize_children] *)
Definition _initialize_children : M SmartDevice unit :=
  resp <- query [("get_child_device_component_list", VNone);
                 ("get_child_device_list", VNone)] ;;
  modify (fun d => with_core d (with_last_update (core d)
                     (dict_update (_last_update (core d)) resp))) ;;;
  d <- get ;;
  let internal_state := VDict (_last_update (core d)) in
  children <- of_result (subscript internal_state "get_child_device_list") ;;
  children <- of_result (subscript children "child_device_list") ;;
  comps <- of_result (subscript internal_state "get_child_device_component_list") ;;
  comps <- of_result (subscript comps "child_component_list") ;;
  comps <- of_result (as_list comps) ;;
  children_components <- children_components_of comps [] ;;
  children <- of_result (as_list children) ;;
  kids <- create_children children children_components [] ;;
  modify (fun d => with_children d kids).

(** [SmartDevice._negotiate] *)
Definition _negotiate : M SmartDevice unit :=
  resp <- query [("component_nego", VNone); ("get_device_info", VNone);
                 ("get_connect_cloud_state", VNone)] ;;
  modify (fun d => with_core d (with_last_update (core d)
                     (dict_update (_last_update (core d)) resp))) ;;;
  info <- of_result (_try_get_response resp "get_device_info" None) ;;
  modify (fun d => with_core d (with_info (core d) info)) ;;;
  _components_raw <- of_result (subscript (VDict resp) "component_nego") ;;
  component_list <- of_result (subscript _components_raw "component_list") ;;
  component_list <- of_result (as_list component_list) ;;
  comps <- components_of component_list [] ;;
  modify (fun d => with_core d (with_components (core d) comps)) ;;;
  d <- get ;;
  if dict_mem "child_device" comps
     && match _children d with [] => true | _ => false end
  then _initialize_children
  else ret tt.

(** *** Modules and features *)

(** The registry, the constructor [mod(device, component)] and the probe
    [module._check_supported()] belong to [smartmodule.py] and the module
    classes, which are not part of this file. *)
Variable REGISTERED_MODULES : list ModuleDescriptor.
Variable new_module : ModuleClass -> option string -> DeviceCore -> SmartModule.t.
Variable _check_supported :
  DeviceCore -> SmartModule.t -> env -> env * result bool.

Fixpoint register_modules (skip_parent_only_modules : bool)
    (mods : list ModuleDescriptor) : M DeviceCore unit :=
  match mods with
  | [] => ret tt
  | md :: rest =>
      if skip_parent_only_modules
         && class_in (mod_class md) NON_HUB_PARENT_ONLY_MODULES
      then register_modules skip_parent_only_modules rest
      else
        d <- get ;;
        found <-
          (if match REQUIRED_COMPONENT md with
              | Some c => dict_mem c (_components d)
              | None => false
              end
           then ret true
           else
             v <- of_result
                    match REQUIRED_KEY_ON_PARENT md with
                    | Some k => info_get (_info d) k
                    | None => info_get (_info d) ""
                    end ;;
             ret match REQUIRED_KEY_ON_PARENT md, v with
                 | None, _ => false
                 | Some _, VNone => false
                 | Some _, _ => true
                 end) ;;
        (if found : bool
         then
           let module := new_module (mod_class md) (REQUIRED_COMPONENT md) d in
           supported <- (fun s =>
                           let (e', r) :=
                             _check_supported d module (remote (fst s)) in
                           ((set_remote (fst s) e', snd s), r)) ;;
           if supported : bool
           then modify (fun d => with_modules d
                          (dict_set (SmartModule.name module) module (_modules d)))
           else ret tt
         else ret tt) ;;;
        register_modules skip_parent_only_modules rest
  end.

(** [SmartDevice._initialize_modules]; [parent_type] is the device type of
    [self._parent], when there is a parent. *)
Definition _initialize_modules (parent_type : option DeviceType)
  : M DeviceCore unit :=
  let skip_parent_only_modules :=
    match parent_type with
    | Some Hub | None => false
    | Some _ => true
    end in
  register_modules skip_parent_only_modules REGISTERED_MODULES ;;;
  d <- get ;;
  if dict_mem "Brightness" (_modules d)
     || dict_mem "Color" (_modules d)
     || dict_mem "ColorTemperature" (_modules d)
  then put (with_modules d
              (dict_set "Light" (new_module Light (Some "light") d) (_modules d)))
  else ret tt.

(** Modelled from the spec: [Device._add_feature] belongs to the base class
    [Device], which is not part of this file; features are merged by id and
    on a collision the last write wins. *)
Definition _add_feature (f : Feature) (d : DeviceCore) : DeviceCore :=
  with_features d (dict_set (feat_id f) f (_features d)).

(** The features gated by the presence of a key of [_info], in the order
    of [_initialize_features]: the key and the feature id. *)
Definition INFO_FEATURES : list (string * string) :=
  [("device_on", "state"); ("signal_level", "signal_level"); ("rssi", "rssi");
   ("ssid", "ssid"); ("overheated", "overheated"); ("on_time", "on_since")].

(** [SmartDevice._initialize_features], up to the loop over the children. *)
Definition _initialize_own_features : M DeviceCore unit :=
  modify (_add_feature (mkFeature "device_id" None)) ;;;
  for_each INFO_FEATURES
    (fun kf =>
       d <- get ;;
       present <- of_result (info_has (_info d) (fst kf)) ;;
       if present : bool
       then modify (_add_feature (mkFeature (snd kf) None))
       else ret tt) ;;;
  d <- get ;;
  for_each (dict_values (_modules d))
    (fun module =>
       for_each (dict_values (SmartModule._module_features module))
         (fun feat => modify (_add_feature feat))).

(** Run a computation on the state of the child with the given id. *)
Definition on_child {A} (id : string) (m : M DeviceCore A) : M SmartDevice A :=
  fun s =>
    match dict_get id (_children (snd s)) with
    | None => (s, Raise KeyError)
    | Some child =>
        match m (fst s, child) with
        | ((w, c), r) =>
            ((w, with_children (snd s) (dict_set id c (_children (snd s)))), r)
        end
    end.

(** [SmartDevice._initialize_features] *)
Definition _initialize_features : M SmartDevice unit :=
  on_core _initialize_own_features ;;;
  d <- get ;;
  for_each (dict_keys (_children d))
    (fun id => on_child id _initialize_own_features).

(** *** The update cycle *)

Definition DeviceType_eqb (a b : DeviceType) : bool :=
  match a, b with
  | Hub, Hub | Plug, Plug | Strip, Strip | LightStrip, LightStrip
  | WallSwitch, WallSwitch | Dimmer, Dimmer | Bulb, Bulb | Sensor, Sensor
  | Thermostat, Thermostat | Unknown, Unknown => true
  | _, _ => false
  end.

(** [await child._update()] for the child with the given id *)
Definition update_child (id : string) : M SmartDevice unit :=
  fun s =>
    match dict_get id (_children (snd s)) with
    | None => (s, Raise KeyError)
    | Some child =>
        match SmartChildDevice__update child (remote (fst s)) with
        | (e', (c, r)) =>
            ((set_remote (fst s) e',
              with_children (snd s) (dict_set id c (_children (snd s)))), r)
        end
    end.

(** [SmartDevice._update_internal_state] *)
Definition _update_internal_state (info : value) : M DeviceCore unit :=
  modify (fun c => with_info c info).

(** [self._children[info["device_id"]]._update_internal_state(info)] *)
Definition push_child_info (info : value) : M SmartDevice unit :=
  id <- of_result (subscript info "device_id") ;;
  id <- of_result (as_key id) ;;
  on_child id (_update_internal_state info).

(** The sweep of [update] over the modules of one child. *)
Definition sweep_child (id : string) : M SmartDevice unit :=
  on_child id
    (c <- get ;;
     errors <- run_hooks (Some id) c (_modules c) [] ;;
     modify (fun c => with_modules c (pop_all errors (_modules c)))).

(** [SmartDevice.update], second half: the children are updated, the
    child infos of the last response are pushed down, and the hooks of the
    children's modules are run. *)
Definition update_children_and_info (update_children : bool)
  : M SmartDevice unit :=
  refresh <- (if update_children then ret true
              else ty <- on_core device_type ;;
                   ret (negb (DeviceType_eqb ty Hub))) ;;
  (if refresh : bool
   then d <- get ;; for_each (dict_keys (_children d)) update_child
   else ret tt) ;;;
  d <- get ;;
  child_info <- of_result
                  (_try_get_response (_last_update (core d))
                     "get_child_device_list" (Some (VDict []))) ;;
  (if truthy child_info
   then infos <- of_result (subscript child_info "child_device_list") ;;
        infos <- of_result (as_list infos) ;;
        for_each infos push_child_info
   else ret tt) ;;;
  d <- get ;;
  for_each (dict_keys (_children d)) sweep_child.

(** [SmartDevice.update], the end: [if not self._features: ...] *)
Definition ensure_features : M SmartDevice unit :=
  d <- get ;;
  match _features (core d) with
  | [] => _initialize_features
  | _ => ret tt
  end.

(** [SmartDevice.update] *)
Definition update (update_children : bool) : M SmartDevice unit :=
  d <- get ;;
  match credentials d, credentials_hash d with
  | None, None => raise AuthenticationError
  | _, _ =>
      let first_update :=
        match _last_update_time d with None => true | Some _ => false end in
      t <- now ;;
      modify (fun d => with_last_update_time d (Some t)) ;;;
      (if first_update
       then _negotiate ;;; on_core (_initialize_modules None)
       else ret tt) ;;;
      resp <- on_core (_modular_update first_update t) ;;
      update_children_and_info update_children ;;;
      ensure_features
  end.

(** *** Pairing and unpairing (the ChildSetup module) *)

(** The time a request takes to be answered, in milliseconds. *)
Variable latency : env -> dict value -> Z.
(** [ChildSetup.supported_device_categories], read from the module data. *)
Variable supported_device_categories : SmartDevice -> result value.
(** [self._device.request_renegotiation()].  No class of this file defines
    the method, and the base class [Device] is not part of it: the call is
    taken with the device it leaves and with its outcome, which is
    [AttributeError] on a device that has no such method. *)
Variable request_renegotiation : SmartDevice -> SmartDevice * result unit.

Definition renegotiate : M SmartDevice unit :=
  fun s =>
    ((fst s, fst (request_renegotiation (snd s))),
     snd (request_renegotiation (snd s))).

(** Awaiting something that takes [ms w] milliseconds: when the deadline
    of the enclosing timeout block falls before its end the task is
    cancelled there and [TimeoutError] is raised instead of the result. *)
Definition awaited {S A} (ms : world env -> Z) (m : M S A) : M S A :=
  fun s =>
    let t := clock (fst s) + Z.max 0 (ms (fst s)) in
    match m s with
    | (s', r) =>
        match deadline (fst s') with
        | Some dl =>
            if dl <=? t
            then ((set_clock (fst s') (Z.max (clock (fst s)) dl), snd s'),
                  Raise TimeoutError)
            else ((set_clock (fst s') t, snd s'), r)
        | None => ((set_clock (fst s') t, snd s'), r)
        end
    end.

(** [await asyncio.sleep(ms / 1000)] *)
Definition sleep {S} (ms : Z) : M S unit :=
  awaited (fun _ => ms) (ret tt).

(** [async with asyncio_timeout(timeout / 1000): body] *)
Definition asyncio_timeout {S A} (timeout : Z) (body : M S A) : M S A :=
  fun s =>
    match body (set_deadline (fst s) (Some (clock (fst s) + timeout)), snd s) with
    | (s', r) => ((set_deadline (fst s') (deadline (fst s)), snd s'), r)
    end.

(** [SmartDevice._query_helper].  The clock of the event loop matters
    inside the timeout block of [pair] only, and the requests sent there go
    through this helper: it is here that the time a request takes is
    accounted for. *)
Definition _query_helper {S} (method : string) (params : value)
  : M S (dict value) :=
  awaited (fun w => latency (remote w) [(method, params)])
          (query [(method, params)]).

(** Modelled from the spec: [SmartModule.call] belongs to [smartmodule.py],
    which is not part of this file; it issues the request for one method
    through the device. *)
Definition call {S} (method : string) (params : value) : M S (dict value) :=
  _query_helper method params.

(** [len(v)] *)
Definition py_len (v : value) : result nat :=
  match v with
  | VList l => Ok (List.length l)
  | VDict d => Ok (List.length d)
  | VStr s => Ok (String.length s)
  | _ => Raise TypeError
  end.

(** [ChildSetup.get_detected_devices] *)
Definition ChildSetup_get_detected_devices : M SmartDevice value :=
  d <- get ;;
  scan_list <- of_result (supported_device_categories d) ;;
  res <- call "get_scan_child_device_list" (VDict [("scan_list", scan_list)]) ;;
  of_result (subscript (VDict res) "get_scan_child_device_list").

(** [ChildSetup.add_devices] *)
Definition ChildSetup_add_devices (devices : value) : M SmartDevice (dict value) :=
  res <- _query_helper "add_child_device_list" devices ;;
  renegotiate ;;;
  ret res.

(** The [while True] loop of [pair].  Every turn sleeps half a second, so
    inside a timeout block of [timeout] milliseconds it makes at most
    [timeout / 500 + 1] turns ([scan_turns]); the loop is given that many. *)
Fixpoint scan (turns : nat) : M SmartDevice value :=
  match turns with
  | O => raise TimeoutError
  | S turns =>
      sleep 500 ;;;
      res <- ChildSetup_get_detected_devices ;;
      found <- of_result (subscript res "child_device_list") ;;
      if truthy found then ret res else scan turns
  end.

Definition scan_turns (timeout : Z) : nat := S (Z.to_nat (timeout / 500)).

(** [ChildSetup.pair]; [timeout] is in milliseconds. *)
Definition ChildSetup_pair (timeout : Z) : M SmartDevice (option (dict value)) :=
  call "begin_scanning_child_device" VNone ;;;
  discovered <- try_except
                  (asyncio_timeout timeout (scan (scan_turns timeout)))
                  (fun e => match e with
                            | TimeoutError => ret (VDict [])
                            | _ => raise e
                            end) ;;
  if negb (truthy discovered) then ret None
  else
    found <- of_result (subscript discovered "child_device_list") ;;
    _ <- of_result (py_len found) ;;
    res <- ChildSetup_add_devices discovered ;;
    ret (Some res).

(** [ChildSetup.unpair] *)
Definition ChildSetup_unpair (device_id : string) : M SmartDevice (dict value) :=
  let payload :=
    VDict [("child_device_list", VList [VDict [("device_id", VStr device_id)]])] in
  res <- _query_helper "remove_child_device_list" payload ;;
  renegotiate ;;;
  ret res.

(** The value the fallback stores for [meth]: the payload of a retry that
    answered, the sentinel for one that raised or answered without the key. *)
Definition retried_value (meth : string) (answer : result (dict value)) : value :=
  match answer with
  | Ok resp =>
      match dict_get meth resp with
      | Some payload => payload
      | None => VErr INTERNAL_QUERY_ERROR
      end
  | Raise _ => VErr INTERNAL_QUERY_ERROR
  end.

(** ** The classifier as the specification words it *)

(** An ordered table of rules; the first rule whose condition holds gives
    the category, and [Plug] is the fallback. *)
Definition classify_rules (capabilityIds : list string) (deviceTypeTag : string)
  : list (bool * DeviceType) :=
  [ (contains "HUB" deviceTypeTag, Hub);
    (contains "PLUG" deviceTypeTag,
     if list_mem "child_device" capabilityIds then Strip else Plug);
    (list_mem "light_strip" capabilityIds, LightStrip);
    (contains "SWITCH" deviceTypeTag && list_mem "child_device" capabilityIds,
     WallSwitch);
    (list_mem "dimmer_calibration" capabilityIds, Dimmer);
    (list_mem "brightness" capabilityIds, Bulb);
    (contains "SWITCH" deviceTypeTag, WallSwitch);
    (contains "SENSOR" deviceTypeTag, Sensor);
    (contains "ENERGY" deviceTypeTag, Thermostat) ].

Fixpoint first_match (rules : list (bool * DeviceType)) (fallback : DeviceType)
  : DeviceType :=
  match rules with
  | [] => fallback
  | (true, category) :: _ => category
  | (false, _) :: rest => first_match rest fallback
  end.

Definition classify (capabilityIds : list string) (deviceTypeTag : string)
  : DeviceType :=
  first_match (classify_rules capabilityIds deviceTypeTag) Plug.

(** The state after one request has been retried on its own, and after a
    whole request has been replayed key by key. *)
Definition after_retry {S} (meth : string) (params : value)
    (s : world env * S) : world env * S :=
  (add_event
     (set_remote (fst s) (fst (protocol_query (remote (fst s)) [(meth, params)])))
     (Sent [(meth, params)]),
   snd s).

Fixpoint after_replay {S} (requests : dict value) (s : world env * S)
  : world env * S :=
  match requests with
  | [] => s
  | (meth, params) :: rest => after_replay rest (after_retry meth params s)
  end.

(** What the individual retry of [meth] answers in state [s]. *)
Definition retry_answer {S} (meth : string) (params : value)
    (s : world env * S) : result (dict value) :=
  snd (protocol_query (remote (fst s)) [(meth, params)]).

(** ** The phases of [_modular_update], named for the statements below *)

(** The outcome of the loop over [mq.items()] on a device: the modules (the
    bootstrap modules marked on a first update), [module_queries], [req]. *)
Definition planned (first_update : bool) (update_time : Z) (d : DeviceCore)
  : dict SmartModule.t * list string * dict value :=
  build_request first_update update_time
    (filter (fun km => has_query (snd km)) (_modules d)) (_modules d) [] [].

Definition planned_modules first_update update_time d : dict SmartModule.t :=
  fst (fst (planned first_update update_time d)).
Definition planned_queries first_update update_time d : list string :=
  snd (fst (planned first_update update_time d)).
Definition planned_request first_update update_time d : dict value :=
  snd (planned first_update update_time d).

(** The [try: ... except Exception] around the batched request. *)
Definition batch {S} (first_update : bool) (req : dict value)
  : M S (dict value) :=
  try_except (query req)
    (fun ex => _handle_modular_update_error ex first_update req).

Definition log_append (w : world env) (evs : list event) : world env :=
  mkWorld (remote w) (log w ++ evs) (clock w) (deadline w).

(** The hooks invoked over [items], and the keys of those that raise. *)
Definition hook_events (child : option string) (items : dict SmartModule.t)
  : list event :=
  map (fun km => Hooked child (fst km)) items.

Definition failing (owner : DeviceCore) (items : dict SmartModule.t)
  : list string :=
  dict_keys (filter (fun km => negb (_post_update_hook owner (snd km))) items).

(** The rest of the cycle, once the batched request (or its fallback) has
    answered [resp] and left the world [w2]. *)
Definition cycle_end (first_update : bool) (update_time : Z) (d : DeviceCore)
    (w2 : world env) (resp : dict value)
  : (world env * DeviceCore) * result (dict value) :=
  let merged := dict_update (_last_update d) resp in
  let d3 := with_last_update
              (with_modules d (planned_modules first_update update_time d))
              merged in
  match _try_get_response (if first_update then merged else resp)
                          "get_device_info" None with
  | Raise e => ((w2, d3), Raise e)
  | Ok info =>
      let d4 := with_info d3 info in
      ((log_append w2 (hook_events None (_modules d4)),
        with_modules d4
          (fold_left (touch update_time)
             (planned_queries first_update update_time d)
             (pop_all (failing d4 (_modules d4)) (_modules d4)))),
       Ok resp)
  end.

(** ** The decisions of the loop over [mq.items()], module by module *)

(** First update and a module of [FIRST_UPDATE_MODULES]. *)
Definition bootstrap (first_update : bool) (m : SmartModule.t) : bool :=
  first_update && class_in (SmartModule.cls m) FIRST_UPDATE_MODULES.


(** The module joins [module_queries] and its query joins the request. *)
Definition included (first_update : bool) (update_time : Z) (m : SmartModule.t)
  : bool :=
  has_query m && negb (bootstrap first_update m) && interval_elapsed update_time m.


(** ** Specifications of computations *)

(** From an in-memory state satisfying [P], the computation ends with a
    value [a] in a state satisfying [Q a], or raises in one satisfying [R]. *)
Definition triple {S A} (P : S -> Prop) (m : M S A)
    (Q : A -> S -> Prop) (R : S -> Prop) : Prop :=
  forall s, P (snd s) ->
    match m s with
    | (s', Ok a) => Q a (snd s')
    | (s', Raise _) => R (snd s')
    end.

(** [I] holds after the computation if it held before, however it ends. *)
Definition preserves {S A} (I : S -> Prop) (m : M S A) : Prop :=
  triple I m (fun _ => I) I.

(** ** The polling loop of [pair], without a bound on its turns *)

(** One turn of the loop: the sleep, the poll, the discovered list. *)
Definition scan_turn : M SmartDevice (value * value) :=
  sleep 500 ;;;
  res <- ChildSetup_get_detected_devices ;;
  found <- of_result (subscript res "child_device_list") ;;
  ret (res, found).

(** [while True: ...]: the loop ends at the first turn whose poll answers a
    truthy discovered list, with that answer, or at the first turn that
    raises (the cancellation at the deadline included). *)
Inductive scanning
  : world env * SmartDevice -> (world env * SmartDevice) * result value -> Prop :=
| scanning_found s s' res found :
    scan_turn s = (s', Ok (res, found)) ->
    truthy found = true ->
    scanning s (s', Ok res)
| scanning_again s s' res found out :
    scan_turn s = (s', Ok (res, found)) ->
    truthy found = false ->
    scanning s' out ->
    scanning s out
| scanning_raised s s' e :
    scan_turn s = (s', Raise e) ->
    scanning s (s', Raise e).

(** A request to add child devices. *)
Definition is_add_request (ev : event) : bool :=
  match ev with
  | Sent [(meth, _)] => String.eqb meth "add_child_device_list"
  | _ => false
  end.

(** ** Where the features of a device come from *)




(** What every step of a cycle after [_modular_update] and before the
    feature registry may change: a child, or the cached type. *)
Definition stable (I : SmartDevice -> Prop) : Prop :=
  (forall d k, I d -> I (with_children d k))
  /\ (forall d t, I d -> I (with_core d (with_device_type (core d) t))).

(** The module with key [key] is not in the collection, and the device has
    been through an update cycle. *)
Definition evicted (key : string) (d : SmartDevice) : Prop :=
  ~ In key (dict_keys (_modules (core d))) /\ _last_update_time d <> None.

(** [d'] is [d] after any number of further update cycles, whatever the
    world does in between. *)
Inductive after_cycles (d : SmartDevice) : SmartDevice -> Prop :=
| after_none : after_cycles d d
| after_one d' update_children w :
    after_cycles d d' ->
    after_cycles d (snd (fst (update update_children (w, d')))).


(** [update] from the statement after [self._last_update_time = now] on:
    everything it does with the time [t] it has sampled. *)
Definition update_cycle (first_update : bool) (t : Z) (update_children : bool)
  : M SmartDevice unit :=
  (if first_update
   then _negotiate ;;; on_core (_initialize_modules None)
   else ret tt) ;;;
  resp <- on_core (_modular_update first_update t) ;;
  update_children_and_info update_children ;;;
  ensure_features.

(** ** Further properties and commands of a device *)

(** [Cloud.is_connected], read by a Cloud module of the device whose state
    is given; the module class is not part of this file. *)
Variable Cloud_is_connected : DeviceCore -> SmartModule.t -> result bool.

(** [SmartDevice.is_cloud_connected] *)
Definition is_cloud_connected (d : DeviceCore) : result bool :=
  match dict_get "Cloud" (_modules d) with
  | None => Ok false
  | Some cloud => Cloud_is_connected d cloud
  end.

(** [SmartDevice.has_emeter] *)
Definition has_emeter (d : DeviceCore) : bool :=
  dict_mem "Energy" (_modules d).

(** [SmartDevice.internal_state] *)
Definition internal_state (d : DeviceCore) : dict value := _last_update d.

(** [repr] of a list, of a dictionary and of an error code. *)
Variable py_repr : value -> string.

(** [str(v)] *)
Definition py_str (v : value) : string :=
  match v with
  | VNone => "None"
  | VBool true => "True"
  | VBool false => "False"
  | VNum z => NilZero.string_of_int (Z.to_int z)
  | VStr s => s
  | _ => py_repr v
  end.

(** [SmartDevice.model] *)
Definition model (d : DeviceCore) : result string :=
  match info_get (_info d) "model" with
  | Raise e => Raise e
  | Ok v => Ok (py_str v)
  end.

(** [SmartDevice.mac] *)
Definition mac (d : DeviceCore) : result string :=
  match info_get (_info d) "mac" with
  | Raise e => Raise e
  | Ok v => Ok (str_replace "-" ":" (py_str v))
  end.

(** [SmartDevice.device_id] *)
Definition device_id (d : DeviceCore) : result string :=
  match info_get (_info d) "device_id" with
  | Raise e => Raise e
  | Ok v => Ok (py_str v)
  end.

(** [SmartDevice.alias] *)
Definition alias (d : DeviceCore) : result (option string) :=
  if truthy (_info d)
  then
    match info_get (_info d) "nickname" with
    | Raise e => Raise e
    | Ok nickname =>
        if truthy nickname
        then match b64decode_text nickname with
             | Raise e => Raise e
             | Ok name => Ok (Some name)
             end
        else Ok None
    end
  else Ok None.

(** [SmartDevice.ssid] *)
Definition ssid (d : DeviceCore) : result string :=
  match info_get (_info d) "ssid" with
  | Raise e => Raise e
  | Ok v => if truthy v then b64decode_text v else Ok "No SSID"
  end.

(** [SmartDevice.rssi] *)
Definition rssi (d : DeviceCore) : result (option Z) :=
  match info_get (_info d) "rssi" with
  | Raise e => Raise e
  | Ok v =>
      if truthy v
      then match py_int v with
           | Raise e => Raise e
           | Ok z => Ok (Some z)
           end
      else Ok None
  end.

(** [SmartDevice.set_state] *)
Definition set_state {S} (on : bool) : M S (dict value) :=
  query [("set_device_info", VDict [("device_on", VBool on)])].

(** [SmartDevice.turn_on] *)
Definition turn_on {S} : M S unit :=
  set_state true ;;; ret tt.

(** [SmartDevice.turn_off] *)
Definition turn_off {S} : M S unit :=
  set_state false ;;; ret tt.

(** [SmartDevice.set_alias] *)
Definition set_alias {S} (name : string) : M S (dict value) :=
  nickname <- of_result (b64encode_text name) ;;
  query [("set_device_info", VDict [("nickname", VStr nickname)])].

(** [SmartDevice.reboot] *)
Definition reboot {S} (delay : Z) : M S unit :=
  query [("device_reboot", VDict [("delay", VNum delay)])] ;;; ret tt.

(** [SmartDevice.update_credentials] *)
Definition update_credentials (username password : string)
  : M DeviceCore (dict value) :=
  d <- get ;;
  time_data <- of_result (subscript (VDict (internal_state d)) "get_device_time") ;;
  username <- of_result (b64encode_text username) ;;
  password <- of_result (b64encode_text password) ;;
  query [("set_qs_info",
          VDict [("account", VDict [("username", VStr username);
                                    ("password", VStr password)]);
                 ("time", time_data)])].

(** [_net_for_scan_info], the local function of [wifi_scan] *)
Definition _net_for_scan_info {S} (res : value) : M S WifiNetwork.t :=
  ssid <- of_result (subscript res "ssid") ;;
  ssid <- of_result (b64decode_text ssid) ;;
  cipher_type <- of_result (subscript res "cipher_type") ;;
  key_type <- of_result (subscript res "key_type") ;;
  channel <- of_result (subscript res "channel") ;;
  signal_level <- of_result (subscript res "signal_level") ;;
  bssid <- of_result (subscript res "bssid") ;;
  ret (WifiNetwork.mk ssid cipher_type key_type channel signal_level bssid).

(** [[f(x) for x in l]] *)
Fixpoint collect {S A B} (l : list A) (f : A -> M S B) : M S (list B) :=
  match l with
  | [] => ret []
  | x :: rest =>
      y <- f x ;;
      ys <- collect rest f ;;
      ret (y :: ys)
  end.

(** [SmartDevice.wifi_scan] *)
Definition wifi_scan {S} : M S (list WifiNetwork.t) :=
  resp <- query [("get_wireless_scan_info", VDict [("start_index", VNum 0)])] ;;
  info <- of_result (subscript (VDict resp) "get_wireless_scan_info") ;;
  ap_list <- of_result (subscript info "ap_list") ;;
  ap_list <- of_result (as_list ap_list) ;;
  collect ap_list _net_for_scan_info.

(** [protocol.query(request, retry_count=0)] *)
Variable protocol_query_once : env -> dict value -> env * result (dict value).

Definition query_once {S} (request : dict value) : M S (dict value) :=
  fun s =>
    let (e', r) := protocol_query_once (remote (fst s)) request in
    ((add_event (set_remote (fst s) e') (Sent request), snd s), r).

(** [isinstance(ex, DeviceError)] and [isinstance(ex, KasaException)]; the
    exception classes are not part of this file. *)
Variable isinstance_DeviceError : exn -> bool.
Variable isinstance_KasaException : exn -> bool.

(** [SmartDevice.wifi_join]; the credentials are a username and a
    password. *)
Definition wifi_join (ssid password keytype : string)
  : M SmartDevice (option (dict value)) :=
  d <- get ;;
  match credentials d with
  | None => raise AuthenticationError
  | Some (username, account_password) =>
      username <- of_result (b64encode_text username) ;;
      account_password <- of_result (b64encode_text account_password) ;;
      password <- of_result (b64encode_text password) ;;
      ssid <- of_result (b64encode_text ssid) ;;
      time_data <- of_result (subscript (VDict (internal_state (core d)))
                                        "get_device_time") ;;
      let payload :=
        VDict [("account", VDict [("username", VStr username);
                                  ("password", VStr account_password)]);
               ("wireless", VDict [("key_type", VStr keytype);
                                   ("password", VStr password);
                                   ("ssid", VStr ssid)]);
               ("time", time_data)] in
      try_except
        (res <- query_once [("set_qs_info", payload)] ;; ret (Some res))
        (fun ex =>
           if isinstance_DeviceError ex then raise ex
           else if isinstance_KasaException ex then ret None
           else raise ex)
  end.

(** [SmartDevice.update] between the update of the children and the
    feature registry: the child infos of the last response are pushed down
    and the hooks of the children's modules are run. *)
Definition push_child_infos_and_sweep : M SmartDevice unit :=
  d <- get ;;
  child_info <- of_result
                  (_try_get_response (_last_update (core d))
                     "get_child_device_list" (Some (VDict []))) ;;
  (if truthy child_info
   then infos <- of_result (subscript child_info "child_device_list") ;;
        infos <- of_result (as_list infos) ;;
        for_each infos push_child_info
   else ret tt) ;;;
  d <- get ;;
  for_each (dict_keys (_children d)) sweep_child.

(** * Properties *)

(** Proofs start from the parameters their statement is about. *)
Ltac tidy :=
  try clear isinstance_KasaException; try clear isinstance_DeviceError;
  try clear protocol_query_once; try clear py_repr;
  try clear Cloud_is_connected;
  try clear request_renegotiation; try clear supported_device_categories;
  try clear latency; try clear _check_supported; try clear new_module;
  try clear REGISTERED_MODULES; try clear SmartChildDevice__update;
  try clear SmartChildDevice_create; try clear int_of_string;
  try clear local_time; try clear Time_time; try clear _post_update_hook;
  try clear time_time; try clear protocol_query.

(** ** Dictionaries: lookup, update, removal *)

Lemma dict_get_set_eq V (k : string) (v : V) d :
  dict_get k (dict_set k v d) = Some v.
Proof.
  induction d as [|[k' v'] d IH]; simpl.
  - now rewrite String.eqb_refl.
  - destruct (String.eqb k k') eqn:E; simpl; rewrite ?String.eqb_refl, ?E; auto.
Qed.

Lemma dict_get_set_ne V (k k' : string) (v : V) d :
  k <> k' -> dict_get k' (dict_set k v d) = dict_get k' d.
Proof.
  intros Hne. induction d as [|[k0 v0] d IH]; simpl.
  - destruct (String.eqb k' k) eqn:E; auto.
    apply String.eqb_eq in E. congruence.
  - destruct (String.eqb k k0) eqn:E; simpl.
    + apply String.eqb_eq in E. subst k0.
      destruct (String.eqb k' k) eqn:E'; auto.
      apply String.eqb_eq in E'. congruence.
    + now rewrite IH.
Qed.

Lemma dict_get_In V (k : string) (d : dict V) :
  In k (dict_keys d) <-> exists v, dict_get k d = Some v.
Proof.
  tidy.
  induction d as [|[k' v'] d IH]; simpl.
  - split; [tauto | intros [v H]; discriminate].
  - destruct (String.eqb k k') eqn:E.
    + apply String.eqb_eq in E. subst. split; eauto.
    + rewrite <- IH. split; [intros [H|H]; auto | auto].
      subst. now rewrite String.eqb_refl in E.
Qed.

Lemma dict_get_None V (k : string) (d : dict V) :
  dict_get k d = None <-> ~ In k (dict_keys d).
Proof.
  rewrite dict_get_In. split.
  - intros H [v Hv]. congruence.
  - intros H. destruct (dict_get k d) eqn:E; auto. exfalso. eauto.
Qed.

Lemma dict_keys_set_in V (k : string) (v : V) d :
  In k (dict_keys d) -> dict_keys (dict_set k v d) = dict_keys d.
Proof.
  tidy.
  induction d as [|[k' v'] d IH]; simpl; [tauto|].
  intros H. destruct (String.eqb k k') eqn:E; simpl.
  - apply String.eqb_eq in E. now subst.
  - f_equal. apply IH. destruct H as [H|H]; auto.
    subst. now rewrite String.eqb_refl in E.
Qed.

Lemma dict_keys_set_notin V (k : string) (v : V) d :
  ~ In k (dict_keys d) -> dict_keys (dict_set k v d) = dict_keys d ++ [k].
Proof.
  tidy.
  induction d as [|[k' v'] d IH]; simpl; auto.
  intros H. destruct (String.eqb k k') eqn:E; simpl.
  - apply String.eqb_eq in E. subst. tauto.
  - f_equal. apply IH. tauto.
Qed.

Lemma dict_keys_set_incl V (k k' : string) (v : V) d :
  In k' (dict_keys (dict_set k v d)) <-> k' = k \/ In k' (dict_keys d).
Proof.
  tidy.
  destruct (in_dec string_dec k (dict_keys d)) as [H|H].
  - rewrite dict_keys_set_in by assumption. split; auto.
    intros [->|]; auto.
  - rewrite dict_keys_set_notin, in_app_iff by assumption. simpl.
    split; intros [|]; auto; try tauto. destruct H0; auto; tauto.
Qed.

Lemma dict_wf_set V (k : string) (v : V) d :
  dict_wf d -> dict_wf (dict_set k v d).
Proof.
  tidy.
  unfold dict_wf. intros Hd.
  destruct (in_dec string_dec k (dict_keys d)) as [H|H].
  - now rewrite dict_keys_set_in.
  - rewrite dict_keys_set_notin by assumption.
    apply NoDup_app; auto.
    + constructor; [simpl; tauto | constructor].
    + intros x Hx [<-|[]]. tauto.
Qed.

Lemma dict_wf_update V (d e : dict V) :
  dict_wf d -> dict_wf (dict_update d e).
Proof.
  unfold dict_update. revert d.
  induction e as [|[k v] e IH]; simpl; auto using dict_wf_set.
Qed.


(** With distinct keys in [e], [d.update(e)] reads [e] first, then [d]. *)
Lemma dict_get_update V (k : string) (d e : dict V) :
  dict_wf e ->
  dict_get k (dict_update d e)
  = match dict_get k e with Some v => Some v | None => dict_get k d end.
Proof.
  unfold dict_update, dict_wf. revert d.
  induction e as [|[k' v] e IH]; simpl; intros d Hwf; auto.
  inversion Hwf as [|? ? Hnotin Hwf']; subst.
  rewrite IH by assumption.
  destruct (String.eqb k k') eqn:E.
  - apply String.eqb_eq in E. subst k'.
    apply dict_get_None in Hnotin. rewrite Hnotin.
    apply dict_get_set_eq.
  - destruct (dict_get k e); auto.
    apply dict_get_set_ne. intros ->. now rewrite String.eqb_refl in E.
Qed.

(** ** The device classifier *)

Lemma classifier_never_unknown components tag :
  _get_device_type_from_components components tag <> Unknown.
Proof.
  unfold _get_device_type_from_components.
  repeat match goal with
         | |- context [if ?b then _ else _] => destruct b
         end; discriminate.
Qed.

(** C5 (as amended).  The classifier is the first-match rule table of the
    specification, a function of the capability ids and of the type tag
    alone.  A tag that contains "PLUG" and does not contain "HUB" gives
    Strip when "child_device" is among the capabilities and Plug when it is
    not; a tag that contains "HUB" gives Hub whatever else it contains. *)
Theorem classifier_first_match components tag :
  _get_device_type_from_components components tag = classify components tag
  /\ (contains "HUB" tag = true ->
      _get_device_type_from_components components tag = Hub)
  /\ (contains "HUB" tag = false -> contains "PLUG" tag = true ->
      (list_mem "child_device" components = true ->
       _get_device_type_from_components components tag = Strip)
      /\ (list_mem "child_device" components = false ->
          _get_device_type_from_components components tag = Plug)).
Proof.
  unfold classify, classify_rules, _get_device_type_from_components.
  split; [|split].
  - simpl.
    repeat match goal with
           | |- context [if ?b then _ else _] => destruct b; simpl; try reflexivity
           end.
  - intros ->. reflexivity.
  - intros -> ->. split; intros ->; reflexivity.
Qed.

(** ** The time the device was turned on *)


(** ** The per-key fallback *)

Lemma replay_cons S meth params rest acc (s : world env * S) :
  replay_requests ((meth, params) :: rest) acc s
  = replay_requests rest
      (dict_set meth (retried_value meth (retry_answer meth params s)) acc)
      (after_retry meth params s).
Proof.
  unfold retry_answer, after_retry. simpl.
  unfold bind at 1, try_except, bind, query, of_result, ret, subscript.
  destruct (protocol_query (remote (fst s)) [(meth, params)]) as [e' [resp|ex]];
    simpl; [destruct (dict_get meth resp)|]; reflexivity.
Qed.

Lemma replay_app S pre post acc (s : world env * S) :
  exists mid,
    replay_requests pre acc s = (after_replay pre s, Ok mid)
    /\ replay_requests (pre ++ post) acc s
       = replay_requests post mid (after_replay pre s).
Proof.
  revert acc s. induction pre as [|[meth params] pre IH]; intros acc s.
  - exists acc. split; reflexivity.
  - simpl app. rewrite !replay_cons. simpl after_replay. apply IH.
Qed.

Lemma replay_total S requests acc (s : world env * S) :
  exists responses,
    replay_requests requests acc s = (after_replay requests s, Ok responses).
Proof.
  destruct (replay_app requests [] acc s) as [mid [H _]]. eauto.
Qed.

Lemma replay_other S requests acc (s : world env * S) responses s' k :
  replay_requests requests acc s = (s', Ok responses) ->
  ~ In k (dict_keys requests) ->
  dict_get k responses = dict_get k acc.
Proof.
  tidy.
  revert acc s. induction requests as [|[meth params] rest IH]; intros acc s.
  - simpl. unfold ret. intros H _. now inversion H.
  - rewrite replay_cons. simpl. intros H Hk.
    rewrite (IH _ _ H) by tauto.
    apply dict_get_set_ne. tauto.
Qed.

Lemma replay_keys S requests acc (s : world env * S) responses s' :
  replay_requests requests acc s = (s', Ok responses) ->
  NoDup (dict_keys acc ++ dict_keys requests) ->
  dict_keys responses = dict_keys acc ++ dict_keys requests.
Proof.
  tidy.
  revert acc s. induction requests as [|[meth params] rest IH]; intros acc s.
  - simpl. unfold ret. intros H _. inversion H. now rewrite app_nil_r.
  - rewrite replay_cons. simpl. intros H Hnd.
    assert (Hm : ~ In meth (dict_keys acc)).
    { apply NoDup_remove_2 in Hnd. rewrite in_app_iff in Hnd. tauto. }
    rewrite (IH _ _ H); rewrite dict_keys_set_notin by assumption;
      rewrite <- app_assoc; simpl; auto.
Qed.

(** The fallback always ends with a response, whatever the individual
    retries do; the response has exactly the keys of the request, in its
    order; and the value under each key is the payload its own retry
    answered, or the sentinel when that retry raised (or answered without
    the key). *)
Lemma fallback_responses S ex first_update requests (s : world env * S) :
  dict_wf requests ->
  exists responses,
    _handle_modular_update_error ex first_update requests s
    = (after_replay requests s, Ok responses)
    /\ dict_keys responses = dict_keys requests
    /\ forall pre meth params post,
         requests = pre ++ (meth, params) :: post ->
         dict_get meth responses
         = Some (retried_value meth
                   (retry_answer meth params (after_replay pre s))).
Proof.
  tidy.
  intros Hwf. unfold _handle_modular_update_error.
  destruct (replay_total requests [] s) as [responses H].
  exists responses. split; [assumption|]. split.
  - apply (replay_keys _ _ _ H). assumption.
  - intros pre meth params post ->.
    destruct (replay_app pre ((meth, params) :: post) [] s) as [mid [_ Happ]].
    rewrite Happ, replay_cons in H.
    rewrite (replay_other _ _ _ _ H).
    + apply dict_get_set_eq.
    + unfold dict_wf, dict_keys in Hwf. rewrite map_app in Hwf. simpl in Hwf.
      apply NoDup_remove_2 in Hwf. rewrite in_app_iff in Hwf.
      unfold dict_keys. tauto.
Qed.

(** ** One cycle of [_modular_update], phase by phase *)

Lemma log_append_nil (w : world env) : log_append w [] = w.
Proof.
  destruct w. unfold log_append. simpl. now rewrite app_nil_r. Qed.

Lemma log_append_app (w : world env) evs evs' :
  log_append (log_append w evs) evs' = log_append w (evs ++ evs').
Proof.
  unfold log_append. simpl. now rewrite app_assoc. Qed.

Lemma add_event_log_append (w : world env) ev :
  add_event w ev = log_append w [ev].
Proof.
  reflexivity. Qed.

Lemma run_hooks_eq S child owner items errors (s : world env * S) :
  run_hooks child owner items errors s
  = ((log_append (fst s) (hook_events child items), snd s),
     Ok (errors ++ failing owner items)).
Proof.
  revert errors s. induction items as [|[key m] items IH]; intros errors s.
  - simpl. unfold ret, failing. simpl.
    rewrite log_append_nil, app_nil_r. now destruct s.
  - simpl. unfold bind, emit. simpl.
    unfold failing. simpl.
    destruct (_post_update_hook owner m); simpl; rewrite IH; simpl;
      rewrite add_event_log_append, log_append_app; unfold failing; simpl;
      rewrite <- ?app_assoc; reflexivity.
Qed.

Lemma after_replay_snd S requests (s : world env * S) :
  snd (after_replay requests s) = snd s.
Proof.
  revert s. induction requests as [|[meth params] rest IH]; intros s; simpl; auto.
  now rewrite IH.
Qed.

Lemma batch_answered S first_update req (s : world env * S) e resp :
  protocol_query (remote (fst s)) req = (e, Ok resp) ->
  batch first_update req s
  = ((add_event (set_remote (fst s) e) (Sent req), snd s), Ok resp).
Proof.
  intros H. unfold batch, try_except, query. now rewrite H. Qed.

Lemma batch_raised S first_update req (s : world env * S) e ex :
  protocol_query (remote (fst s)) req = (e, Raise ex) ->
  batch first_update req s
  = _handle_modular_update_error ex first_update req
      (add_event (set_remote (fst s) e) (Sent req), snd s).
Proof.
  intros H. unfold batch, try_except, query. now rewrite H. Qed.

(** The batched request never raises out of the [try], and leaves the
    in-memory state alone. *)
Lemma batch_total S first_update req (s : world env * S) :
  exists s' resp, batch first_update req s = (s', Ok resp) /\ snd s' = snd s.
Proof.
  destruct (protocol_query (remote (fst s)) req) as [e [resp|ex]] eqn:H.
  - rewrite batch_answered with (1 := H). eauto.
  - rewrite batch_raised with (1 := H).
    unfold _handle_modular_update_error.
    destruct (replay_total req [] (add_event (set_remote (fst s) e) (Sent req), snd s))
      as [responses Hr].
    rewrite Hr. do 2 eexists. split; [reflexivity|].
    now rewrite after_replay_snd.
Qed.

Lemma modular_update_eq first_update update_time w d s2 resp :
  batch first_update (planned_request first_update update_time d)
        (w, with_modules d (planned_modules first_update update_time d))
  = (s2, Ok resp) ->
  _modular_update first_update update_time (w, d)
  = cycle_end first_update update_time d (fst s2) resp.
Proof.
  unfold planned_request, planned_modules, planned_queries, cycle_end.
  unfold planned_modules, planned_queries, planned.
  intros Hb.
  pose proof (batch_total first_update
                (snd (build_request first_update update_time
                        (filter (fun km => has_query (snd km)) (_modules d))
                        (_modules d) [] []))
                (w, with_modules d
                      (fst (fst (build_request first_update update_time
                        (filter (fun km => has_query (snd km)) (_modules d))
                        (_modules d) [] []))))) as Ht.
  rewrite Hb in Ht. destruct Ht as [s2' [resp' [Heq Hsnd]]].
  inversion Heq; subst s2' resp'. clear Heq.
  revert Hb Hsnd.
  unfold _modular_update, batch.
  unfold bind at 1. unfold get at 1. cbv beta. cbn [fst snd].
  destruct (build_request first_update update_time _ (_modules d) [] [])
    as [[modules module_queries] req].
  cbn [fst snd]. intros Hb Hsnd.
  unfold bind at 1. unfold put at 1. cbv beta. cbn [fst snd].
  unfold bind at 1. rewrite Hb.
  destruct s2 as [w2 d2]. cbn [fst snd] in *. subst d2.
  unfold bind at 1. unfold get at 1. cbv beta. cbn [fst snd].
  unfold bind at 1. unfold put at 1. cbv beta. cbn [fst snd].
  unfold bind at 1. unfold of_result at 1.
  cbn [_last_update with_modules].
  destruct (_try_get_response _ "get_device_info" None) as [info|e]; [|reflexivity].
  unfold bind, modify, get, ret. cbn [fst snd].
  rewrite run_hooks_eq. cbn [fst snd]. reflexivity.
Qed.

(** ** Removal and time stamps in the module dictionary *)

Lemma dict_keys_pop_incl V (k k' : string) (d : dict V) :
  In k (dict_keys (dict_pop k' d)) -> In k (dict_keys d).
Proof.
  tidy.
  induction d as [|[k0 v0] d IH]; simpl; auto.
  destruct (String.eqb k' k0); simpl; tauto.
Qed.

Lemma dict_wf_pop V (k : string) (d : dict V) :
  dict_wf d -> dict_wf (dict_pop k d).
Proof.
  tidy.
  unfold dict_wf. induction d as [|[k0 v0] d IH]; simpl; auto.
  intros Hwf. inversion Hwf; subst.
  destruct (String.eqb k k0); simpl; auto.
  constructor; auto. intros Hin. apply dict_keys_pop_incl in Hin. tauto.
Qed.

Lemma dict_get_pop V (k k' : string) (d : dict V) :
  dict_wf d ->
  dict_get k (dict_pop k' d) = if String.eqb k k' then None else dict_get k d.
Proof.
  unfold dict_wf. induction d as [|[k0 v0] d IH]; simpl; intros Hwf.
  - now destruct (String.eqb k k').
  - inversion Hwf as [|? ? Hnotin Hwf']; subst.
    destruct (String.eqb k' k0) eqn:E0.
    + apply String.eqb_eq in E0. subst k0.
      destruct (String.eqb k k') eqn:E; auto.
      apply String.eqb_eq in E. subst. now apply dict_get_None.
    + simpl. destruct (String.eqb k k0) eqn:E1.
      * apply String.eqb_eq in E1. subst k0.
        rewrite String.eqb_sym, E0. reflexivity.
      * now apply IH.
Qed.

Lemma pop_all_wf errors modules :
  dict_wf modules -> dict_wf (pop_all errors modules).
Proof.
  unfold pop_all. revert modules.
  induction errors as [|e errors IH]; simpl; auto using dict_wf_pop.
Qed.

Lemma pop_all_get errors modules k :
  dict_wf modules ->
  dict_get k (pop_all errors modules)
  = if list_mem k errors then None else dict_get k modules.
Proof.
  unfold pop_all, list_mem. revert modules.
  induction errors as [|e errors IH]; simpl; intros modules Hwf; auto.
  rewrite IH by now apply dict_wf_pop.
  rewrite dict_get_pop by assumption.
  destruct (String.eqb k e); simpl; auto.
  now destruct (existsb _ errors).
Qed.

Lemma set_last_update_time_twice m t :
  SmartModule.set_last_update_time (SmartModule.set_last_update_time m t) t
  = SmartModule.set_last_update_time m t.
Proof.
  reflexivity. Qed.

Lemma touch_get t modules key k :
  dict_get k (touch t modules key)
  = if String.eqb k key
    then option_map (fun m => SmartModule.set_last_update_time m t)
                    (dict_get k modules)
    else dict_get k modules.
Proof.
  unfold touch. destruct (String.eqb k key) eqn:E.
  - apply String.eqb_eq in E. subst key.
    destruct (dict_get k modules) eqn:G; simpl.
    + apply dict_get_set_eq.
    + assumption.
  - destruct (dict_get key modules); auto.
    apply dict_get_set_ne. intros ->. now rewrite String.eqb_refl in E.
Qed.

Lemma touch_all_get t keys modules k :
  dict_get k (fold_left (touch t) keys modules)
  = if list_mem k keys
    then option_map (fun m => SmartModule.set_last_update_time m t)
                    (dict_get k modules)
    else dict_get k modules.
Proof.
  unfold list_mem. revert modules.
  induction keys as [|key keys IH]; simpl; intros modules; auto.
  rewrite IH, touch_get.
  destruct (String.eqb k key); simpl.
  - destruct (existsb _ keys); destruct (dict_get k modules); reflexivity.
  - reflexivity.
Qed.

Lemma list_mem_In k l : list_mem k l = true <-> In k l.
Proof.
  unfold list_mem. rewrite existsb_exists. split.
  - intros [x [Hin Heq]]. apply String.eqb_eq in Heq. now subst.
  - intros H. exists k. split; auto. apply String.eqb_refl.
Qed.

(** ** The loop over [mq.items()] *)

Lemma filter_twice A (f g : A -> bool) l :
  filter f (filter g l) = filter (fun x => g x && f x) l.
Proof.
  induction l as [|x l IH]; simpl; auto.
  destruct (g x); simpl; [destruct (f x)|]; now rewrite IH.
Qed.

Lemma build_request_eq first_update update_time mq modules queries req :
  build_request first_update update_time mq modules queries req
  = (fold_left
       (fun ms km =>
          if bootstrap first_update (snd km)
          then dict_set (fst km)
                 (SmartModule.set_last_update_time (snd km) update_time) ms
          else ms) mq modules,
     queries
     ++ dict_keys
          (filter (fun km => negb (bootstrap first_update (snd km))
                             && interval_elapsed update_time (snd km)) mq),
     fold_left (fun r km => dict_update r (SmartModule.query (snd km)))
       (filter (fun km => negb (bootstrap first_update (snd km))
                          && interval_elapsed update_time (snd km)) mq)
       req).
Proof.
  revert modules queries req.
  induction mq as [|[key m] mq IH]; intros modules queries req.
  - simpl. now rewrite app_nil_r.
  - cbn [build_request filter fold_left fst snd].
    change (first_update && class_in (SmartModule.cls m) FIRST_UPDATE_MODULES)
      with (bootstrap first_update m).
    destruct (bootstrap first_update m); cbn [negb andb].
    + apply IH.
    + destruct (interval_elapsed update_time m).
      * rewrite IH. cbn [dict_keys map fold_left fst snd].
        rewrite <- app_assoc. reflexivity.
      * apply IH.
Qed.


Lemma planned_request_eq first_update update_time d :
  planned_request first_update update_time d
  = fold_left (fun r km => dict_update r (SmartModule.query (snd km)))
      (filter (fun km => included first_update update_time (snd km))
              (_modules d)) [].
Proof.
  unfold planned_request, planned. rewrite build_request_eq. simpl.
  rewrite filter_twice. f_equal. apply filter_ext. intros [k m]. simpl.
  unfold included. now rewrite andb_assoc.
Qed.



Lemma planned_modules_keys first_update update_time d :
  dict_keys (planned_modules first_update update_time d) = dict_keys (_modules d).
Proof.
  unfold planned_modules, planned. rewrite build_request_eq. simpl.
  assert (H : forall mq ms,
             (forall km, In km mq -> In (fst km) (dict_keys ms)) ->
             dict_keys
               (fold_left
                  (fun ms km =>
                     if bootstrap first_update (snd km)
                     then dict_set (fst km)
                            (SmartModule.set_last_update_time (snd km) update_time) ms
                     else ms) mq ms) = dict_keys ms).
  { induction mq as [|[k0 m0] mq IH]; intros ms Hin; simpl; auto.
    assert (Hk : In k0 (dict_keys ms)) by (apply (Hin (k0, m0)); simpl; auto).
    rewrite IH.
    - destruct (bootstrap first_update m0); auto. now apply dict_keys_set_in.
    - intros km Hkm. destruct (bootstrap first_update m0).
      + rewrite dict_keys_set_in by assumption. apply Hin. simpl; auto.
      + apply Hin. simpl; auto. }
  apply H. intros km Hkm. apply filter_In in Hkm. destruct Hkm as [Hkm _].
  unfold dict_keys. now apply in_map.
Qed.

Lemma planned_request_wf first_update update_time d :
  dict_wf (planned_request first_update update_time d).
Proof.
  rewrite planned_request_eq.
  assert (H : forall l (r : dict value),
             dict_wf r ->
             dict_wf (fold_left
                        (fun r (km : string * SmartModule.t) =>
                           dict_update r (SmartModule.query (snd km))) l r)).
  { induction l as [|km l IH]; simpl; auto.
    intros r Hr. apply IH. now apply dict_wf_update. }
  apply H. constructor.
Qed.


Lemma cycle_end_last_update first_update update_time d w2 resp :
  _last_update (snd (fst (cycle_end first_update update_time d w2 resp)))
  = dict_update (_last_update d) resp.
Proof.
  unfold cycle_end.
  destruct (_try_get_response _ "get_device_info" None); reflexivity.
Qed.

(** C1.  In an update cycle whose batched request raises, the request is
    replayed key by key from the state the failed batch left.  The replay
    always ends with a response; that response has exactly the keys of the
    batch request; under each key it holds the payload answered by the
    key's own retry, or the sentinel INTERNAL_QUERY_ERROR when that retry
    failed; the cycle goes on with that response; and however the cycle
    ends, the device's last-known-response map holds every key of the batch
    request with the value of that response. *)
Theorem batch_failure_keeps_every_key first_update update_time w d e ex :
  protocol_query (remote w) (planned_request first_update update_time d)
  = (e, Raise ex) ->
  let req := planned_request first_update update_time d in
  let s1 := (add_event (set_remote w e) (Sent req),
             with_modules d (planned_modules first_update update_time d)) in
  exists responses,
    _handle_modular_update_error ex first_update req s1
    = (after_replay req s1, Ok responses)
    /\ dict_keys responses = dict_keys req
    /\ (forall pre meth params post,
           req = pre ++ (meth, params) :: post ->
           dict_get meth responses
           = Some (retried_value meth
                     (retry_answer meth params (after_replay pre s1))))
    /\ _modular_update first_update update_time (w, d)
       = cycle_end first_update update_time d (fst (after_replay req s1))
                   responses
    /\ (forall k,
           In k (dict_keys req) ->
           exists v,
             dict_get k responses = Some v
             /\ dict_get k
                  (_last_update
                     (snd (fst (_modular_update first_update update_time (w, d)))))
                = Some v).
Proof.
  intros Hq req s1.
  destruct (fallback_responses ex first_update s1
              (planned_request_wf first_update update_time d))
    as [responses [Hrun [Hkeys Hvals]]].
  fold req in Hrun, Hkeys, Hvals.
  assert (Hcycle : _modular_update first_update update_time (w, d)
                   = cycle_end first_update update_time d
                       (fst (after_replay req s1)) responses).
  { apply modular_update_eq with (s2 := after_replay req s1).
    fold req.
    rewrite (@batch_raised DeviceCore first_update req
               (w, with_modules d (planned_modules first_update update_time d))
               e ex Hq).
    exact Hrun. }
  exists responses. repeat split; try assumption.
  intros k Hk. rewrite <- Hkeys in Hk.
  destruct (proj1 (dict_get_In _ _) Hk) as [v Hv].
  exists v. split; [assumption|].
  rewrite Hcycle, cycle_end_last_update, dict_get_update, Hv; auto.
  unfold dict_wf. rewrite Hkeys. apply planned_request_wf.
Qed.

(** ** Which modules a cycle queries and which it stamps *)

Lemma dict_get_In_pair V (k : string) (v : V) (d : dict V) :
  dict_wf d -> (In (k, v) d <-> dict_get k d = Some v).
Proof.
  tidy.
  unfold dict_wf. induction d as [|[k0 v0] d IH]; simpl; intros Hwf.
  - split; [tauto | discriminate].
  - inversion Hwf as [|? ? Hnotin Hwf']; subst.
    destruct (String.eqb k k0) eqn:E.
    + apply String.eqb_eq in E. subst k0. split.
      * intros [H|H]; [now inversion H|].
        exfalso. apply Hnotin. unfold dict_keys.
        change k with (fst (k, v)). now apply in_map.
      * intros H. inversion H. auto.
    + rewrite <- IH by assumption. split; auto.
      intros [H|H]; auto. inversion H; subst.
      now rewrite String.eqb_refl in E.
Qed.




(** With credentials, [update] samples the clock once, stores the sample as
    the time of the device's last update and runs the whole cycle on it. *)
Lemma update_samples_once update_children w d :
  (credentials d <> None \/ credentials_hash d <> None) ->
  update update_children (w, d)
  = update_cycle
      match _last_update_time d with None => true | Some _ => false end
      (snd (time_time (remote w))) update_children
      (add_event (set_remote w (fst (time_time (remote w)))) ClockRead,
       with_last_update_time d (Some (snd (time_time (remote w))))).
Proof.
  intros Hcred. unfold update, update_cycle.
  unfold bind at 1. unfold get at 1. cbn [fst snd].
  assert (Hc : forall A (x y : A),
             match credentials d, credentials_hash d with
             | None, None => x
             | _, _ => y
             end = y).
  { intros A x y. destruct (credentials d), (credentials_hash d); auto.
    destruct Hcred; congruence. }
  rewrite Hc.
  unfold bind at 1. unfold now at 1. cbn [fst snd].
  destruct (time_time (remote w)) as [e1 t]. cbn [fst snd].
  unfold bind at 1. unfold modify at 1. cbn [fst snd].
  reflexivity.
Qed.



Lemma planned_modules_later update_time d :
  planned_modules false update_time d = _modules d.
Proof.
  unfold planned_modules, planned. rewrite build_request_eq. simpl.
  generalize (filter (fun km => has_query (snd km)) (_modules d)).
  intros l. generalize (_modules d).
  induction l as [|km l IH]; simpl; auto.
Qed.


(** ** What a cycle writes to the log *)

Lemma after_replay_log S requests (s : world env * S) :
  log (fst (after_replay requests s))
  = log (fst s) ++ map (fun kv => Sent [kv]) requests.
Proof.
  revert s. induction requests as [|[meth params] rest IH]; intros s; simpl.
  - now rewrite app_nil_r.
  - rewrite IH. simpl. now rewrite <- app_assoc.
Qed.

Lemma batch_log S first_update req (s s2 : world env * S) resp :
  batch first_update req s = (s2, Ok resp) ->
  exists retries,
    log (fst s2) = log (fst s) ++ Sent req :: map (fun kv => Sent [kv]) retries.
Proof.
  destruct (protocol_query (remote (fst s)) req) as [e [r|ex]] eqn:H.
  - rewrite batch_answered with (1 := H). intros Heq. inversion Heq.
    exists []. reflexivity.
  - rewrite batch_raised with (1 := H).
    unfold _handle_modular_update_error.
    destruct (replay_total req [] (add_event (set_remote (fst s) e) (Sent req), snd s))
      as [responses Hr].
    rewrite Hr. intros Heq. inversion Heq.
    exists req. rewrite after_replay_log. simpl. now rewrite <- app_assoc.
Qed.

(** ** Failures of [update] *)

(** C8.  [update] on a device that has neither credentials nor a
    credentials hash raises AuthenticationError at once: the world (the
    remote end, the clock, the log of requests) and the device, its modules
    and children included, are exactly as they were. *)
Theorem update_without_credentials update_children w c last children :
  update update_children (w, mkDevice c None None last children)
  = ((w, mkDevice c None None last children), Raise AuthenticationError).
Proof.
  reflexivity. Qed.

Lemma with_modules_same d : with_modules d (_modules d) = d.
Proof.
  now destruct d. Qed.

Lemma update_later update_children w d t0 :
  (credentials d <> None \/ credentials_hash d <> None) ->
  _last_update_time d = Some t0 ->
  update update_children (w, d)
  = bind (on_core (_modular_update false (snd (time_time (remote w)))))
      (fun resp =>
         update_children_and_info update_children ;;; ensure_features)
      (add_event (set_remote w (fst (time_time (remote w)))) ClockRead,
       with_last_update_time d (Some (snd (time_time (remote w))))).
Proof.
  intros Hcred Hlast. unfold update.
  unfold bind at 1. unfold get at 1. cbn [fst snd].
  rewrite Hlast.
  assert (Hc : forall A (x y : A),
             match credentials d, credentials_hash d with
             | None, None => x
             | _, _ => y
             end = y).
  { intros A x y. destruct (credentials d), (credentials_hash d); auto.
    destruct Hcred; congruence. }
  rewrite Hc.
  unfold bind at 1. unfold now at 1. cbn [fst snd].
  destruct (time_time (remote w)) as [e1 t]. cbn [fst snd].
  unfold bind at 1. unfold modify at 1. cbn [fst snd].
  unfold bind at 1. unfold ret at 1.
  reflexivity.
Qed.

(** C6.  An update cycle after the first, on a device with credentials:
    when the response of the cycle (the batch's, or the fallback's) lacks
    "get_device_info" or holds an error code under it, [update] raises
    KasaException; the device it leaves has the cycle's response merged
    into its last-known-response map and the new cycle time, and is
    otherwise as before: same info, same modules with the same last-update
    times, same children; and no post-update hook has been invoked. *)
Theorem stale_info_raises update_children w d t0 s2 resp :
  (credentials d <> None \/ credentials_hash d <> None) ->
  _last_update_time d = Some t0 ->
  batch false
    (planned_request false (snd (time_time (remote w))) (core d))
    (add_event (set_remote w (fst (time_time (remote w)))) ClockRead, core d)
  = (s2, Ok resp) ->
  (dict_get "get_device_info" resp = None
   \/ exists code, dict_get "get_device_info" resp = Some (VErr code)) ->
  update update_children (w, d)
  = ((fst s2,
      mkDevice
        (with_last_update (core d) (dict_update (_last_update (core d)) resp))
        (credentials d) (credentials_hash d)
        (Some (snd (time_time (remote w)))) (_children d)),
     Raise KasaException)
  /\ (forall child module_name,
         In (Hooked child module_name) (log (fst s2)) ->
         In (Hooked child module_name) (log w)).
Proof.
  intros Hcred Hlast Hb Hinfo. split.
  - rewrite update_later with (1 := Hcred) (2 := Hlast).
    unfold bind at 1. unfold on_core at 1. cbn [fst snd core with_last_update_time].
    rewrite modular_update_eq with (s2 := s2) (resp := resp).
    + unfold cycle_end.
      assert (Hraise : _try_get_response resp "get_device_info" None
                       = Raise KasaException).
      { unfold _try_get_response.
        destruct Hinfo as [H|[code H]]; rewrite H; reflexivity. }
      rewrite Hraise. rewrite planned_modules_later, with_modules_same.
      reflexivity.
    + rewrite planned_modules_later, with_modules_same. exact Hb.
  - intros child module_name Hin.
    destruct (batch_log _ _ _ Hb) as [retries Hlog].
    rewrite Hlog in Hin. cbn [fst log add_event set_remote] in Hin.
    rewrite in_app_iff in Hin. destruct Hin as [Hin|Hin].
    + rewrite in_app_iff in Hin. destruct Hin as [Hin|[Hin|[]]]; auto.
      discriminate.
    + destruct Hin as [Hin|Hin]; [discriminate|].
      apply in_map_iff in Hin. destruct Hin as [kv [Heq _]]. discriminate.
Qed.

(** ** Rules for specifications *)


Lemma triple_bind S A B (P : S -> Prop) (m : M S A) (k : A -> M S B) Q Q' R :
  triple P m Q R ->
  (forall a, triple (Q a) (k a) Q' R) ->
  triple P (bind m k) Q' R.
Proof.
  intros Hm Hk s Hs. unfold bind. specialize (Hm s Hs).
  destruct (m s) as [s' [a|e]]; auto. now apply Hk.
Qed.

Lemma triple_ret S A (P : S -> Prop) (a : A) (R : S -> Prop) :
  triple P (ret a) (fun a' d => a' = a /\ P d) R.
Proof.
  intros s Hs. simpl. auto. Qed.


Lemma preserves_bind S A B (I : S -> Prop) (m : M S A) (k : A -> M S B) :
  preserves I m -> (forall a, preserves I (k a)) -> preserves I (bind m k).
Proof.
  intros Hm Hk. eapply triple_bind; [exact Hm | exact Hk]. Qed.

Lemma preserves_ret S A (I : S -> Prop) (a : A) : preserves I (ret a).
Proof.
  intros s Hs. exact Hs. Qed.

Lemma preserves_raise S A (I : S -> Prop) e : preserves I (@raise env S A e).
Proof.
  intros s Hs. exact Hs. Qed.

Lemma preserves_of_result S A (I : S -> Prop) (r : result A) :
  preserves I (of_result r).
Proof.
  intros s Hs. unfold of_result. destruct r; exact Hs. Qed.

Lemma preserves_get S (I : S -> Prop) : preserves I get.
Proof.
  intros s Hs. exact Hs. Qed.

Lemma preserves_modify S (I : S -> Prop) (f : S -> S) :
  (forall d, I d -> I (f d)) -> preserves I (modify f).
Proof.
  intros Hf s Hs. simpl. auto. Qed.

Lemma preserves_put S (I : S -> Prop) (x : S) : I x -> preserves I (put x).
Proof.
  intros Hx s Hs. exact Hx. Qed.

Lemma preserves_emit S (I : S -> Prop) ev : preserves I (emit ev).
Proof.
  intros s Hs. exact Hs. Qed.

Lemma preserves_query S (I : S -> Prop) req : preserves I (query req).
Proof.
  intros s Hs. unfold query.
  destruct (protocol_query (remote (fst s)) req) as [e [r|ex]]; exact Hs.
Qed.

Lemma preserves_now S (I : S -> Prop) : preserves I now.
Proof.
  intros s Hs. unfold now. destruct (time_time (remote (fst s))). exact Hs.
Qed.

Lemma preserves_try_except S A (I : S -> Prop) (m : M S A) h :
  preserves I m -> (forall e, preserves I (h e)) -> preserves I (try_except m h).
Proof.
  intros Hm Hh s Hs. unfold try_except. specialize (Hm s Hs).
  destruct (m s) as [s' [a|e]]; auto. now apply Hh.
Qed.

Lemma preserves_for_each S A (I : S -> Prop) (l : list A) (body : A -> M S unit) :
  (forall x, In x l -> preserves I (body x)) -> preserves I (for_each l body).
Proof.
  induction l as [|x l IH]; intros Hbody; simpl.
  - apply preserves_ret.
  - apply preserves_bind.
    + apply Hbody. simpl; auto.
    + intros _. apply IH. intros y Hy. apply Hbody. simpl; auto.
Qed.

Lemma preserves_if S A (I : S -> Prop) (b : bool) (m1 m2 : M S A) :
  preserves I m1 -> preserves I m2 -> preserves I (if b then m1 else m2).
Proof.
  now destruct b. Qed.

(** A computation on the own state of a device, seen from the device. *)
Lemma preserves_on_core A (I : SmartDevice -> Prop) (m : M DeviceCore A) :
  (forall d, I d -> preserves (fun c => I (with_core d c)) m) ->
  (forall d, I d -> I (with_core d (core d))) ->
  preserves I (on_core m).
Proof.
  intros Hm Hid s Hs. unfold on_core.
  specialize (Hm (snd s) Hs (fst s, core (snd s)) (Hid _ Hs)).
  destruct (m (fst s, core (snd s))) as [[w c] [a|e]]; exact Hm.
Qed.

Lemma preserves_on_child A (I : SmartDevice -> Prop) id (m : M DeviceCore A) :
  (forall d k, I d -> I (with_children d k)) ->
  preserves I (on_child id m).
Proof.
  intros Hk s Hs. unfold on_child.
  destruct (dict_get id (_children (snd s))) as [child|]; [|exact Hs].
  destruct (m (fst s, child)) as [[w c] [a|e]]; simpl; auto.
Qed.

Lemma preserves_update_child (I : SmartDevice -> Prop) id :
  (forall d k, I d -> I (with_children d k)) ->
  preserves I (update_child id).
Proof.
  intros Hk s Hs. unfold update_child.
  destruct (dict_get id (_children (snd s))) as [child|]; [|exact Hs].
  destruct (SmartChildDevice__update child (remote (fst s))) as [e' [c [a|e]]];
    simpl; auto.
Qed.

(** ** Pairing and unpairing *)

Lemma awaited_spec S A ms (m : M S A) (s : world env * S) :
  exists w' r,
    awaited ms m s = ((w', snd (fst (m s))), r)
    /\ log w' = log (fst (fst (m s)))
    /\ remote w' = remote (fst (fst (m s)))
    /\ deadline w' = deadline (fst (fst (m s)))
    /\ clock (fst s) <= clock w'
    /\ (forall a, r = Ok a ->
          snd (m s) = Ok a
          /\ clock w' = clock (fst s) + Z.max 0 (ms (fst s))
          /\ forall dl, deadline w' = Some dl -> clock w' < dl)
    /\ (forall dl, deadline w' = Some dl ->
          dl <= clock (fst s) + Z.max 0 (ms (fst s)) ->
          r = Raise TimeoutError).
Proof.
  unfold awaited. destruct (m s) as [[w1 d1] r1]. cbn [fst snd].
  destruct (deadline w1) as [dl|] eqn:Hdl;
    [destruct (dl <=? clock (fst s) + Z.max 0 (ms (fst s))) eqn:Hle;
     [apply Z.leb_le in Hle | apply Z.leb_gt in Hle]|];
    do 2 eexists; (split; [reflexivity|]);
    cbn [log remote deadline clock set_clock];
    repeat split; intros;
    repeat match goal with
           | H : deadline w1 = Some _, H' : deadline w1 = _ |- _ =>
               rewrite H in H'; inversion H'; clear H'; subst
           end;
    auto; try discriminate; try congruence; try lia.
Qed.

(** A request through [_query_helper] is one request on the wire and
    leaves the device alone, however it ends. *)
Lemma query_helper_spec S method params (s : world env * S) :
  exists w' r,
    _query_helper method params s = ((w', snd s), r)
    /\ log w' = log (fst s) ++ [Sent [(method, params)]]
    /\ deadline w' = deadline (fst s)
    /\ clock (fst s) <= clock w'
    /\ (forall a, r = Ok a ->
          snd (protocol_query (remote (fst s)) [(method, params)]) = Ok a)
    /\ (deadline (fst s) = None ->
          r = snd (protocol_query (remote (fst s)) [(method, params)])).
Proof.
  unfold _query_helper.
  destruct (awaited_spec (fun w => latency (remote w) [(method, params)])
              (query [(method, params)]) s)
    as [w' [r [Heq [Hlog [_ [Hdl [Hclock [Hok _]]]]]]]].
  revert Heq Hlog Hdl Hok. unfold query at 2 3 4 5.
  destruct (protocol_query (remote (fst s)) [(method, params)]) as [e' r'] eqn:Hq.
  cbn [fst snd]. intros Heq Hlog Hdl Hok.
  exists w', r. repeat split; auto.
  - intros a Ha. now apply Hok.
  - intros Hnone. revert Heq. unfold awaited, query. rewrite Hq.
    cbn [fst snd add_event set_remote deadline]. rewrite Hnone.
    intros Heq. now inversion Heq.
Qed.

Lemma add_devices_spec devices (s : world env * SmartDevice) :
  exists w' r,
    log w' = log (fst s) ++ [Sent [("add_child_device_list", devices)]]
    /\ deadline w' = deadline (fst s)
    /\ ((exists res,
            r = Ok res
            /\ ChildSetup_add_devices devices s
               = ((w', fst (request_renegotiation (snd s))),
                  match snd (request_renegotiation (snd s)) with
                  | Ok _ => Ok res
                  | Raise e => Raise e
                  end))
        \/ (exists e,
               r = Raise e
               /\ ChildSetup_add_devices devices s = ((w', snd s), Raise e)))
    /\ (deadline (fst s) = None ->
        r = snd (protocol_query (remote (fst s))
                   [("add_child_device_list", devices)])).
Proof.
  destruct (query_helper_spec "add_child_device_list" devices s)
    as [w' [r [Heq [Hlog [Hdl [_ [_ Hnone]]]]]]].
  exists w', r. repeat split; auto.
  unfold ChildSetup_add_devices, bind. rewrite Heq.
  destruct r as [res|e]; [left; exists res | right; exists e]; auto.
  split; [reflexivity|]. unfold renegotiate. cbn [fst snd].
  destruct (snd (request_renegotiation (snd s))) as [[]|e]; reflexivity.
Qed.

Lemma unpair_spec device_id (s : world env * SmartDevice) :
  exists w' r,
    log w' = log (fst s)
             ++ [Sent [("remove_child_device_list",
                        VDict [("child_device_list",
                                VList [VDict [("device_id", VStr device_id)]])])]]
    /\ ((exists res,
            r = Ok res
            /\ ChildSetup_unpair device_id s
               = ((w', fst (request_renegotiation (snd s))),
                  match snd (request_renegotiation (snd s)) with
                  | Ok _ => Ok res
                  | Raise e => Raise e
                  end))
        \/ (exists e,
               r = Raise e
               /\ ChildSetup_unpair device_id s = ((w', snd s), Raise e))).
Proof.
  destruct (query_helper_spec "remove_child_device_list"
              (VDict [("child_device_list",
                       VList [VDict [("device_id", VStr device_id)]])]) s)
    as [w' [r [Heq [Hlog _]]]].
  exists w', r. split; auto.
  unfold ChildSetup_unpair, bind. rewrite Heq.
  destruct r as [res|e]; [left; exists res | right; exists e]; auto.
  split; [reflexivity|]. unfold renegotiate. cbn [fst snd].
  destruct (snd (request_renegotiation (snd s))) as [[]|e]; reflexivity.
Qed.

(** C10.  [unpair] puts exactly one request on the wire, the removal
    request whose child list holds the given device id and nothing else;
    the add operation of pairing puts exactly its one add request.  Neither
    writes to the child map: whatever they answer, the children of the
    device afterwards are the children before, [request_renegotiation]
    (which no class of this file defines), whether it returns or raises,
    leaving the child map to the re-negotiation it asks for. *)
Theorem unpair_leaves_children device_id devices w d :
  (forall x, _children (fst (request_renegotiation x)) = _children x) ->
  (exists w' d' r,
      ChildSetup_unpair device_id (w, d) = ((w', d'), r)
      /\ log w' = log w
                  ++ [Sent [("remove_child_device_list",
                             VDict [("child_device_list",
                                     VList [VDict [("device_id",
                                                    VStr device_id)]])])]]
      /\ _children d' = _children d)
  /\ (exists w' d' r,
         ChildSetup_add_devices devices (w, d) = ((w', d'), r)
         /\ log w' = log w ++ [Sent [("add_child_device_list", devices)]]
         /\ _children d' = _children d).
Proof.
  intros Hkeep. split.
  - destruct (unpair_spec device_id (w, d))
      as [w' [r [Hlog [[res [_ Heq]]|[e [_ Heq]]]]]];
      do 3 eexists; (split; [exact Heq|]); split; auto.
  - destruct (add_devices_spec devices (w, d))
      as [w' [r [Hlog [_ [[[res [_ Heq]]|[e [_ Heq]]] _]]]]];
      do 3 eexists; (split; [exact Heq|]); split; auto.
Qed.

Lemma sleep_spec S ms (s : world env * S) :
  exists w' r,
    sleep ms s = ((w', snd s), r)
    /\ log w' = log (fst s)
    /\ deadline w' = deadline (fst s)
    /\ (r = Ok tt -> clock w' = clock (fst s) + Z.max 0 ms)
    /\ (r = Ok tt \/ r = Raise TimeoutError)
    /\ (forall dl, deadline (fst s) = Some dl ->
          dl <= clock (fst s) + Z.max 0 ms -> r = Raise TimeoutError).
Proof.
  unfold sleep.
  destruct (awaited_spec (fun _ => ms) (ret tt) s)
    as [w' [r [Heq [Hlog [_ [Hdl [_ [Hok Hcut]]]]]]]].
  cbn [ret fst snd] in *.
  exists w', r. rewrite Hdl in Hcut. repeat split; auto.
  - intros ->. now apply (Hok tt).
  - revert Heq. unfold awaited, ret. cbn [fst snd].
    destruct (deadline (fst s)) as [dl|];
      [destruct (dl <=? _)|]; intros Heq; inversion Heq; auto.
Qed.

Lemma get_detected_devices_spec (s : world env * SmartDevice) :
  exists w' r,
    ChildSetup_get_detected_devices s = ((w', snd s), r)
    /\ deadline w' = deadline (fst s)
    /\ clock (fst s) <= clock w'
    /\ (forall ev, In ev (log w') ->
          In ev (log (fst s)) \/ is_add_request ev = false).
Proof.
  unfold ChildSetup_get_detected_devices, call.
  unfold bind at 1. unfold get at 1. cbn [fst snd].
  unfold bind at 1. unfold of_result at 1.
  destruct (supported_device_categories (snd s)) as [scan_list|e].
  - unfold bind at 1.
    destruct (query_helper_spec "get_scan_child_device_list"
                (VDict [("scan_list", scan_list)]) s)
      as [w' [r [Heq [Hlog [Hdl [Hclock _]]]]]].
    rewrite Heq.
    assert (Hev : forall ev, In ev (log w') ->
                    In ev (log (fst s)) \/ is_add_request ev = false).
    { intros ev Hin. rewrite Hlog, in_app_iff in Hin.
      destruct Hin as [Hin|[<-|[]]]; auto. }
    destruct r as [res|e]; [unfold of_result|]; do 2 eexists; eauto.
  - exists (fst s), (Raise e). destruct s. cbn. repeat split; auto; lia.
Qed.

Lemma scan_turn_spec (s : world env * SmartDevice) :
  exists w' r,
    scan_turn s = ((w', snd s), r)
    /\ deadline w' = deadline (fst s)
    /\ (forall a, r = Ok a -> clock (fst s) + 500 <= clock w')
    /\ (forall dl, deadline (fst s) = Some dl ->
          dl <= clock (fst s) + 500 -> r = Raise TimeoutError)
    /\ (forall ev, In ev (log w') ->
          In ev (log (fst s)) \/ is_add_request ev = false).
Proof.
  unfold scan_turn. unfold bind at 1.
  destruct (sleep_spec 500 s) as [w1 [r1 [Heq1 [Hlog1 [Hdl1 [Hclock1 [Hr1 Hcut1]]]]]]].
  rewrite Heq1. change (Z.max 0 500) with 500 in *.
  destruct Hr1 as [->| ->].
  - unfold bind at 1.
    destruct (get_detected_devices_spec (w1, snd s))
      as [w2 [r2 [Heq2 [Hdl2 [Hclock2 Hlog2]]]]].
    cbn [fst snd] in *. rewrite Heq2.
    specialize (Hclock1 eq_refl).
    assert (Hcut : forall dl, deadline (fst s) = Some dl ->
                     dl <= clock (fst s) + 500 ->
                     @Ok unit tt = Raise TimeoutError) by exact Hcut1.
    destruct r2 as [res|e].
    + unfold bind, of_result, ret.
      destruct (subscript res "child_device_list") as [found|e];
        do 2 eexists; (split; [reflexivity|]);
        (repeat split; [congruence | intros; lia
                       | intros dl H1 H2; now discriminate (Hcut dl H1 H2)
                       | intros ev Hin; rewrite <- Hlog1; auto]).
    + do 2 eexists. split; [reflexivity|].
      repeat split; [congruence | intros; lia
                    | intros dl H1 H2; now discriminate (Hcut dl H1 H2)
                    | intros ev Hin; rewrite <- Hlog1; auto].
  - do 2 eexists. split; [reflexivity|].
    repeat split; auto; try discriminate.
    intros ev Hin. rewrite <- Hlog1. auto.
Qed.

Lemma scan_S turns (s : world env * SmartDevice) :
  scan (S turns) s
  = match scan_turn s with
    | (s', Ok (res, found)) =>
        if truthy found then (s', Ok res) else scan turns s'
    | (s', Raise e) => (s', Raise e)
    end.
Proof.
  cbn [scan]. unfold scan_turn, bind.
  destruct (sleep 500 s) as [s1 [[]|e]]; auto.
  destruct (ChildSetup_get_detected_devices s1) as [s2 [res|e]]; auto.
  unfold of_result, ret.
  destruct (subscript res "child_device_list") as [found|e]; auto.
  now destruct (truthy found).
Qed.

(** The turns given to the loop are enough: inside a timeout block it
    follows the unbounded loop to its end. *)
Lemma scan_adequate turns : forall (s : world env * SmartDevice) dl,
  deadline (fst s) = Some dl ->
  dl - clock (fst s) <= 500 * Z.of_nat (S turns) ->
  scanning s (scan (S turns) s).
Proof.
  induction turns as [|turns IH]; intros s dl Hdl Hfuel;
    rewrite scan_S;
    destruct (scan_turn_spec s) as [w' [r [Heq [Hdl' [Hclock [Hcut Hlog]]]]]];
    rewrite Heq; destruct r as [[res found]|e].
  - assert (H : @Ok (value * value) (res, found) = Raise TimeoutError)
      by (apply (Hcut dl Hdl); lia).
    discriminate.
  - now apply scanning_raised.
  - destruct (truthy found) eqn:Hfound.
    + eapply scanning_found; eauto.
    + eapply scanning_again; eauto.
      apply (IH _ dl).
      * cbn [fst]. congruence.
      * cbn [fst]. specialize (Hclock _ eq_refl). lia.
  - now apply scanning_raised.
Qed.

Lemma scanning_deterministic s out1 :
  scanning s out1 -> forall out2, scanning s out2 -> out1 = out2.
Proof.
  induction 1 as [s s' res found Hturn Hfound
                 |s s' res found out Hturn Hfound Hrest IH
                 |s s' e Hturn];
    intros out2 H2; inversion H2; subst;
    match goal with
    | H : scan_turn s = _ |- _ => rewrite Hturn in H; inversion H; subst
    end; try congruence; auto.
Qed.

Lemma scanning_frame s out :
  scanning s out ->
  snd (fst out) = snd s
  /\ deadline (fst (fst out)) = deadline (fst s)
  /\ forall ev, In ev (log (fst (fst out))) ->
                In ev (log (fst s)) \/ is_add_request ev = false.
Proof.
  induction 1 as [s s' res found Hturn Hfound
                 |s s' res found out Hturn Hfound Hrest IH
                 |s s' e Hturn];
    destruct (scan_turn_spec s) as [w' [r [Heq [Hdl [_ [_ Hlog]]]]]];
    rewrite Heq in Hturn; inversion Hturn; subst; cbn [fst snd] in *; auto.
  destruct IH as [IH1 [IH2 IH3]]. repeat split; try congruence.
  intros ev Hin. destruct (IH3 ev Hin); auto.
Qed.

Lemma scanning_found_truthy s s' res :
  scanning s (s', Ok res) ->
  exists found, subscript res "child_device_list" = Ok found
                /\ truthy found = true.
Proof.
  intros H. remember (s', Ok res) as out eqn:Hout.
  induction H as [s s1 res1 found Hturn Hfound
                 |s s1 res1 found out Hturn Hfound Hrest IH
                 |s s1 e Hturn]; auto; [|discriminate].
  inversion Hout; subst. exists found. split; auto.
  revert Hturn. unfold scan_turn, bind.
  destruct (sleep 500 s) as [s2 [[]|e]]; [|discriminate].
  destruct (ChildSetup_get_detected_devices s2) as [s3 [res2|e]]; [|discriminate].
  unfold of_result, ret.
  destruct (subscript res2 "child_device_list") eqn:E; intros H; inversion H.
  now subst.
Qed.

Lemma scan_turns_enough timeout :
  timeout <= 500 * Z.of_nat (scan_turns timeout).
Proof.
  unfold scan_turns. rewrite Nat2Z.inj_succ.
  destruct (Z.le_gt_cases 0 timeout) as [Hpos|Hneg].
  - rewrite Z2Nat.id by (apply Z.div_pos; lia).
    pose proof (Z.mod_pos_bound timeout 500 ltac:(lia)).
    pose proof (Z.div_mod timeout 500 ltac:(lia)). lia.
  - assert (H : 0 <= Z.of_nat (Z.to_nat (timeout / 500))) by lia. lia.
Qed.

Lemma subscript_truthy v k x : subscript v k = Ok x -> truthy v = true.
Proof.
  destruct v; simpl; try discriminate.
  destruct d; simpl; [discriminate | reflexivity].
Qed.

(** C7.  A run of [pair] with timeout [timeout] whose begin-scanning
    request is answered.  The polling loop always ends.  If it ends at a
    poll answering a non-empty discovered list (all earlier polls having
    answered an empty one, before the deadline), the operation sends
    exactly one request after that poll, the add request carrying that
    answer, no add request having been sent before.  When the add request
    raises, the operation raises the same.  When it is answered, the
    operation calls [request_renegotiation] on the device before it
    returns: it returns the answer if that call returns, and raises what
    the call raises otherwise, the answer being lost.  If the loop ends by
    the timeout, the operation returns no result, without raising, and no
    add request has been sent. *)
Theorem pair_spec timeout w d s1 r0 :
  call "begin_scanning_child_device" VNone (w, d) = (s1, Ok r0) ->
  let start := (set_deadline (fst s1) (Some (clock (fst s1) + timeout)), snd s1) in
  (exists out, scanning start out)
  /\ (forall s2 res found,
         scanning start (s2, Ok res) ->
         subscript res "child_device_list" = Ok (VList found) ->
         exists w3 r,
           log w3 = log (fst s2) ++ [Sent [("add_child_device_list", res)]]
           /\ (forall ev, In ev (log (fst s2)) -> is_add_request ev = true ->
                          In ev (log w))
           /\ ((exists answer,
                   r = Ok answer
                   /\ ChildSetup_pair timeout (w, d)
                      = ((w3, fst (request_renegotiation (snd s2))),
                         match snd (request_renegotiation (snd s2)) with
                         | Ok _ => Ok (Some answer)
                         | Raise e => Raise e
                         end))
               \/ (exists e,
                      r = Raise e
                      /\ ChildSetup_pair timeout (w, d) = ((w3, snd s2), Raise e)))
           /\ (deadline w = None ->
               r = snd (protocol_query (remote (fst s2))
                          [("add_child_device_list", res)])))
  /\ (forall s2,
         scanning start (s2, Raise TimeoutError) ->
         ChildSetup_pair timeout (w, d)
         = ((set_deadline (fst s2) (deadline (fst s1)), snd s2), Ok None)
         /\ forall ev, In ev (log (fst s2)) -> is_add_request ev = true ->
                       In ev (log w)).
Proof.
  intros Hcall start.
  assert (Hend : scanning start (scan (scan_turns timeout) start)).
  { apply scan_adequate with (dl := clock (fst s1) + timeout).
    - reflexivity.
    - subst start. cbn [fst clock set_deadline].
      pose proof (scan_turns_enough timeout). unfold scan_turns in *. lia. }
  assert (Hbegin : forall ev, In ev (log (fst s1)) -> is_add_request ev = true ->
                     In ev (log w)).
  { unfold call in Hcall.
    destruct (query_helper_spec "begin_scanning_child_device" VNone (w, d))
      as [w' [r [Heq [Hlog _]]]].
    rewrite Heq in Hcall. inversion Hcall; subst. cbn [fst] in *.
    intros ev Hin Hadd. rewrite Hlog, in_app_iff in Hin.
    destruct Hin as [Hin|[<-|[]]]; auto. discriminate. }
  assert (Hdl1 : deadline (fst s1) = deadline w).
  { unfold call in Hcall.
    destruct (query_helper_spec "begin_scanning_child_device" VNone (w, d))
      as [w' [r [Heq [_ [Hdl _]]]]].
    rewrite Heq in Hcall. inversion Hcall; subst. exact Hdl. }
  assert (Hlog2 : forall s2 r, scanning start (s2, r) ->
                    forall ev, In ev (log (fst s2)) -> is_add_request ev = true ->
                               In ev (log w)).
  { intros s2 r Hscan ev Hin Hadd.
    destruct (scanning_frame Hscan) as [_ [_ Hlog]]. cbn [fst snd] in Hlog.
    destruct (Hlog ev Hin) as [H|H]; [|congruence].
    apply Hbegin; auto. }
  split; [eauto|]. split.
  - intros s2 res found Hscan Hfound.
    pose proof (scanning_deterministic Hend Hscan) as Hrun.
    destruct (add_devices_spec res (set_deadline (fst s2) (deadline (fst s1)), snd s2))
      as [w3 [r [Hlog3 [_ [Hadd Hnone]]]]].
    cbn [fst snd log set_deadline deadline remote] in *.
    exists w3, r. split; [assumption|]. split; [eauto|]. split.
    + assert (Hpair : ChildSetup_pair timeout (w, d)
                      = match ChildSetup_add_devices res
                                (set_deadline (fst s2) (deadline (fst s1)), snd s2) with
                        | (s3, Ok x) => (s3, Ok (Some x))
                        | (s3, Raise e) => (s3, Raise e)
                        end).
      { unfold ChildSetup_pair. unfold bind at 1. rewrite Hcall.
        unfold bind at 1. unfold try_except, asyncio_timeout.
        fold start. rewrite Hrun. cbn [fst snd].
        rewrite (subscript_truthy _ _ Hfound). cbn [negb].
        unfold bind at 1. unfold of_result at 1. rewrite Hfound.
        unfold bind at 1. unfold of_result at 1. cbn [py_len].
        unfold bind at 1.
        destruct (ChildSetup_add_devices res _) as [s3 [x|e]]; reflexivity. }
      rewrite Hpair.
      destruct Hadd as [[x [-> Heq]]|[e [-> Heq]]]; rewrite Heq; [left|right]; eauto.
      exists x. split; [reflexivity|].
      destruct (snd (request_renegotiation (snd s2))) as [[]|e]; reflexivity.
    + intros Hw. apply Hnone. congruence.
  - intros s2 Hscan.
    pose proof (scanning_deterministic Hend Hscan) as Hrun.
    split; [|eauto].
    unfold ChildSetup_pair. unfold bind at 1. rewrite Hcall.
    unfold bind at 1. unfold try_except, asyncio_timeout.
    fold start. rewrite Hrun. reflexivity.
Qed.

(** ** The feature registry *)

Lemma dict_get_set_inv V (k k' : string) (v v' : V) d :
  dict_get k' (dict_set k v d) = Some v' -> v' = v \/ dict_get k' d = Some v'.
Proof.
  destruct (string_dec k k') as [<-|Hne].
  - rewrite dict_get_set_eq. intros H. inversion H. auto.
  - rewrite dict_get_set_ne by assumption. auto.
Qed.



(** ** A module that is gone stays gone *)

Lemma pop_all_keys_incl errors modules k :
  In k (dict_keys (pop_all errors modules)) -> In k (dict_keys modules).
Proof.
  unfold pop_all. revert modules.
  induction errors as [|e errors IH]; simpl; intros modules; auto.
  intros H. apply IH in H. now apply dict_keys_pop_incl in H.
Qed.

Lemma touch_all_keys t keys modules :
  dict_keys (fold_left (touch t) keys modules) = dict_keys modules.
Proof.
  revert modules. induction keys as [|key keys IH]; simpl; intros modules; auto.
  rewrite IH. unfold touch.
  destruct (dict_get key modules) eqn:H; auto.
  apply dict_keys_set_in. apply dict_get_In. eauto.
Qed.

Lemma modular_update_keys first_update update_time w d k :
  In k (dict_keys
          (_modules (snd (fst (_modular_update first_update update_time (w, d)))))) ->
  In k (dict_keys (_modules d)).
Proof.
  destruct (batch_total first_update (planned_request first_update update_time d)
              (w, with_modules d (planned_modules first_update update_time d)))
    as [s2 [resp [Hb _]]].
  rewrite modular_update_eq with (1 := Hb). unfold cycle_end.
  destruct (_try_get_response _ "get_device_info" None) as [info|e];
    cbn [fst snd _modules with_modules with_info with_last_update].
  - rewrite touch_all_keys. intros H. apply pop_all_keys_incl in H.
    now rewrite planned_modules_keys in H.
  - now rewrite planned_modules_keys.
Qed.

Lemma modular_update_wf first_update update_time w d :
  dict_wf (_modules d) ->
  dict_wf (_modules (snd (fst (_modular_update first_update update_time (w, d))))).
Proof.
  intros Hwf.
  destruct (batch_total first_update (planned_request first_update update_time d)
              (w, with_modules d (planned_modules first_update update_time d)))
    as [s2 [resp [Hb _]]].
  rewrite modular_update_eq with (1 := Hb). unfold cycle_end.
  assert (Hp : dict_wf (planned_modules first_update update_time d)).
  { unfold dict_wf. now rewrite planned_modules_keys. }
  destruct (_try_get_response _ "get_device_info" None) as [info|e];
    cbn [fst snd _modules with_modules with_info with_last_update]; auto.
  unfold dict_wf. rewrite touch_all_keys. now apply pop_all_wf.
Qed.

Lemma modular_update_features first_update update_time w d :
  _features (snd (fst (_modular_update first_update update_time (w, d))))
  = _features d.
Proof.
  destruct (batch_total first_update (planned_request first_update update_time d)
              (w, with_modules d (planned_modules first_update update_time d)))
    as [s2 [resp [Hb _]]].
  rewrite modular_update_eq with (1 := Hb). unfold cycle_end.
  destruct (_try_get_response _ "get_device_info" None); reflexivity.
Qed.

(** ** Invariants of the update cycle *)

Lemma with_core_same d : with_core d (core d) = d.
Proof.
  now destruct d. Qed.

Lemma preserves_device_type (I : SmartDevice -> Prop) :
  stable I -> preserves I (on_core device_type).
Proof.
  intros [_ Hty] s Hs. unfold on_core, device_type, bind, get. cbn [fst snd].
  destruct (_device_type (core (snd s)));
    try (cbn; now rewrite with_core_same).
  unfold of_result.
  destruct (subscript (_info (core (snd s))) "type") as [tag|e];
    [|cbn; now rewrite with_core_same].
  destruct tag; try (cbn; now rewrite with_core_same).
  cbn. now apply Hty.
Qed.

Ltac frame :=
  repeat first
    [ apply preserves_ret
    | apply preserves_of_result
    | apply preserves_get
    | apply preserves_query
    | apply preserves_update_child; [solve [intuition]]
    | apply preserves_on_child; [solve [intuition]]
    | apply preserves_device_type; [assumption]
    | apply preserves_bind; [|intros ?]
    | apply preserves_for_each; intros ? ?
    | match goal with
      | |- preserves _ (if ?b then _ else _) => destruct b
      | |- preserves _ (match ?x with _ => _ end) => destruct x
      end ].

(** The steps of [update] between [_modular_update] and the feature
    registry. *)
Lemma update_children_preserves (I : SmartDevice -> Prop) update_children :
  stable I -> preserves I (update_children_and_info update_children).
Proof.
  tidy.
  intros Hst. pose proof Hst as [Hk Hty].
  unfold update_children_and_info, push_child_info, sweep_child. frame.
Qed.


Lemma preserves_same_state S A (I : S -> Prop) (m : M S A) :
  (forall s, snd (fst (m s)) = snd s) -> preserves I m.
Proof.
  intros Hm s Hs. specialize (Hm s).
  destruct (m s) as [[w d] [a|e]]; cbn in *; now subst.
Qed.

Lemma preserves_initialize_own_features (I : DeviceCore -> Prop) :
  (forall c f, I c -> I (_add_feature f c)) ->
  preserves I _initialize_own_features.
Proof.
  intros Hadd. unfold _initialize_own_features.
  repeat first
    [ apply preserves_ret | apply preserves_of_result | apply preserves_get
    | apply preserves_modify; intros ? ?; apply Hadd; assumption
    | apply preserves_bind; [|intros ?]
    | apply preserves_for_each; intros ? ?
    | match goal with
      | |- preserves _ (if ?b then _ else _) => destruct b
      end ].
Qed.

Lemma preserves_initialize_features (I : SmartDevice -> Prop) :
  (forall d f, I d -> I (with_core d (_add_feature f (core d)))) ->
  (forall d k, I d -> I (with_children d k)) ->
  preserves I _initialize_features.
Proof.
  intros Hadd Hk. unfold _initialize_features.
  apply preserves_bind.
  - apply preserves_on_core.
    + intros d Hd. apply preserves_initialize_own_features.
      intros c f Hc. apply (Hadd (with_core d c) f Hc).
    + intros d Hd. now rewrite with_core_same.
  - intros _. apply preserves_bind; [apply preserves_get|]. intros d.
    apply preserves_for_each. intros id _. now apply preserves_on_child.
Qed.

Lemma preserves_ensure_features (I : SmartDevice -> Prop) :
  (forall d f, I d -> I (with_core d (_add_feature f (core d)))) ->
  (forall d k, I d -> I (with_children d k)) ->
  preserves I ensure_features.
Proof.
  intros Hadd Hk. unfold ensure_features.
  apply preserves_bind; [apply preserves_get|]. intros d.
  destruct (_features (core d)).
  - now apply preserves_initialize_features.
  - apply preserves_ret.
Qed.

Lemma preserves_on_core_modular_update (I : SmartDevice -> Prop) first_update t :
  (forall d w, I d ->
     I (with_core d (snd (fst (_modular_update first_update t (w, core d)))))) ->
  preserves I (on_core (_modular_update first_update t)).
Proof.
  intros H s Hs. unfold on_core. specialize (H (snd s) (fst s) Hs).
  destruct (_modular_update first_update t (fst s, core (snd s))) as [[w c] [a|e]];
    exact H.
Qed.

Lemma update_keeps_evicted key update_children w d :
  evicted key d -> evicted key (snd (fst (update update_children (w, d)))).
Proof.
  tidy.
  intros [Habsent Hlater].
  destruct (_last_update_time d) as [t0|] eqn:Hlast; [|congruence].
  destruct (credentials d) as [c|] eqn:Hc.
  2: destruct (credentials_hash d) as [h|] eqn:Hh.
  3: { unfold update, bind, get. cbn [fst snd]. rewrite Hc, Hh.
       cbn [raise fst snd]. split; [assumption | congruence]. }
  all: rewrite update_later with (t0 := t0);
    [|rewrite ?Hc, ?Hh; auto; (left; congruence) || (right; congruence)|assumption].
  all: assert (Hpres : preserves (evicted key)
                (bind (on_core (_modular_update false (snd (time_time (remote w)))))
                   (fun _ => update_children_and_info update_children ;;;
                             ensure_features)));
    [ apply preserves_bind;
      [ apply preserves_on_core_modular_update;
        intros d0 w0 [Ha Hl]; split; [|exact Hl];
        cbn [core with_core]; intros Hin;
        apply modular_update_keys in Hin; tauto
      | intros _; apply preserves_bind;
        [ apply update_children_preserves; split; intros; assumption
        | intros _; apply preserves_ensure_features; intros; assumption ] ]
    | ].
  all: match goal with
       | |- evicted _ (snd (fst (?m ?s))) =>
           specialize (Hpres s); destruct (m s) as [[w' d'] [a|e]];
             apply Hpres; split; cbn; auto; discriminate
       end.
Qed.

(** ** Negotiation and module loading leave the features alone *)

Lemma preserves_components_of S (I : S -> Prop) l acc :
  preserves I (@components_of S l acc).
Proof.
  revert acc. induction l as [|comp l IH]; intros acc; simpl.
  - apply preserves_ret.
  - repeat (apply preserves_bind; [apply preserves_of_result|intros ?]).
    apply IH.
Qed.

Lemma preserves_children_components_of S (I : S -> Prop) l acc :
  preserves I (@children_components_of S l acc).
Proof.
  revert acc. induction l as [|child l IH]; intros acc; simpl.
  - apply preserves_ret.
  - repeat (apply preserves_bind; [apply preserves_of_result|intros ?]).
    apply preserves_bind; [apply preserves_components_of|intros ?].
    apply IH.
Qed.

Lemma preserves_create_children (I : SmartDevice -> Prop) l comps acc :
  preserves I (create_children l comps acc).
Proof.
  revert acc. induction l as [|child l IH]; intros acc; simpl.
  - apply preserves_ret.
  - repeat (apply preserves_bind; [apply preserves_of_result|intros ?]).
    destruct (dict_get _ comps); [|apply preserves_raise].
    apply preserves_bind; [|intros ?; apply IH].
    apply preserves_same_state. intros s.
    destruct (SmartChildDevice_create _ _ _ _); reflexivity.
Qed.

Lemma negotiate_keeps_features before :
  preserves (fun d => _features (core d) = before) _negotiate.
Proof.
  unfold _negotiate, _initialize_children.
  repeat first
    [ apply preserves_ret | apply preserves_of_result | apply preserves_get
    | apply preserves_query
    | apply preserves_components_of
    | apply preserves_children_components_of
    | apply preserves_create_children
    | apply preserves_modify; intros ? ?; assumption
    | apply preserves_bind; [|intros ?]
    | match goal with
      | |- preserves _ (if ?b then _ else _) => destruct b
      end ].
Qed.

Lemma preserves_register_modules (I : DeviceCore -> Prop) skip mods :
  (forall c ms, I c -> I (with_modules c ms)) ->
  preserves I (register_modules skip mods).
Proof.
  intros Hms. induction mods as [|md mods IH]; cbn [register_modules].
  - apply preserves_ret.
  - destruct (skip && class_in (mod_class md) NON_HUB_PARENT_ONLY_MODULES);
      [exact IH|].
    apply preserves_bind; [apply preserves_get|intros d].
    apply preserves_bind.
    { destruct (match REQUIRED_COMPONENT md with
                | Some c => dict_mem c (_components d)
                | None => false
                end); [apply preserves_ret|].
      apply preserves_bind; [apply preserves_of_result|intros ?].
      apply preserves_ret. }
    intros found. apply preserves_bind; [|intros _; exact IH].
    destruct found; [|apply preserves_ret].
    apply preserves_bind.
    { apply preserves_same_state. intros s.
      destruct (_check_supported _ _ _); reflexivity. }
    intros supported. destruct supported; [|apply preserves_ret].
    apply preserves_modify. intros c Hc. now apply Hms.
Qed.

Lemma preserves_bind_get S B (I : S -> Prop) (k : S -> M S B) :
  (forall a, I a -> preserves I (k a)) -> preserves I (bind get k).
Proof.
  intros H s Hs. unfold bind, get. cbn [fst snd]. now apply (H (snd s)). Qed.

Lemma initialize_modules_keeps_features before parent_type :
  preserves (fun d => _features (core d) = before)
            (on_core (_initialize_modules parent_type)).
Proof.
  apply preserves_on_core; [|intros d Hd; now rewrite with_core_same].
  intros d Hd. unfold _initialize_modules.
  apply preserves_bind.
  { apply preserves_register_modules. intros c ms Hc. exact Hc. }
  intros _. apply preserves_bind_get. intros c Hc.
  destruct (_ || _ || _); [|apply preserves_ret].
  apply preserves_put. exact Hc.
Qed.





(** Once the device has features, an update cycle leaves them as they are. *)
Lemma update_features_kept update_children w d :
  _features (core d) <> [] ->
  _features (core (snd (fst (update update_children (w, d)))))
  = _features (core d).
Proof.
  intros Hne. set (before := _features (core d)) in *.
  assert (H : preserves (fun x => _features (core x) = before)
                        (update update_children)).
  { unfold update. apply preserves_bind_get. intros a Ha.
    destruct (credentials a), (credentials_hash a); try apply preserves_raise.
    all: apply preserves_bind; [apply preserves_now|intros t];
      (apply preserves_bind;
       [apply preserves_modify; intros x Hx; exact Hx|intros ?]);
      (apply preserves_bind;
       [destruct (_last_update_time a);
        [apply preserves_ret
        |apply preserves_bind;
         [apply negotiate_keeps_features
         |intros ?; apply initialize_modules_keeps_features]]
       |intros ?]);
      (apply preserves_bind;
       [apply preserves_on_core_modular_update;
        intros x w0 Hx; cbn [core with_core];
        now rewrite modular_update_features
       |intros resp]);
      (apply preserves_bind;
       [apply update_children_preserves; split; intros; assumption|intros ?]);
      unfold ensure_features; apply preserves_bind_get; intros b Hb;
      rewrite Hb; destruct before; [congruence|apply preserves_ret]. }
  specialize (H (w, d) eq_refl).
  destruct (update update_children (w, d)) as [[w' d'] [a|e]]; exact H.
Qed.

(** ** Eviction of the modules whose hook raises *)

Lemma failing_In owner modules key :
  dict_wf modules ->
  (In key (failing owner modules)
   <-> exists m, dict_get key modules = Some m
                 /\ _post_update_hook owner m = false).
Proof.
  intros Hwf. unfold failing, dict_keys. rewrite in_map_iff. split.
  - intros [[k m] [Hk Hin]]. simpl in Hk. subst k.
    apply filter_In in Hin. destruct Hin as [Hin Hhook]. simpl in Hhook.
    exists m. split; [now apply dict_get_In_pair|].
    now destruct (_post_update_hook owner m).
  - intros [m [Hget Hhook]]. exists (key, m). split; auto.
    apply filter_In. split; [now apply dict_get_In_pair|].
    simpl. now rewrite Hhook.
Qed.

(** After the hooks of [modules] have run for [owner], a module whose hook
    returned is still there and one whose hook raised is not. *)
Lemma pop_failing_get owner modules key m :
  dict_wf modules ->
  dict_get key modules = Some m ->
  dict_get key (pop_all (failing owner modules) modules)
  = if _post_update_hook owner m then Some m else None.
Proof.
  intros Hwf Hget. rewrite pop_all_get by assumption.
  destruct (list_mem key (failing owner modules)) eqn:Hmem.
  - apply list_mem_In, failing_In in Hmem; [|assumption].
    destruct Hmem as [m0 [Hget0 Hhook]]. rewrite Hget in Hget0.
    inversion Hget0; subst m0. now rewrite Hhook.
  - destruct (_post_update_hook owner m) eqn:Hhook; auto.
    assert (H : In key (failing owner modules))
      by (apply failing_In; eauto).
    apply list_mem_In in H. congruence.
Qed.




(** ** Text: base64 and UTF-8 *)


Lemma all_ascii_In a : In a all_ascii.
Proof.
  unfold all_ascii. rewrite <- (ascii_nat_embedding a).
  apply in_map, in_seq. pose proof (nat_ascii_bounded a). lia.
Qed.

Lemma forall_ascii (P : ascii -> bool) :
  forallb P all_ascii = true -> forall a, P a = true.
Proof.
  intros H a. rewrite forallb_forall in H. apply H, all_ascii_In. Qed.

Lemma forall2_ascii (P : ascii -> ascii -> bool) :
  forallb (fun a => forallb (P a) all_ascii) all_ascii = true ->
  forall a b, P a b = true.
Proof.
  intros H a b. apply forall_ascii.
  rewrite forallb_forall in H. apply H, all_ascii_In.
Qed.

Lemma sextets_In n : (n < 64)%N -> In n sextets.
Proof.
  intros H. unfold sextets. rewrite <- (N2Nat.id n).
  apply in_map, in_seq. lia.
Qed.

Lemma b2a_a2b n :
  (n < 64)%N -> a2b (b2a n) = Some n /\ Ascii.eqb (b2a n) BASE64_PAD = false.
Proof.
  intros H. apply sextets_In in H.
  assert (Hall : forallb (fun n => match a2b (b2a n) with
                                   | Some x => N.eqb x n
                                   | None => false
                                   end
                                   && negb (Ascii.eqb (b2a n) BASE64_PAD))
                         sextets = true) by (vm_compute; reflexivity).
  rewrite forallb_forall in Hall. specialize (Hall n H).
  apply andb_true_iff in Hall. destruct Hall as [H1 H2].
  destruct (a2b (b2a n)) as [x|]; [|discriminate].
  apply N.eqb_eq in H1. subst x. split; auto.
  now destruct (Ascii.eqb (b2a n) BASE64_PAD).
Qed.

Lemma b2a_isascii n : (n < 64)%N -> byte_in 0 127 (b2a n) = true.
Proof.
  intros H. apply sextets_In in H.
  assert (Hall : forallb (fun n => byte_in 0 127 (b2a n)) sextets = true)
    by (vm_compute; reflexivity).
  rewrite forallb_forall in Hall. now apply Hall.
Qed.

(** The step of the decoding loop on a character of the alphabet. *)
Lemma a2b_base64_data n rest quad_pos leftchar pads bin_data :
  (n < 64)%N ->
  a2b_base64 (String (b2a n) rest) quad_pos leftchar pads bin_data
  = match quad_pos with
    | 0%nat => a2b_base64 rest 1 n 0 bin_data
    | 1%nat =>
        a2b_base64 rest 2 (N.land n 15) 0
          (String.append bin_data
             (String (ascii_of_N (N.lor (N.shiftl leftchar 2) (N.shiftr n 4))) ""))
    | 2%nat =>
        a2b_base64 rest 3 (N.land n 3) 0
          (String.append bin_data
             (String (ascii_of_N (N.lor (N.shiftl leftchar 4) (N.shiftr n 2))) ""))
    | _ =>
        a2b_base64 rest 0 0 0
          (String.append bin_data
             (String (ascii_of_N (N.lor (N.shiftl leftchar 6) n)) ""))
    end.
Proof.
  intros H. destruct (b2a_a2b H) as [H1 H2].
  cbn [a2b_base64]. rewrite H2, H1. reflexivity.
Qed.

Lemma groups_bounded a b :
  (group1 a < 64 /\ group2 a b < 64 /\ group3 a b < 64 /\ group4 a < 64
   /\ last2 a < 64 /\ last3 a < 64)%N.
Proof.
  assert (H : forall a b,
             ((group1 a <? 64) && (group2 a b <? 64) && (group3 a b <? 64)
              && (group4 a <? 64) && (last2 a <? 64) && (last3 a <? 64))%N
             = true).
  { apply forall2_ascii. vm_compute. reflexivity. }
  specialize (H a b).
  repeat (apply andb_true_iff in H; destruct H as [H ?]).
  repeat split; now apply N.ltb_lt.
Qed.

Lemma groups_bytes a b :
  ascii_of_N (N.lor (N.shiftl (group1 a) 2) (N.shiftr (group2 a b) 4)) = a
  /\ N.land (group2 a b) 15 = N.shiftr (N_of_ascii b) 4
  /\ ascii_of_N (N.lor (N.shiftl (N.shiftr (N_of_ascii a) 4) 4)
                       (N.shiftr (group3 a b) 2)) = a
  /\ N.land (group3 a b) 3 = N.shiftr (N_of_ascii b) 6
  /\ ascii_of_N (N.lor (N.shiftl (N.shiftr (N_of_ascii a) 6) 6) (group4 a)) = a
  /\ ascii_of_N (N.lor (N.shiftl (group1 a) 2) (N.shiftr (last2 a) 4)) = a
  /\ ascii_of_N (N.lor (N.shiftl (N.shiftr (N_of_ascii a) 4) 4)
                       (N.shiftr (last3 a) 2)) = a.
Proof.
  assert (H : forall a b,
             Ascii.eqb (ascii_of_N (N.lor (N.shiftl (group1 a) 2)
                                          (N.shiftr (group2 a b) 4))) a
             && N.eqb (N.land (group2 a b) 15) (N.shiftr (N_of_ascii b) 4)
             && Ascii.eqb (ascii_of_N (N.lor (N.shiftl (N.shiftr (N_of_ascii a) 4) 4)
                                             (N.shiftr (group3 a b) 2))) a
             && N.eqb (N.land (group3 a b) 3) (N.shiftr (N_of_ascii b) 6)
             && Ascii.eqb (ascii_of_N (N.lor (N.shiftl (N.shiftr (N_of_ascii a) 6) 6)
                                             (group4 a))) a
             && Ascii.eqb (ascii_of_N (N.lor (N.shiftl (group1 a) 2)
                                             (N.shiftr (last2 a) 4))) a
             && Ascii.eqb (ascii_of_N (N.lor (N.shiftl (N.shiftr (N_of_ascii a) 4) 4)
                                             (N.shiftr (last3 a) 2))) a
             = true).
  { apply forall2_ascii. vm_compute. reflexivity. }
  specialize (H a b).
  repeat (apply andb_true_iff in H; destruct H as [H ?]).
  repeat match goal with
         | H : Ascii.eqb _ _ = true |- _ => apply Ascii.eqb_eq in H
         | H : N.eqb _ _ = true |- _ => apply N.eqb_eq in H
         end.
  repeat split; assumption.
Qed.

Lemma append_snoc x a y :
  String.append (String.append x (String a "")) y = String.append x (String a y).
Proof.
  induction x as [|c x IH]; simpl; auto. now rewrite IH. Qed.

Lemma append_empty x : String.append x "" = x.
Proof.
  induction x as [|c x IH]; simpl; congruence. Qed.

Lemma b64encode_cons3 a b c rest :
  b64encode (String a (String b (String c rest)))
  = String (b2a (group1 a))
      (String (b2a (group2 a b))
         (String (b2a (group3 b c))
            (String (b2a (group4 c)) (b64encode rest)))).
Proof.
  reflexivity. Qed.

(** Decoding what [b64encode] has produced gives the data back. *)
Lemma a2b_base64_b64encode_fuel n : forall data pads bin_data,
  (String.length data <= n)%nat ->
  a2b_base64 (b64encode data) 0 0 pads bin_data
  = Ok (String.append bin_data data).
Proof.
  induction n as [|n IH]; intros data pads bin_data Hlen.
  - destruct data; [|simpl in Hlen; lia]. simpl. now rewrite append_empty.
  - destruct data as [|a [|b [|c rest]]].
    + simpl. now rewrite append_empty.
    + change (b64encode (String a ""))
        with (String (b2a (group1 a))
                (String (b2a (last2 a))
                   (String BASE64_PAD (String BASE64_PAD "")))).
      destruct (groups_bounded a a) as [B1 [_ [_ [_ [B2 _]]]]].
      destruct (groups_bytes a a) as [_ [_ [_ [_ [_ [Y1 _]]]]]].
      rewrite a2b_base64_data by exact B1.
      rewrite a2b_base64_data by exact B2.
      rewrite Y1. reflexivity.
    + change (b64encode (String a (String b "")))
        with (String (b2a (group1 a))
                (String (b2a (group2 a b))
                   (String (b2a (last3 b)) (String BASE64_PAD "")))).
      destruct (groups_bounded a b) as [B1 [B2 _]].
      destruct (groups_bounded b b) as [_ [_ [_ [_ [_ B3]]]]].
      destruct (groups_bytes a b) as [Y1 [L2 _]].
      destruct (groups_bytes b b) as [_ [_ [_ [_ [_ [_ Y2]]]]]].
      rewrite a2b_base64_data by exact B1.
      rewrite a2b_base64_data by exact B2.
      rewrite a2b_base64_data by exact B3.
      rewrite Y1, L2, Y2.
      cbn. now rewrite append_snoc.
    + rewrite b64encode_cons3.
      destruct (groups_bounded a b) as [B1 [B2 _]].
      destruct (groups_bounded b c) as [_ [_ [B3 _]]].
      destruct (groups_bounded c c) as [_ [_ [_ [B4 _]]]].
      destruct (groups_bytes a b) as [Y1 [L2 _]].
      destruct (groups_bytes b c) as [_ [_ [Y2 [L3 _]]]].
      destruct (groups_bytes c c) as [_ [_ [_ [_ [Y3 _]]]]].
      rewrite a2b_base64_data by exact B1.
      rewrite a2b_base64_data by exact B2.
      rewrite a2b_base64_data by exact B3.
      rewrite a2b_base64_data by exact B4.
      rewrite Y1, L2, Y2, L3, Y3.
      rewrite IH by (simpl in Hlen; lia).
      now rewrite !append_snoc.
Qed.

Lemma a2b_base64_b64encode data :
  a2b_base64 (b64encode data) 0 0 0 "" = Ok data.
Proof.
  now rewrite a2b_base64_b64encode_fuel with (n := String.length data). Qed.

Lemma isascii_utf8_valid s : isascii s = true -> utf8_valid s = true.
Proof.
  induction s as [|c s IH]; simpl; auto.
  intros H. apply andb_true_iff in H. destruct H as [Hc Hs].
  rewrite Hc. auto.
Qed.

Lemma b64encode_isascii_fuel n : forall data,
  (String.length data <= n)%nat -> isascii (b64encode data) = true.
Proof.
  induction n as [|n IH]; intros data Hlen.
  - destruct data; [reflexivity | simpl in Hlen; lia].
  - destruct data as [|a [|b [|c rest]]]; [reflexivity| | |].
    + destruct (groups_bounded a a) as [B1 [_ [_ [_ [B2 _]]]]].
      change (b64encode (String a ""))
        with (String (b2a (group1 a))
                (String (b2a (last2 a))
                   (String BASE64_PAD (String BASE64_PAD "")))).
      cbn [isascii]. now rewrite !b2a_isascii.
    + destruct (groups_bounded a b) as [B1 [B2 _]].
      destruct (groups_bounded b b) as [_ [_ [_ [_ [_ B3]]]]].
      change (b64encode (String a (String b "")))
        with (String (b2a (group1 a))
                (String (b2a (group2 a b))
                   (String (b2a (last3 b)) (String BASE64_PAD "")))).
      cbn [isascii]. now rewrite !b2a_isascii.
    + destruct (groups_bounded a b) as [B1 [B2 _]].
      destruct (groups_bounded b c) as [_ [_ [B3 _]]].
      destruct (groups_bounded c c) as [_ [_ [_ [B4 _]]]].
      rewrite b64encode_cons3. cbn [isascii].
      rewrite !b2a_isascii by assumption.
      rewrite IH by (simpl in Hlen; lia). reflexivity.
Qed.

Lemma b64encode_isascii data : isascii (b64encode data) = true.
Proof.
  now apply b64encode_isascii_fuel with (n := String.length data). Qed.

Lemma b64encode_empty data : b64encode data = "" <-> data = "".
Proof.
  split; [|now intros ->].
  destruct data as [|a [|b [|c rest]]]; auto; discriminate.
Qed.


Lemma b64encode_text_ok s : b64encode_text s = Ok (b64encode s).
Proof.
  unfold b64encode_text, bytes_decode, str_encode.
  now rewrite isascii_utf8_valid by apply b64encode_isascii.
Qed.

Lemma b64decode_text_b64encode s :
  b64decode_text (VStr (b64encode s)) = bytes_decode s.
Proof.
  unfold b64decode_text, b64decode.
  now rewrite b64encode_isascii, a2b_base64_b64encode.
Qed.

Lemma truthy_b64encode s :
  truthy (VStr (b64encode s)) = negb (String.eqb s "").
Proof.
  destruct s as [|a [|b [|c rest]]]; reflexivity. Qed.

(** ** The cached device type *)

(** X1.  Once [device_type] has returned a type, that type is never
    [Unknown] and it is cached: the call has changed nothing but the cache,
    and every later call returns the cached type without looking at the
    device info or at the components, whatever they have become. *)
Theorem device_type_cached w d w' d' t :
  device_type (w, d) = ((w', d'), Ok t) ->
  w' = w /\ t <> Unknown /\ d' = with_device_type d t
  /\ forall w2 info last_update components modules features,
       device_type (w2, mkCore info last_update components modules features t)
       = ((w2, mkCore info last_update components modules features t), Ok t).
Proof.
  tidy.
  intros Hrun.
  assert (Hcached : forall t0, t0 <> Unknown ->
            forall w2 info last_update components modules features,
              device_type (w2, mkCore info last_update components modules features t0)
              = ((w2, mkCore info last_update components modules features t0),
                 Ok t0)).
  { intros t0 Ht0 w2 info lu comps mods feats.
    unfold device_type, bind, get. cbn [fst snd _device_type].
    destruct t0; try reflexivity. congruence. }
  unfold device_type, bind, get in Hrun. cbn [fst snd] in Hrun.
  assert (Hsame : forall c, with_device_type c (_device_type c) = c)
    by (now intros []).
  destruct (_device_type d) eqn:Hty;
    try (unfold ret in Hrun; inversion Hrun; subst w' d' t;
         rewrite <- Hty at 2; rewrite Hsame;
         split; [reflexivity|]; split; [discriminate|];
         split; [reflexivity|]; apply Hcached; discriminate).
  unfold of_result, bind, put, ret, raise in Hrun. cbn [fst snd] in Hrun.
  destruct (subscript (_info d) "type") as [tag|e]; [|discriminate].
  destruct tag; try discriminate.
  inversion Hrun; subst.
  repeat split.
  - apply classifier_never_unknown.
  - apply Hcached. apply classifier_never_unknown.
Qed.


(** ** The device name, the network name, the address *)

(** X2.  [set_alias] sends one request, carrying the base64 form of the
    UTF-8 encoding of the name, and leaves the device in memory as it was;
    once the device info holds that nickname, [alias] gives the name back,
    except that the empty name reads back as no alias at all. *)
Theorem alias_after_set_alias S name (s : world env * S) :
  utf8_valid name = true ->
  let request :=
    [("set_device_info", VDict [("nickname", VStr (b64encode name))])] in
  set_alias name s
  = ((add_event (set_remote (fst s) (fst (protocol_query (remote (fst s)) request)))
                (Sent request),
      snd s),
     snd (protocol_query (remote (fst s)) request))
  /\ forall d info,
       _info d = VDict info ->
       dict_get "nickname" info = Some (VStr (b64encode name)) ->
       alias d = Ok (if String.eqb name "" then None else Some name).
Proof.
  intros Hname request. split.
  - unfold set_alias, bind, of_result. rewrite b64encode_text_ok.
    unfold query. fold request.
    now destruct (protocol_query (remote (fst s)) request).
  - intros d info Hinfo Hnick. unfold alias. rewrite Hinfo.
    assert (Htruthy : truthy (VDict info) = true)
      by (destruct info; [discriminate | reflexivity]).
    rewrite Htruthy. cbn [info_get]. rewrite Hnick, truthy_b64encode.
    destruct (String.eqb name ""); cbn [negb]; [reflexivity|].
    rewrite b64decode_text_b64encode. unfold bytes_decode. now rewrite Hname.
Qed.

(** X3.  [ssid] never fails on a device info without a network name, or
    with an empty one: it answers "No SSID"; and it gives back the name
    whose base64 form the device info holds. *)
Theorem ssid_spec d info :
  _info d = VDict info ->
  (dict_get "ssid" info = None -> ssid d = Ok "No SSID")
  /\ (forall v, dict_get "ssid" info = Some v -> truthy v = false ->
                ssid d = Ok "No SSID")
  /\ (forall name, utf8_valid name = true -> name <> "" ->
                   dict_get "ssid" info = Some (VStr (b64encode name)) ->
                   ssid d = Ok name).
Proof.
  tidy.
  intros Hinfo. unfold ssid. rewrite Hinfo. cbn [info_get].
  split; [|split].
  - intros H. now rewrite H.
  - intros v H Hv. now rewrite H, Hv.
  - intros name Hvalid Hne H. rewrite H, truthy_b64encode.
    destruct (String.eqb_spec name ""); [contradiction|]. cbn [negb].
    rewrite b64decode_text_b64encode. unfold bytes_decode. now rewrite Hvalid.
Qed.

Lemma str_replace_length old new s :
  String.length (str_replace old new s) = String.length s.
Proof.
  induction s as [|c s IH]; simpl; congruence. Qed.

Lemma str_replace_gone old new s :
  old <> new -> contains (String old "") (str_replace old new s) = false.
Proof.
  intros Hne. induction s as [|c s IH]; [reflexivity|].
  cbn [str_replace contains String.prefix]. rewrite IH, orb_false_r.
  destruct (Ascii.eqb_spec c old) as [->|Hc].
  - destruct (ascii_dec old new); [contradiction | reflexivity].
  - destruct (ascii_dec old c); [congruence | reflexivity].
Qed.

(** X4.  On a device whose info is a dictionary [mac] always answers, and
    its answer never holds a dash: it is the text of the value stored under
    "mac" (the text "None" when there is none) with every dash replaced by
    a colon, and so of the same length. *)
Theorem mac_has_no_dash d info :
  _info d = VDict info ->
  exists m,
    mac d = Ok m
    /\ contains "-" m = false
    /\ (forall s, dict_get "mac" info = Some (VStr s) ->
                  m = str_replace "-" ":" s
                  /\ String.length m = String.length s)
    /\ (dict_get "mac" info = None -> m = "None").
Proof.
  intros Hinfo. unfold mac. rewrite Hinfo. cbn [info_get].
  eexists. split; [reflexivity|]. split; [|split].
  - apply str_replace_gone. discriminate.
  - intros s H. rewrite H. cbn [py_str]. split; [reflexivity|].
    apply str_replace_length.
  - intros H. rewrite H. reflexivity.
Qed.


(** ** Wireless settings and credentials *)

(** X5.  [wifi_join] checks before it sends: without credentials it raises
    AuthenticationError, and with credentials but no device time in the
    last-known responses it raises KeyError, in both cases with nothing
    sent and nothing changed.  Otherwise it sends exactly one request,
    without retries, whose account and wireless fields are the base64 forms
    of what it was given; an answer is returned; an exception that is a
    DeviceError is raised again; any other KasaException (the time-out that
    a device changing network causes) is swallowed and nothing is returned;
    any other exception propagates.  The device in memory is never
    changed. *)
Theorem wifi_join_spec ssid password keytype w d :
  (credentials d = None ->
   wifi_join ssid password keytype (w, d) = ((w, d), Raise AuthenticationError))
  /\ (forall user pw,
         credentials d = Some (user, pw) ->
         dict_get "get_device_time" (_last_update (core d)) = None ->
         wifi_join ssid password keytype (w, d) = ((w, d), Raise KeyError))
  /\ (forall user pw time_data,
         credentials d = Some (user, pw) ->
         dict_get "get_device_time" (_last_update (core d)) = Some time_data ->
         let request :=
           [("set_qs_info",
             VDict [("account", VDict [("username", VStr (b64encode user));
                                       ("password", VStr (b64encode pw))]);
                    ("wireless", VDict [("key_type", VStr keytype);
                                        ("password", VStr (b64encode password));
                                        ("ssid", VStr (b64encode ssid))]);
                    ("time", time_data)])] in
         wifi_join ssid password keytype (w, d)
         = ((add_event
               (set_remote w (fst (protocol_query_once (remote w) request)))
               (Sent request),
             d),
            match snd (protocol_query_once (remote w) request) with
            | Ok res => Ok (Some res)
            | Raise ex =>
                if isinstance_DeviceError ex then Raise ex
                else if isinstance_KasaException ex then Ok None
                else Raise ex
            end)).
Proof.
  split; [|split].
  - intros Hc. unfold wifi_join, bind, get. cbn [fst snd]. now rewrite Hc.
  - intros user pw Hc Htime. unfold wifi_join, bind, get. cbn [fst snd].
    rewrite Hc. unfold of_result. rewrite !b64encode_text_ok.
    unfold internal_state. cbn [subscript]. now rewrite Htime.
  - intros user pw time_data Hc Htime request.
    unfold wifi_join, bind, get. cbn [fst snd].
    rewrite Hc. unfold of_result. rewrite !b64encode_text_ok.
    unfold internal_state. cbn [subscript]. rewrite Htime.
    fold request. unfold try_except, query_once. cbn [fst snd].
    destruct (protocol_query_once (remote w) request) as [e [res|ex]];
      cbn [fst snd]; [reflexivity|].
    destruct (isinstance_DeviceError ex); [reflexivity|].
    destruct (isinstance_KasaException ex); reflexivity.
Qed.

(** X6.  [update_credentials] needs the device time of the last-known
    responses: without it, it raises KeyError and sends nothing.  With it,
    it sends exactly one request, which carries that time and the base64
    forms of the user name and of the password, and returns or raises what
    the protocol does; decoding the two fields gives the user name and the
    password back.  The device in memory is never changed. *)
Theorem update_credentials_spec username password w d :
  (dict_get "get_device_time" (_last_update d) = None ->
   update_credentials username password (w, d) = ((w, d), Raise KeyError))
  /\ (forall time_data,
         dict_get "get_device_time" (_last_update d) = Some time_data ->
         let request :=
           [("set_qs_info",
             VDict [("account", VDict [("username", VStr (b64encode username));
                                       ("password", VStr (b64encode password))]);
                    ("time", time_data)])] in
         update_credentials username password (w, d)
         = ((add_event (set_remote w (fst (protocol_query (remote w) request)))
                       (Sent request),
             d),
            snd (protocol_query (remote w) request))
         /\ (utf8_valid username = true ->
             b64decode_text (VStr (b64encode username)) = Ok username)
         /\ (utf8_valid password = true ->
             b64decode_text (VStr (b64encode password)) = Ok password)).
Proof.
  split.
  - intros Htime. unfold update_credentials, bind, get. cbn [fst snd].
    unfold of_result, internal_state. cbn [subscript]. now rewrite Htime.
  - intros time_data Htime request. split; [|split].
    + unfold update_credentials, bind, get. cbn [fst snd].
      unfold of_result, internal_state. cbn [subscript]. rewrite Htime.
      rewrite !b64encode_text_ok. fold request. unfold query. cbn [fst snd].
      now destruct (protocol_query (remote w) request).
    + intros H. rewrite b64decode_text_b64encode. unfold bytes_decode.
      now rewrite H.
    + intros H. rewrite b64decode_text_b64encode. unfold bytes_decode.
      now rewrite H.
Qed.

Lemma collect_app S A B (f : A -> M S B) pre post (s : world env * S) :
  collect (pre ++ post) f s
  = match collect pre f s with
    | (s1, Ok ys) =>
        match collect post f s1 with
        | (s2, Ok zs) => (s2, Ok (ys ++ zs))
        | (s2, Raise e) => (s2, Raise e)
        end
    | (s1, Raise e) => (s1, Raise e)
    end.
Proof.
  revert s. induction pre as [|x pre IH]; intros s.
  - cbn [app collect ret]. now destruct (collect post f s) as [s2 [zs|e]].
  - cbn [app collect]. unfold bind.
    destruct (f x s) as [s0 [y|e]]; [|reflexivity].
    rewrite IH. unfold ret.
    destruct (collect pre f s0) as [s1 [ys|e]]; [|reflexivity].
    destruct (collect post f s1) as [s2 [zs|e]]; reflexivity.
Qed.

Lemma collect_length S A B (f : A -> M S B) l (s s' : world env * S) ys :
  collect l f s = (s', Ok ys) -> List.length ys = List.length l.
Proof.
  revert s ys. induction l as [|x l IH]; intros s ys H.
  - cbn in H. inversion H. reflexivity.
  - cbn [collect] in H. unfold bind in H.
    destruct (f x s) as [s0 [y|e]]; [|discriminate].
    destruct (collect l f s0) as [s1 [zs|e]] eqn:Hl; [|discriminate].
    cbn in H. inversion H; subst. cbn. f_equal. eapply IH. exact Hl.
Qed.

Lemma net_for_scan_info_pure S res (s : world env * S) :
  fst (@_net_for_scan_info S res s) = s.
Proof.
  unfold _net_for_scan_info, bind, of_result, ret. cbn [fst snd].
  repeat match goal with
         | |- context [match ?r with Ok _ => _ | Raise _ => _ end] =>
             destruct r; cbn [fst snd]; try reflexivity
         end.
Qed.

Lemma collect_nets_pure S l (s : world env * S) :
  fst (collect l (@_net_for_scan_info S) s) = s.
Proof.
  induction l as [|x l IH]; [reflexivity|].
  cbn [collect]. unfold bind.
  pose proof (net_for_scan_info_pure x s) as Hx.
  destruct (_net_for_scan_info x s) as [s0 [y|e]]; cbn [fst] in Hx; subst s0;
    [|reflexivity].
  destruct (collect l _net_for_scan_info s) as [s1 [ys|e]]; cbn [fst] in IH;
    subst s1; reflexivity.
Qed.

Lemma collect_nets_nth S aps : forall (s0 : world env * S) nets,
  collect aps _net_for_scan_info s0 = (s0, Ok nets) ->
  forall i ap net,
    nth_error aps i = Some ap -> nth_error nets i = Some net ->
    _net_for_scan_info ap s0 = (s0, Ok net).
Proof.
  induction aps as [|a aps IH]; intros s0 nets Hc i ap net Hap Hnet.
  - destruct i; discriminate.
  - cbn [collect] in Hc. unfold bind in Hc.
    pose proof (net_for_scan_info_pure a s0) as Ha.
    destruct (_net_for_scan_info a s0) as [s1 [y|ex]] eqn:Hy; [|discriminate].
    cbn [fst] in Ha. subst s1.
    pose proof (collect_nets_pure aps s0) as Hs2.
    destruct (collect aps _net_for_scan_info s0) as [s2 [ys|ex]] eqn:Hys;
      [|discriminate].
    cbn [fst] in Hs2. subst s2.
    unfold ret in Hc. inversion Hc; subst nets.
    destruct i as [|i]; cbn in Hap, Hnet.
    + inversion Hap; inversion Hnet; subst. exact Hy.
    + eapply IH; eauto.
Qed.

(** X7.  [wifi_scan] sends exactly one request and leaves the device in
    memory as it was.  When the answer holds a list of access points, the
    scan returns one network per access point, in the order of the list,
    the network name decoded from its base64 form and the other fields
    taken as they are; and the first access point that cannot be read (a
    field missing, a name that does not decode) makes the whole scan raise
    the error of that entry: no partial list is returned. *)
Theorem wifi_scan_spec S (s : world env * S) e resp info aps :
  let request := [("get_wireless_scan_info", VDict [("start_index", VNum 0)])] in
  protocol_query (remote (fst s)) request = (e, Ok resp) ->
  dict_get "get_wireless_scan_info" resp = Some info ->
  subscript info "ap_list" = Ok (VList aps) ->
  let s' := (add_event (set_remote (fst s) e) (Sent request), snd s) in
  fst (wifi_scan s) = s'
  /\ (forall nets, snd (wifi_scan s) = Ok nets ->
        List.length nets = List.length aps
        /\ forall i ap net,
             nth_error aps i = Some ap -> nth_error nets i = Some net ->
             _net_for_scan_info ap s' = (s', Ok net))
  /\ (forall pre ap post ex,
        aps = pre ++ ap :: post ->
        (forall x, In x pre -> exists net, _net_for_scan_info x s' = (s', Ok net)) ->
        _net_for_scan_info ap s' = (s', Raise ex) ->
        snd (wifi_scan s) = Raise ex)
  /\ (forall ap name cipher key chan level address,
        utf8_valid name = true ->
        ap = VDict [("ssid", VStr (b64encode name)); ("cipher_type", cipher);
                    ("key_type", key); ("channel", chan);
                    ("signal_level", level); ("bssid", address)] ->
        _net_for_scan_info ap s'
        = (s', Ok (WifiNetwork.mk name cipher key chan level address))).
Proof.
  intros request Hq Hinfo Haps s'.
  assert (Hrun : wifi_scan s = collect aps _net_for_scan_info s').
  { unfold wifi_scan, bind. fold request. unfold query. rewrite Hq.
    cbn [fst snd]. unfold of_result. cbn [subscript]. rewrite Hinfo, Haps.
    reflexivity. }
  rewrite Hrun. split; [apply collect_nets_pure|]. split; [|split].
  - intros nets Hnets.
    assert (Hc : collect aps _net_for_scan_info s' = (s', Ok nets)).
    { pose proof (collect_nets_pure aps s') as Hfst.
      destruct (collect aps _net_for_scan_info s') as [s1 r].
      cbn in Hfst, Hnets. now subst. }
    split; [eapply collect_length; exact Hc|].
    intros i ap net. now apply collect_nets_nth with (nets := nets).
  - intros pre ap post ex -> Hpre Hap.
    rewrite collect_app.
    assert (Hp : exists ys, collect pre _net_for_scan_info s' = (s', Ok ys)).
    { clear Hrun Haps. induction pre as [|x pre IH].
      - exists []. reflexivity.
      - destruct (Hpre x (or_introl eq_refl)) as [net Hx].
        destruct IH as [ys Hys]; [intros; apply Hpre; now right|].
        exists (net :: ys). cbn [collect]. unfold bind. rewrite Hx, Hys.
        reflexivity. }
    destruct Hp as [ys Hys]. rewrite Hys.
    cbn [collect]. unfold bind. rewrite Hap. reflexivity.
  - intros ap name cipher key chan level address Hname ->.
    unfold _net_for_scan_info, bind, of_result. cbn [subscript dict_get String.eqb
      Ascii.eqb Bool.eqb fst snd].
    cbn. rewrite b64decode_text_b64encode. unfold bytes_decode. rewrite Hname.
    reflexivity.
Qed.


(** ** Negotiation *)

Lemma components_of_ok S l : forall ivs acc (s : world env * S),
  Forall2 (fun comp iv =>
             subscript comp "id" = Ok (VStr (fst iv))
             /\ exists v, subscript comp "ver_code" = Ok v
                          /\ py_int v = Ok (snd iv)) l ivs ->
  components_of l acc s = (s, Ok (dict_update acc ivs)).
Proof.
  induction l as [|comp l IH]; intros ivs acc s H; inversion H; subst.
  - reflexivity.
  - destruct H2 as [Hid [v [Hver Hint]]].
    cbn [components_of]. unfold bind, of_result. cbn [fst snd].
    rewrite Hid. cbn [as_key]. rewrite Hver, Hint.
    rewrite IH with (ivs := l') by assumption.
    destruct y as [id ver]. reflexivity.
Qed.

Lemma negotiate_raised w d e ex :
  protocol_query (remote w)
    [("component_nego", VNone); ("get_device_info", VNone);
     ("get_connect_cloud_state", VNone)] = (e, Raise ex) ->
  _negotiate (w, d)
  = ((add_event (set_remote w e)
        (Sent [("component_nego", VNone); ("get_device_info", VNone);
               ("get_connect_cloud_state", VNone)]), d),
     Raise ex).
Proof.
  intros Hq. unfold _negotiate. unfold bind at 1. unfold query.
  cbn [fst snd]. now rewrite Hq.
Qed.

(** X8.  [_negotiate] on a well-formed answer.  When the negotiation
    request is answered with the device info and a list of components, each
    with a text id and a version [int] accepts, [_negotiate] sends that one
    request, merges the answer into the last-known responses, stores the
    device info, and sets the components to the dictionary of the ids and
    versions of the list, a later entry overwriting an earlier one with the
    same id.  The children are then initialised if and only if
    "child_device" is one of the components and the device has no children
    yet; otherwise [_negotiate] returns at once, and in particular it never
    creates the children again. *)
Theorem negotiate_spec w d e resp info raw component_list ivs :
  let initial_query :=
    [("component_nego", VNone); ("get_device_info", VNone);
     ("get_connect_cloud_state", VNone)] in
  protocol_query (remote w) initial_query = (e, Ok resp) ->
  _try_get_response resp "get_device_info" None = Ok info ->
  dict_get "component_nego" resp = Some raw ->
  subscript raw "component_list" = Ok (VList component_list) ->
  Forall2 (fun comp iv =>
             subscript comp "id" = Ok (VStr (fst iv))
             /\ exists v, subscript comp "ver_code" = Ok v
                          /\ py_int v = Ok (snd iv)) component_list ivs ->
  let s1 :=
    (add_event (set_remote w e) (Sent initial_query),
     with_core d
       (with_components
          (with_info
             (with_last_update (core d)
                (dict_update (_last_update (core d)) resp))
             info)
          (dict_update [] ivs))) in
  _negotiate (w, d)
  = if dict_mem "child_device" (dict_update [] ivs)
       && match _children d with [] => true | _ => false end
    then _initialize_children s1
    else (s1, Ok tt).
Proof.
  intros initial_query Hq Hinfo Hraw Hlist Hcomps s1.
  unfold _negotiate. unfold bind at 1. unfold query. fold initial_query.
  cbn [fst snd]. rewrite Hq.
  unfold bind at 1. unfold modify at 1. cbn [fst snd].
  unfold bind at 1. unfold of_result at 1. rewrite Hinfo.
  unfold bind at 1. unfold modify at 1. cbn [fst snd].
  unfold bind at 1. unfold of_result at 1. cbn [subscript]. rewrite Hraw.
  unfold bind at 1. unfold of_result at 1. rewrite Hlist.
  unfold bind at 1. unfold of_result at 1. cbn [as_list].
  unfold bind at 1. rewrite components_of_ok with (ivs := ivs) by assumption.
  unfold bind at 1. unfold modify at 1. cbn [fst snd].
  unfold bind at 1. unfold get at 1. cbn [fst snd].
  cbn [_children with_core]. fold s1.
  destruct (dict_mem "child_device" (dict_update [] ivs)
            && match _children d with [] => true | _ => false end);
    reflexivity.
Qed.

(** X9.  [_negotiate] when the negotiation fails.  If the request raises,
    [_negotiate] raises the same and the device is untouched.  If the
    answer has no device info (the key is missing, or holds nothing or an
    error code), it raises KasaException when the answer has already been
    merged into the last-known responses, the info and the components
    being as before.  If the answer has the device info but no component
    list, it raises KeyError when the info has been stored too.  In none of
    these cases is another request sent, nor a child created. *)
Theorem negotiate_failure w d e :
  let initial_query :=
    [("component_nego", VNone); ("get_device_info", VNone);
     ("get_connect_cloud_state", VNone)] in
  let w1 := add_event (set_remote w e) (Sent initial_query) in
  (forall ex,
      protocol_query (remote w) initial_query = (e, Raise ex) ->
      _negotiate (w, d) = ((w1, d), Raise ex))
  /\ (forall resp,
         protocol_query (remote w) initial_query = (e, Ok resp) ->
         let merged :=
           with_last_update (core d) (dict_update (_last_update (core d)) resp) in
         ((dict_get "get_device_info" resp = None
           \/ dict_get "get_device_info" resp = Some VNone
           \/ exists code, dict_get "get_device_info" resp = Some (VErr code)) ->
          _negotiate (w, d) = ((w1, with_core d merged), Raise KasaException))
         /\ (forall info,
                _try_get_response resp "get_device_info" None = Ok info ->
                dict_get "component_nego" resp = None ->
                _negotiate (w, d)
                = ((w1, with_core d (with_info merged info)), Raise KeyError))).
Proof.
  intros initial_query w1. split.
  - intros ex Hq. now apply negotiate_raised.
  - intros resp Hq merged. split.
    + intros Hinfo.
      assert (Hraise : _try_get_response resp "get_device_info" None
                       = Raise KasaException).
      { unfold _try_get_response.
        destruct Hinfo as [H|[H|[code H]]]; rewrite H; reflexivity. }
      unfold _negotiate. unfold bind at 1. unfold query. fold initial_query.
      cbn [fst snd]. rewrite Hq.
      unfold bind at 1. unfold modify at 1. cbn [fst snd].
      unfold bind at 1. unfold of_result at 1. rewrite Hraise. reflexivity.
    + intros info Hinfo Hraw.
      unfold _negotiate. unfold bind at 1. unfold query. fold initial_query.
      cbn [fst snd]. rewrite Hq.
      unfold bind at 1. unfold modify at 1. cbn [fst snd].
      unfold bind at 1. unfold of_result at 1. rewrite Hinfo.
      unfold bind at 1. unfold modify at 1. cbn [fst snd].
      unfold bind at 1. unfold of_result at 1. cbn [subscript]. rewrite Hraw.
      reflexivity.
Qed.

(** X10.  [update] stores the time of the cycle before it negotiates.  So
    when the negotiation request of a first update raises, [update] raises
    the same and leaves a device that differs from the one before by its
    last-update time alone; and the next [update] is then no longer a first
    update: it goes straight to the module queries, and neither negotiates
    nor loads the modules. *)
Theorem failed_negotiation_is_not_retried update_children w d ex :
  (credentials d <> None \/ credentials_hash d <> None) ->
  _last_update_time d = None ->
  let initial_query :=
    [("component_nego", VNone); ("get_device_info", VNone);
     ("get_connect_cloud_state", VNone)] in
  let t := snd (time_time (remote w)) in
  let e1 := fst (time_time (remote w)) in
  snd (protocol_query e1 initial_query) = Raise ex ->
  let d' := with_last_update_time d (Some t) in
  update update_children (w, d)
  = ((add_event
        (set_remote (add_event (set_remote w e1) ClockRead)
                    (fst (protocol_query e1 initial_query)))
        (Sent initial_query),
      d'),
     Raise ex)
  /\ forall update_children2 w2,
       update update_children2 (w2, d')
       = bind (on_core (_modular_update false (snd (time_time (remote w2)))))
           (fun resp =>
              update_children_and_info update_children2 ;;; ensure_features)
           (add_event (set_remote w2 (fst (time_time (remote w2)))) ClockRead,
            with_last_update_time d' (Some (snd (time_time (remote w2))))).
Proof.
  intros Hcred Hlast initial_query t e1 Hq d'. split.
  - rewrite update_samples_once by assumption. rewrite Hlast.
    unfold update_cycle. unfold bind at 1. unfold bind at 1.
    fold t e1 d'.
    destruct (protocol_query e1 initial_query) as [e2 r] eqn:Hq2.
    cbn [snd] in Hq. subst r.
    rewrite negotiate_raised with (e := e2) (ex := ex); [reflexivity|].
    exact Hq2.
  - intros update_children2 w2.
    apply update_later with (t0 := t); [|reflexivity].
    destruct d; exact Hcred.
Qed.


(** ** What an update cycle after the first leaves alone *)

Lemma modular_update_components first_update update_time w d :
  _components (snd (fst (_modular_update first_update update_time (w, d))))
  = _components d.
Proof.
  destruct (batch_total first_update (planned_request first_update update_time d)
              (w, with_modules d (planned_modules first_update update_time d)))
    as [s2 [resp [Hb _]]].
  rewrite modular_update_eq with (1 := Hb). unfold cycle_end.
  destruct (_try_get_response _ "get_device_info" None); reflexivity.
Qed.

Lemma modular_update_device_type first_update update_time w d :
  _device_type (snd (fst (_modular_update first_update update_time (w, d))))
  = _device_type d.
Proof.
  destruct (batch_total first_update (planned_request first_update update_time d)
              (w, with_modules d (planned_modules first_update update_time d)))
    as [s2 [resp [Hb _]]].
  rewrite modular_update_eq with (1 := Hb). unfold cycle_end.
  destruct (_try_get_response _ "get_device_info" None); reflexivity.
Qed.

(** A computation on a child changes that child alone. *)
Lemma preserves_on_child_in A (I : SmartDevice -> Prop) id (m : M DeviceCore A) :
  (forall d c, I d -> In id (dict_keys (_children d)) ->
               I (with_children d (dict_set id c (_children d)))) ->
  preserves I (on_child id m).
Proof.
  intros Hk s Hs. unfold on_child.
  destruct (dict_get id (_children (snd s))) as [child|] eqn:Hget; [|exact Hs].
  assert (Hin : In id (dict_keys (_children (snd s))))
    by (apply dict_get_In; eauto).
  destruct (m (fst s, child)) as [[w c] [a|e]]; cbn [fst snd]; now apply Hk.
Qed.

Lemma preserves_update_child_in (I : SmartDevice -> Prop) id :
  (forall d c, I d -> In id (dict_keys (_children d)) ->
               I (with_children d (dict_set id c (_children d)))) ->
  preserves I (update_child id).
Proof.
  intros Hk s Hs. unfold update_child.
  destruct (dict_get id (_children (snd s))) as [child|] eqn:Hget; [|exact Hs].
  assert (Hin : In id (dict_keys (_children (snd s))))
    by (apply dict_get_In; eauto).
  destruct (SmartChildDevice__update child (remote (fst s))) as [e' [c [a|e]]];
    cbn [fst snd]; now apply Hk.
Qed.

Lemma preserves_device_type_cache (I : SmartDevice -> Prop) :
  (forall d t, I d -> I (with_core d (with_device_type (core d) t))) ->
  preserves I (on_core device_type).
Proof.
  intros Hty s Hs. unfold on_core, device_type, bind, get. cbn [fst snd].
  destruct (_device_type (core (snd s)));
    try (cbn; now rewrite with_core_same).
  unfold of_result.
  destruct (subscript (_info (core (snd s))) "type") as [tag|e];
    [|cbn; now rewrite with_core_same].
  destruct tag; try (cbn; now rewrite with_core_same).
  cbn. now apply Hty.
Qed.

Lemma update_children_preserves_in (I : SmartDevice -> Prop) update_children :
  (forall d id c, I d -> In id (dict_keys (_children d)) ->
                  I (with_children d (dict_set id c (_children d)))) ->
  (forall d t, I d -> I (with_core d (with_device_type (core d) t))) ->
  preserves I (update_children_and_info update_children).
Proof.
  tidy.
  intros Hk Hty.
  unfold update_children_and_info, push_child_info, sweep_child.
  repeat first
    [ apply preserves_ret
    | apply preserves_of_result
    | apply preserves_get
    | apply preserves_update_child_in; intros; now apply Hk
    | apply preserves_on_child_in; intros; now apply Hk
    | apply preserves_device_type_cache; assumption
    | apply preserves_bind; [|intros ?]
    | apply preserves_for_each; intros ? ?
    | match goal with
      | |- preserves _ (if ?b then _ else _) => destruct b
      | |- preserves _ (match ?x with _ => _ end) => destruct x
      end ].
Qed.

Lemma ensure_features_preserves_in (I : SmartDevice -> Prop) :
  (forall d id c, I d -> In id (dict_keys (_children d)) ->
                  I (with_children d (dict_set id c (_children d)))) ->
  (forall d f, I d -> I (with_core d (_add_feature f (core d)))) ->
  preserves I ensure_features.
Proof.
  intros Hk Hadd. unfold ensure_features.
  apply preserves_bind; [apply preserves_get|]. intros d.
  destruct (_features (core d)); [|apply preserves_ret].
  unfold _initialize_features.
  apply preserves_bind.
  - apply preserves_on_core.
    + intros d0 Hd0. apply preserves_initialize_own_features.
      intros c f Hc. apply (Hadd (with_core d0 c) f Hc).
    + intros d0 Hd0. now rewrite with_core_same.
  - intros _. apply preserves_bind; [apply preserves_get|]. intros d0.
    apply preserves_for_each. intros id _.
    apply preserves_on_child_in. intros; now apply Hk.
Qed.

(** X11.  An update cycle after the first, however it ends, neither adds
    nor removes a child (the ids of the children and their order are as
    before), leaves the credentials and the credentials hash alone, and
    leaves the negotiated components alone: only a new negotiation changes
    any of these. *)
Theorem update_keeps_topology update_children w d t0 :
  _last_update_time d = Some t0 ->
  let d' := snd (fst (update update_children (w, d))) in
  dict_keys (_children d') = dict_keys (_children d)
  /\ credentials d' = credentials d
  /\ credentials_hash d' = credentials_hash d
  /\ _components (core d') = _components (core d).
Proof.
  tidy.
  intros Hlast d'. subst d'.
  destruct (credentials d) as [c|] eqn:Hc.
  2: destruct (credentials_hash d) as [h|] eqn:Hh.
  3: { unfold update, bind, get. cbn [fst snd]. rewrite Hc, Hh.
       cbn [raise fst snd]. auto. }
  all: rewrite update_later with (t0 := t0);
    [|rewrite ?Hc, ?Hh; auto; (left; congruence) || (right; congruence)|assumption].
  all: set (Inv := fun x : SmartDevice =>
                   dict_keys (_children x) = dict_keys (_children d)
                   /\ credentials x = credentials d
                   /\ credentials_hash x = credentials_hash d
                   /\ _components (core x) = _components (core d)).
  all: assert (Hk : forall x id c0, Inv x -> In id (dict_keys (_children x)) ->
                      Inv (with_children x (dict_set id c0 (_children x))));
    [ intros x id c0 [H1 [H2 [H3 H4]]] Hin; unfold Inv;
      cbn [_children with_children credentials credentials_hash core];
      rewrite dict_keys_set_in by assumption; auto | ].
  all: assert (Hpres : preserves Inv
                (bind (on_core (_modular_update false (snd (time_time (remote w)))))
                   (fun _ => update_children_and_info update_children ;;;
                             ensure_features)));
    [ apply preserves_bind;
      [ apply preserves_on_core_modular_update;
        intros d0 w0 [H1 [H2 [H3 H4]]]; unfold Inv;
        cbn [_children with_core credentials credentials_hash core];
        rewrite modular_update_components; auto
      | intros _; apply preserves_bind;
        [ apply update_children_preserves_in;
          [ exact Hk | intros x t [H1 [H2 [H3 H4]]]; unfold Inv; cbn; auto ]
        | intros _; apply ensure_features_preserves_in;
          [ exact Hk | intros x f [H1 [H2 [H3 H4]]]; unfold Inv; cbn; auto ] ] ]
    | ].
  all: match goal with
       | |- context [snd (fst (?m ?s))] =>
           specialize (Hpres s);
           assert (HI : Inv (snd s))
             by (unfold Inv; cbn; rewrite ?Hc, ?Hh; auto);
           specialize (Hpres HI);
           destruct (m s) as [[w' d'] [a|e]]; cbn [fst snd] in *;
           unfold Inv in Hpres; rewrite <- ?Hc, <- ?Hh; exact Hpres
       end.
Qed.


(** ** A child the device was not negotiated with *)

Lemma push_child_info_unknown info id w d :
  subscript info "device_id" = Ok (VStr id) ->
  ~ In id (dict_keys (_children d)) ->
  push_child_info info (w, d) = ((w, d), Raise KeyError).
Proof.
  intros Hid Hnew. unfold push_child_info, bind, of_result. cbn [fst snd].
  rewrite Hid. cbn [as_key]. unfold on_child. cbn [fst snd].
  apply dict_get_None in Hnew. now rewrite Hnew.
Qed.

Lemma push_child_info_known info id w d :
  subscript info "device_id" = Ok (VStr id) ->
  In id (dict_keys (_children d)) ->
  exists d1,
    push_child_info info (w, d) = ((w, d1), Ok tt)
    /\ dict_keys (_children d1) = dict_keys (_children d).
Proof.
  intros Hid Hin. unfold push_child_info, bind, of_result. cbn [fst snd].
  rewrite Hid. cbn [as_key]. unfold on_child. cbn [fst snd].
  pose proof Hin as Hin'. apply dict_get_In in Hin'. destruct Hin' as [c Hc].
  rewrite Hc. unfold _update_internal_state, modify. cbn [fst snd].
  eexists. split; [reflexivity|].
  cbn [_children with_children]. now apply dict_keys_set_in.
Qed.

Lemma push_child_infos_unknown pre info post id : forall w d,
  (forall i, In i pre ->
     exists k, subscript i "device_id" = Ok (VStr k)
               /\ In k (dict_keys (_children d))) ->
  subscript info "device_id" = Ok (VStr id) ->
  ~ In id (dict_keys (_children d)) ->
  exists d1,
    for_each (pre ++ info :: post) push_child_info (w, d)
    = ((w, d1), Raise KeyError).
Proof.
  induction pre as [|i pre IH]; intros w d Hpre Hid Hnew.
  - exists d. cbn [app for_each]. unfold bind.
    now rewrite push_child_info_unknown with (id := id).
  - destruct (Hpre i (or_introl eq_refl)) as [k [Hk Hin]].
    destruct (@push_child_info_known i k w d Hk Hin) as [d1 [Hrun Hkeys]].
    destruct (IH w d1) as [d2 Hrest].
    + intros j Hj. destruct (Hpre j (or_intror Hj)) as [k' [Hk' Hin']].
      exists k'. split; [assumption|]. now rewrite Hkeys.
    + assumption.
    + now rewrite Hkeys.
    + exists d2. cbn [app for_each]. unfold bind. rewrite Hrun. exact Hrest.
Qed.

(** X12.  A child listed by the device but unknown to it.  In an update
    cycle after the first whose module queries have been answered, if the
    last-known list of child devices names a device id that is not among
    the children of the device (a device paired since the negotiation, for
    one), [update] does not return: it raises, and on a hub that is not
    asked to update its children what it raises is KeyError.  The children
    listed before the unknown one are assumed to be known. *)
Theorem unknown_child_fails_update w d t0 s1 resp child_info pre info post id :
  (credentials d <> None \/ credentials_hash d <> None) ->
  _last_update_time d = Some t0 ->
  on_core (_modular_update false (snd (time_time (remote w))))
    (add_event (set_remote w (fst (time_time (remote w)))) ClockRead,
     with_last_update_time d (Some (snd (time_time (remote w)))))
  = (s1, Ok resp) ->
  dict_get "get_child_device_list" (_last_update (core (snd s1)))
  = Some (VDict child_info) ->
  dict_get "child_device_list" child_info = Some (VList (pre ++ info :: post)) ->
  (forall i, In i pre ->
     exists k, subscript i "device_id" = Ok (VStr k)
               /\ In k (dict_keys (_children d))) ->
  subscript info "device_id" = Ok (VStr id) ->
  ~ In id (dict_keys (_children d)) ->
  (forall update_children,
      exists e, snd (update update_children (w, d)) = Raise e)
  /\ (_device_type (core d) = Hub ->
      snd (update false (w, d)) = Raise KeyError).
Proof.
  tidy.
  intros Hcred Hlast Hmod Hlist Hinfos Hpre Hid Hnew.
  assert (Hs1 : dict_keys (_children (snd s1)) = dict_keys (_children d)
                /\ _device_type (core (snd s1)) = _device_type (core d)).
  { unfold on_core in Hmod. cbn [fst snd core with_last_update_time] in Hmod.
    pose proof (modular_update_device_type false (snd (time_time (remote w)))
                  (add_event (set_remote w (fst (time_time (remote w)))) ClockRead)
                  (core d)) as Hty.
    destruct (_modular_update false (snd (time_time (remote w))) _)
      as [[w1 c1] r1].
    inversion Hmod; subst. cbn [fst snd] in *. auto. }
  destruct Hs1 as [Hkeys1 Hty1].
  (* what follows the refresh of the children *)
  assert (Hrest : forall s2 : world env * SmartDevice,
            dict_keys (_children (snd s2)) = dict_keys (_children d) ->
            _last_update (core (snd s2)) = _last_update (core (snd s1)) ->
            exists s3,
              bind get
                (fun d0 : SmartDevice =>
                   bind (of_result
                           (_try_get_response (_last_update (core d0))
                              "get_child_device_list" (Some (VDict []))))
                     (fun child_info0 =>
                        bind (if truthy child_info0
                              then bind (of_result
                                           (subscript child_info0 "child_device_list"))
                                     (fun infos =>
                                        bind (of_result (as_list infos))
                                          (fun infos0 =>
                                             for_each infos0 push_child_info))
                              else ret tt)
                          (fun _ =>
                             bind get
                               (fun d1 : SmartDevice =>
                                  for_each (dict_keys (_children d1)) sweep_child))))
                s2
              = (s3, Raise KeyError)).
  { intros [w2 d2] Hk2 Hlu2. cbn [fst snd] in *.
    unfold bind at 1. unfold get at 1. cbn [fst snd].
    unfold bind at 1. unfold of_result at 1. rewrite Hlu2.
    unfold _try_get_response. rewrite Hlist. cbn [is_error_code].
    assert (Htruthy : truthy (VDict child_info) = true).
    { destruct child_info; [discriminate | reflexivity]. }
    unfold bind at 1. rewrite Htruthy.
    unfold bind at 1. unfold of_result at 1. cbn [subscript]. rewrite Hinfos.
    unfold bind at 1. unfold of_result at 1. cbn [as_list].
    destruct (@push_child_infos_unknown pre info post id w2 d2) as [d3 Hrun].
    - intros i Hi. destruct (Hpre i Hi) as [k [Hk Hin]].
      exists k. split; [assumption|]. now rewrite Hk2.
    - assumption.
    - now rewrite Hk2.
    - rewrite Hrun. eauto. }
  split.
  - intros update_children.
    rewrite update_later with (t0 := t0) by assumption.
    unfold bind at 1. rewrite Hmod.
    unfold bind at 1.
    set (Inv := fun x : SmartDevice =>
                  dict_keys (_children x) = dict_keys (_children d)
                  /\ _last_update (core x) = _last_update (core (snd s1))).
    assert (HInv : Inv (snd s1)) by (split; auto).
    assert (Hk : forall x k c0, Inv x -> In k (dict_keys (_children x)) ->
                   Inv (with_children x (dict_set k c0 (_children x)))).
    { intros x k c0 [H1 H2] Hin. split;
        cbn [_children with_children core]; [|assumption].
      now rewrite dict_keys_set_in. }
    unfold update_children_and_info.
    unfold bind at 1.
    assert (Hflag : preserves Inv
              (if update_children then ret true
               else bind (on_core device_type)
                      (fun ty => ret (negb (DeviceType_eqb ty Hub))))).
    { destruct update_children; [apply preserves_ret|].
      apply preserves_bind; [|intros ?; apply preserves_ret].
      apply preserves_device_type_cache. intros x t [H1 H2]. split; auto. }
    specialize (Hflag s1 HInv).
    destruct ((if update_children then ret true
               else bind (on_core device_type)
                      (fun ty => ret (negb (DeviceType_eqb ty Hub)))) s1)
      as [s2 [refresh|e]]; [|cbn; eauto].
    unfold bind at 1.
    assert (Hrefresh : preserves Inv
              (if refresh
               then bind get (fun d0 : SmartDevice =>
                                for_each (dict_keys (_children d0)) update_child)
               else ret tt)).
    { destruct refresh; [|apply preserves_ret].
      apply preserves_bind; [apply preserves_get|]. intros d0.
      apply preserves_for_each. intros k _.
      apply preserves_update_child_in. intros; now apply Hk. }
    specialize (Hrefresh s2 Hflag).
    destruct ((if refresh
               then bind get (fun d0 : SmartDevice =>
                                for_each (dict_keys (_children d0)) update_child)
               else ret tt) s2) as [s3 [[]|e]]; [|cbn; eauto].
    destruct Hrefresh as [Hk3 Hlu3].
    destruct (Hrest s3 Hk3 Hlu3) as [s4 Hrun].
    rewrite Hrun. cbn. eauto.
  - intros Hhub.
    rewrite update_later with (t0 := t0) by assumption.
    unfold bind at 1. rewrite Hmod.
    unfold bind at 1.
    unfold update_children_and_info.
    unfold bind at 1. unfold bind at 1.
    unfold on_core at 1, device_type. unfold bind at 1. unfold get at 1.
    cbn [fst snd]. rewrite Hty1, Hhub. unfold ret at 1. unfold ret at 1.
    cbn [DeviceType_eqb negb]. rewrite with_core_same.
    unfold bind at 1. unfold ret at 1.
    destruct s1 as [w1 d1]. cbn [fst snd] in *.
    destruct (Hrest (w1, d1) Hkeys1 eq_refl) as [s4 Hrun].
    rewrite Hrun. reflexivity.
Qed.


(** ** The children of a device *)

Lemma components_of_pure S l : forall acc (s : world env * S),
  fst (components_of l acc s) = s.
Proof.
  induction l as [|comp l IH]; intros acc s; [reflexivity|].
  cbn [components_of]. unfold bind, of_result. cbn [fst snd].
  destruct (subscript comp "id") as [id|e]; [|reflexivity].
  destruct (as_key id) as [k|e]; [|reflexivity].
  destruct (subscript comp "ver_code") as [ver|e]; [|reflexivity].
  destruct (py_int ver) as [z|e]; [|reflexivity].
  apply IH.
Qed.

Lemma children_components_of_pure S l : forall acc (s : world env * S),
  fst (children_components_of l acc s) = s.
Proof.
  induction l as [|child l IH]; intros acc s; [reflexivity|].
  cbn [children_components_of]. unfold bind, of_result. cbn [fst snd].
  destruct (subscript child "device_id") as [id|e]; [|reflexivity].
  destruct (as_key id) as [k|e]; [|reflexivity].
  destruct (subscript child "component_list") as [comps|e]; [|reflexivity].
  destruct (as_list comps) as [cl|e]; [|reflexivity].
  pose proof (components_of_pure cl [] s) as Hc.
  destruct (components_of cl [] s) as [s1 [c|e]]; cbn [fst] in Hc; subst s1;
    [|reflexivity].
  apply IH.
Qed.

Lemma create_children_spec comps l : forall acc (s : world env * SmartDevice),
  log (fst (fst (create_children l comps acc s))) = log (fst s)
  /\ snd (fst (create_children l comps acc s)) = snd s
  /\ forall kids,
       snd (create_children l comps acc s) = Ok kids ->
       forall id,
         In id (dict_keys kids)
         <-> In id (dict_keys acc)
             \/ exists child_info,
                  In child_info l
                  /\ subscript child_info "device_id" = Ok (VStr id).
Proof.
  tidy.
  induction l as [|ci l IH]; intros acc s.
  - cbn. split; [reflexivity|]. split; [reflexivity|].
    intros kids H id. inversion H; subst.
    split; [auto | intros [H0|[x [[] _]]]; exact H0].
  - cbn [create_children]. unfold bind, of_result. cbn [fst snd].
    destruct (subscript ci "device_id") as [idv|e] eqn:Hid;
      [|cbn; split; [reflexivity|]; split; [reflexivity | discriminate]].
    destruct (as_key idv) as [k|e] eqn:Hkey;
      [|cbn; split; [reflexivity|]; split; [reflexivity | discriminate]].
    destruct idv; try discriminate. cbn in Hkey. inversion Hkey; subst k.
    destruct (dict_get s0 comps) as [cs|];
      [|cbn; split; [reflexivity|]; split; [reflexivity | discriminate]].
    destruct (SmartChildDevice_create (snd s) ci cs (remote (fst s)))
      as [e' [child|e]]; cbn [fst snd];
      [|cbn; split; [reflexivity|]; split; [reflexivity | discriminate]].
    destruct (IH (dict_set s0 child acc) (set_remote (fst s) e', snd s))
      as [Hlog [Hst Hkeys]].
    split; [exact Hlog|]. split; [exact Hst|].
    intros kids Hrun id. rewrite (Hkeys kids Hrun id).
    rewrite dict_keys_set_incl. split.
    + intros [[->|H]|[x [Hx Hxid]]]; eauto.
      * right. exists ci. split; [now left | assumption].
      * right. exists x. split; [now right | assumption].
    + intros [H|[x [[<-|Hx] Hxid]]]; eauto.
      rewrite Hid in Hxid. inversion Hxid. auto.
Qed.

(** X13.  [_initialize_children] sends exactly one request.  The children
    of the device are assigned in its last step only: if it raises, at
    whatever point (the request, an answer of the wrong shape, a child
    without a component list of its own, the creation of a child), the
    children are exactly as they were.  If it returns, the ids of the
    children are the device ids of the list of child devices now held in
    the last-known responses, and no other. *)
Theorem initialize_children_spec w d :
  let child_info_query :=
    [("get_child_device_component_list", VNone);
     ("get_child_device_list", VNone)] in
  let run := _initialize_children (w, d) in
  log (fst (fst run)) = log w ++ [Sent child_info_query]
  /\ (forall e, snd run = Raise e -> _children (snd (fst run)) = _children d)
  /\ (snd run = Ok tt ->
      exists child_list children,
        dict_get "get_child_device_list" (_last_update (core (snd (fst run))))
        = Some child_list
        /\ subscript child_list "child_device_list" = Ok (VList children)
        /\ forall id,
             In id (dict_keys (_children (snd (fst run))))
             <-> exists child_info,
                   In child_info children
                   /\ subscript child_info "device_id" = Ok (VStr id)).
Proof.
  tidy.
  intros child_info_query run.
  assert (Hrun : run = _initialize_children (w, d)) by reflexivity.
  clearbody run.
  unfold _initialize_children in Hrun. unfold bind at 1 in Hrun.
  unfold query in Hrun. fold child_info_query in Hrun. cbn [fst snd] in Hrun.
  destruct (protocol_query (remote w) child_info_query) as [e1 [resp|ex]];
    [|subst run; cbn; split; [reflexivity|]; split; [reflexivity | discriminate]].
  unfold bind at 1 in Hrun. unfold modify at 1 in Hrun. cbn [fst snd] in Hrun.
  unfold bind at 1 in Hrun. unfold get at 1 in Hrun.
  cbn [fst snd core with_core _last_update with_last_update] in Hrun.
  set (lu := dict_update (_last_update (core d)) resp) in *.
  set (w1 := add_event (set_remote w e1) (Sent child_info_query)) in *.
  set (d1 := with_core d (with_last_update (core d) lu)) in *.
  assert (Hfail : forall e0 : exn,
            run = (w1, d1, Raise e0) ->
            log (fst (fst run)) = log w ++ [Sent child_info_query]
            /\ (forall e, snd run = Raise e ->
                          _children (snd (fst run)) = _children d)
            /\ (snd run = Ok tt ->
                exists child_list children,
                  dict_get "get_child_device_list"
                    (_last_update (core (snd (fst run))))
                  = Some child_list
                  /\ subscript child_list "child_device_list"
                     = Ok (VList children)
                  /\ forall id,
                       In id (dict_keys (_children (snd (fst run))))
                       <-> exists child_info,
                             In child_info children
                             /\ subscript child_info "device_id"
                                = Ok (VStr id))).
  { intros e0 ->. cbn. split; [reflexivity|].
    split; [reflexivity | discriminate]. }
  unfold bind at 1 in Hrun. unfold of_result at 1 in Hrun.
  cbn [subscript] in Hrun.
  destruct (dict_get "get_child_device_list" lu) as [child_list|] eqn:Hcl;
    [|eapply Hfail; exact Hrun].
  unfold bind at 1 in Hrun. unfold of_result at 1 in Hrun.
  destruct (subscript child_list "child_device_list") as [children|e] eqn:Hch;
    [|eapply Hfail; exact Hrun].
  unfold bind at 1 in Hrun. unfold of_result at 1 in Hrun.
  destruct (dict_get "get_child_device_component_list" lu) as [comp_list|];
    [|eapply Hfail; exact Hrun].
  unfold bind at 1 in Hrun. unfold of_result at 1 in Hrun.
  destruct (subscript comp_list "child_component_list") as [comps|e];
    [|eapply Hfail; exact Hrun].
  unfold bind at 1 in Hrun. unfold of_result at 1 in Hrun.
  destruct (as_list comps) as [cl|e]; [|eapply Hfail; exact Hrun].
  unfold bind at 1 in Hrun.
  pose proof (children_components_of_pure cl [] (w1, d1)) as Hpure.
  destruct (children_components_of cl [] (w1, d1)) as [s2 [ccs|e]];
    cbn [fst] in Hpure; subst s2; [|eapply Hfail; exact Hrun].
  unfold bind at 1 in Hrun. unfold of_result at 1 in Hrun.
  destruct (as_list children) as [l|e] eqn:Hl; [|eapply Hfail; exact Hrun].
  destruct children; try discriminate. cbn in Hl. inversion Hl; subst l0.
  unfold bind at 1 in Hrun.
  destruct (create_children_spec ccs l [] (w1, d1)) as [Hlog [Hst Hkeys]].
  destruct (create_children l ccs [] (w1, d1)) as [[w2 d2] [kids|e]];
    cbn [fst snd] in *; subst d2 run.
  - unfold modify. cbn [fst snd]. split; [exact Hlog|].
    split; [discriminate|]. intros _.
    exists child_list, l. split; [exact Hcl|]. split; [exact Hch|].
    intros id. cbn [_children with_children].
    rewrite (Hkeys kids eq_refl id). cbn [dict_keys map].
    split; [intros [[]|H]; exact H | auto].
  - cbn [fst snd]. split; [exact Hlog|]. split; [reflexivity | discriminate].
Qed.


(** ** The loading of the modules *)

Lemma preserves_register_modules_set (I : DeviceCore -> Prop) skip mods :
  (forall x d0 md,
      I x ->
      skip && class_in (mod_class md) NON_HUB_PARENT_ONLY_MODULES = false ->
      In md mods ->
      I (with_modules x
           (dict_set
              (SmartModule.name (new_module (mod_class md) (REQUIRED_COMPONENT md) d0))
              (new_module (mod_class md) (REQUIRED_COMPONENT md) d0)
              (_modules x)))) ->
  preserves I (register_modules skip mods).
Proof.
  intros Hset. induction mods as [|md mods IH]; cbn [register_modules].
  - apply preserves_ret.
  - destruct (skip && class_in (mod_class md) NON_HUB_PARENT_ONLY_MODULES)
      eqn:Hskip.
    + apply IH. intros x d0 md0 Hx Hs Hin. apply Hset; auto. now right.
    + apply preserves_bind; [apply preserves_get|]. intros d0.
      apply preserves_bind.
      * destruct (match REQUIRED_COMPONENT md with
                  | Some c => dict_mem c (_components d0)
                  | None => false
                  end); [apply preserves_ret|].
        apply preserves_bind; [apply preserves_of_result|].
        intros ?. apply preserves_ret.
      * intros found. apply preserves_bind.
        -- destruct found; [|apply preserves_ret].
           apply preserves_bind.
           ++ intros s Hs.
              destruct (_check_supported d0
                          (new_module (mod_class md) (REQUIRED_COMPONENT md) d0)
                          (remote (fst s))) as [e' [b|e]]; exact Hs.
           ++ intros supported. destruct supported; [|apply preserves_ret].
              apply preserves_modify. intros x Hx. apply Hset; auto. now left.
        -- intros _. apply IH. intros x d1 md0 Hx Hs Hin. apply Hset; auto.
           now right.
Qed.

Lemma register_modules_log skip mods : forall s : world env * DeviceCore,
  log (fst (fst (register_modules skip mods s))) = log (fst s).
Proof.
  induction mods as [|md mods IH]; intros s; cbn [register_modules];
    [reflexivity|].
  destruct (skip && class_in (mod_class md) NON_HUB_PARENT_ONLY_MODULES);
    [apply IH|].
  unfold bind at 1. unfold get at 1. cbn [fst snd].
  unfold bind at 1.
  destruct (match REQUIRED_COMPONENT md with
            | Some c => dict_mem c (_components (snd s))
            | None => false
            end).
  - unfold ret at 1. unfold bind at 1. unfold bind at 1.
    destruct (_check_supported (snd s)
                (new_module (mod_class md) (REQUIRED_COMPONENT md) (snd s))
                (remote (fst s))) as [e' [[|]|e]]; cbn [fst snd];
      unfold bind, modify, ret; cbn [fst snd]; rewrite ?IH; reflexivity.
  - unfold bind at 1. unfold of_result at 1.
    destruct (match REQUIRED_KEY_ON_PARENT md with
              | Some k => info_get (_info (snd s)) k
              | None => info_get (_info (snd s)) ""
              end) as [v|e]; [|reflexivity].
    unfold ret at 1.
    destruct (match REQUIRED_KEY_ON_PARENT md with
              | Some _ => match v with VNone => false | _ => true end
              | None => false
              end) eqn:Hfound.
    + unfold bind at 1. unfold bind at 1.
      destruct (_check_supported (snd s)
                  (new_module (mod_class md) (REQUIRED_COMPONENT md) (snd s))
                  (remote (fst s))) as [e' [[|]|e]]; cbn [fst snd];
        unfold bind, modify, ret; cbn [fst snd]; rewrite ?IH; reflexivity.
    + unfold bind at 1. unfold ret at 1. now rewrite IH.
Qed.

(** X14.  Which modules a child gets.  A device whose parent is not a hub
    (a socket of a power strip, a channel of a wall switch) never gets a
    module of a class of [NON_HUB_PARENT_ONLY_MODULES] (DeviceModule,
    Time, Firmware, Cloud) from [_initialize_modules]: every module it
    holds afterwards was there before, or is of another class; the
    constructor of a module class is taken to make a module of that class.
    A device without a parent and a child of a hub are treated alike. *)
Theorem child_skips_parent_only_modules parent_type w c :
  (forall cls component d,
      SmartModule.cls (new_module cls component d) = cls) ->
  (parent_type <> Hub ->
   forall key m,
     dict_get key
       (_modules (snd (fst (_initialize_modules (Some parent_type) (w, c)))))
     = Some m ->
     dict_get key (_modules c) = Some m
     \/ class_in (SmartModule.cls m) NON_HUB_PARENT_ONLY_MODULES = false)
  /\ _initialize_modules (Some Hub) (w, c) = _initialize_modules None (w, c).
Proof.
  tidy.
  intros Hcls. split; [|reflexivity].
  intros Hparent.
  set (Inv := fun x : DeviceCore =>
                forall key m,
                  dict_get key (_modules x) = Some m ->
                  dict_get key (_modules c) = Some m
                  \/ class_in (SmartModule.cls m) NON_HUB_PARENT_ONLY_MODULES
                     = false).
  assert (Hpres : preserves Inv (_initialize_modules (Some parent_type))).
  { unfold _initialize_modules.
    assert (Hskip : match parent_type with
                    | Hub => false
                    | _ => true
                    end = true) by (destruct parent_type; congruence).
    rewrite Hskip.
    apply preserves_bind.
    - apply preserves_register_modules_set.
      intros x d0 md Hx Hs _ key m. cbn [_modules with_modules].
      intros Hget. apply dict_get_set_inv in Hget.
      destruct Hget as [->|Hget]; [|now apply Hx].
      right. rewrite Hcls. exact Hs.
    - intros _. apply preserves_bind_get. intros d0 Hd0.
      destruct (dict_mem "Brightness" (_modules d0)
                || dict_mem "Color" (_modules d0)
                || dict_mem "ColorTemperature" (_modules d0));
        [|apply preserves_ret].
      apply preserves_put. intros key m. cbn [_modules with_modules].
      intros Hget. apply dict_get_set_inv in Hget.
      destruct Hget as [->|Hget]; [|now apply Hd0].
      right. rewrite Hcls. reflexivity. }
  assert (H0 : Inv c) by (intros key m H; now left).
  specialize (Hpres (w, c) H0).
  destruct (_initialize_modules (Some parent_type) (w, c)) as [[w' c'] [a|e]];
    exact Hpres.
Qed.

(** X15.  [_initialize_modules] only adds: however it ends, every key of
    the module collection is still a key of it afterwards, and the device
    info, the last-known responses, the components and the features are
    as before; it sends no request of its own.  When it returns, the
    collection holds the Light module as soon as it holds one of
    Brightness, Color and ColorTemperature. *)
Theorem initialize_modules_adds parent_type w c :
  let run := _initialize_modules parent_type (w, c) in
  let c' := snd (fst run) in
  (forall key, In key (dict_keys (_modules c)) -> In key (dict_keys (_modules c')))
  /\ (_info c' = _info c /\ _last_update c' = _last_update c
      /\ _components c' = _components c /\ _features c' = _features c)
  /\ log (fst (fst run)) = log w
  /\ (snd run = Ok tt ->
      dict_mem "Brightness" (_modules c') || dict_mem "Color" (_modules c')
      || dict_mem "ColorTemperature" (_modules c') = true ->
      dict_mem "Light" (_modules c') = true).
Proof.
  tidy.
  intros run c'.
  set (Inv := fun x : DeviceCore =>
                (forall key, In key (dict_keys (_modules c)) ->
                             In key (dict_keys (_modules x)))
                /\ _info x = _info c /\ _last_update x = _last_update c
                /\ _components x = _components c /\ _features x = _features c).
  assert (Hset : forall x key m, Inv x ->
                   Inv (with_modules x (dict_set key m (_modules x)))).
  { intros x key m [Hk Hrest]. split; [|exact Hrest].
    intros k Hin. cbn [_modules with_modules].
    apply dict_keys_set_incl. right. now apply Hk. }
  assert (Hpres : preserves Inv (_initialize_modules parent_type)).
  { unfold _initialize_modules.
    apply preserves_bind.
    - apply preserves_register_modules_set. intros; now apply Hset.
    - intros _. apply preserves_bind_get. intros d0 Hd0.
      destruct (dict_mem "Brightness" (_modules d0)
                || dict_mem "Color" (_modules d0)
                || dict_mem "ColorTemperature" (_modules d0));
        [|apply preserves_ret].
      apply preserves_put. now apply Hset. }
  assert (H0 : Inv c) by (split; auto).
  specialize (Hpres (w, c) H0). fold run in Hpres.
  assert (HInv : Inv c').
  { subst c'. destruct run as [[w' x] [a|e]]; exact Hpres. }
  destruct HInv as [Hk Hrest].
  split; [exact Hk|]. split; [exact Hrest|]. split.
  - subst run. unfold _initialize_modules. unfold bind at 1.
    pose proof (register_modules_log
                  match parent_type with
                  | Some Hub | None => false
                  | Some _ => true
                  end REGISTERED_MODULES (w, c)) as Hlog.
    destruct (register_modules _ REGISTERED_MODULES (w, c)) as [[w1 c1] [[]|e]];
      cbn [fst snd] in *; [|exact Hlog].
    unfold bind, get. cbn [fst snd].
    destruct (dict_mem "Brightness" (_modules c1) || dict_mem "Color" (_modules c1)
              || dict_mem "ColorTemperature" (_modules c1)); exact Hlog.
  - assert (Hrun : run = _initialize_modules parent_type (w, c)) by reflexivity.
    clearbody run. unfold _initialize_modules in Hrun.
    unfold bind at 1 in Hrun.
    destruct (register_modules _ REGISTERED_MODULES (w, c)) as [[w1 c1] [[]|e]];
      [|subst run; discriminate].
    unfold bind, get in Hrun. cbn [fst snd] in Hrun.
    destruct (dict_mem "Brightness" (_modules c1) || dict_mem "Color" (_modules c1)
              || dict_mem "ColorTemperature" (_modules c1)) eqn:Hlight;
      subst c' run; cbn [fst snd put ret _modules with_modules].
    + intros _ _. unfold dict_mem. now rewrite dict_get_set_eq.
    + intros _ H. congruence.
Qed.


(** ** What goes on the wire in a cycle *)

(** X16.  When the batched request of a cycle raises, every key of the
    request is retried exactly once, on its own, in the order of the
    request, whatever the retries answer; nothing else is sent before the
    hooks of the modules are run, the device in memory is not touched by
    the retries, and the fallback always produces a response.  A cycle
    whose batched request is answered sends that request alone. *)
Theorem fallback_retries_each_key S first_update req (s : world env * S) :
  (forall e ex,
      protocol_query (remote (fst s)) req = (e, Raise ex) ->
      log (fst (fst (batch first_update req s)))
      = log (fst s) ++ Sent req :: map (fun kv => Sent [kv]) req
      /\ snd (fst (batch first_update req s)) = snd s
      /\ exists resp, snd (batch first_update req s) = Ok resp)
  /\ (forall e resp,
         protocol_query (remote (fst s)) req = (e, Ok resp) ->
         batch first_update req s
         = ((add_event (set_remote (fst s) e) (Sent req), snd s), Ok resp)).
Proof.
  split.
  - intros e ex Hq. rewrite batch_raised with (1 := Hq).
    unfold _handle_modular_update_error.
    destruct (replay_total req []
                (add_event (set_remote (fst s) e) (Sent req), snd s))
      as [responses Hrun].
    rewrite Hrun. cbn [fst snd].
    rewrite after_replay_log, after_replay_snd. cbn [fst snd log add_event].
    rewrite <- app_assoc. cbn [app]. eauto.
  - intros e resp Hq. now apply batch_answered.
Qed.

Lemma fold_update_get (l : dict SmartModule.t) : forall (r : dict value) k,
  (forall key m, In (key, m) l -> dict_wf (SmartModule.query m)) ->
  (forall key m, In (key, m) l -> dict_get k (SmartModule.query m) = None) ->
  dict_get k (fold_left (fun r km => dict_update r (SmartModule.query (snd km))) l r)
  = dict_get k r.
Proof.
  induction l as [|[key m] l IH]; intros r k Hwf Hnone; [reflexivity|].
  cbn [fold_left snd]. rewrite IH.
  - rewrite dict_get_update by (eapply Hwf; now left).
    now rewrite (Hnone key m (or_introl eq_refl)).
  - intros key' m' Hin. eapply Hwf. right. exact Hin.
  - intros key' m' Hin. eapply Hnone. right. exact Hin.
Qed.

(** X17.  How the batched request is composed.  The request is the merge,
    in the order of the module collection, of the queries of the modules
    that are queried in the cycle.  So a method that several of them query
    is in the request once, with the parameters of the last of these
    modules; and a method that none of them queries is not in it. *)
Theorem batch_request_last_writer first_update update_time d :
  (forall key m, In (key, m) (_modules d) -> dict_wf (SmartModule.query m)) ->
  (forall pre key m post k params,
      _modules d = pre ++ (key, m) :: post ->
      included first_update update_time m = true ->
      dict_get k (SmartModule.query m) = Some params ->
      (forall key' m', In (key', m') post ->
                       included first_update update_time m' = true ->
                       dict_get k (SmartModule.query m') = None) ->
      dict_get k (planned_request first_update update_time d) = Some params)
  /\ (forall k,
         (forall key m, In (key, m) (_modules d) ->
                        included first_update update_time m = true ->
                        dict_get k (SmartModule.query m) = None) ->
         dict_get k (planned_request first_update update_time d) = None).
Proof.
  tidy.
  intros Hwf. split.
  - intros pre key m post k params Hmods Hinc Hk Hpost.
    rewrite planned_request_eq, Hmods, filter_app. cbn [filter snd].
    rewrite Hinc, fold_left_app. cbn [fold_left snd].
    rewrite fold_update_get.
    + rewrite dict_get_update, Hk; [reflexivity|].
      apply (Hwf key m). rewrite Hmods. apply in_or_app. right. now left.
    + intros key' m' Hin. apply filter_In in Hin. destruct Hin as [Hin _].
      apply (Hwf key' m'). rewrite Hmods. apply in_or_app. right. now right.
    + intros key' m' Hin. apply filter_In in Hin. destruct Hin as [Hin Hi].
      now apply (Hpost key' m').
  - intros k Hnone. rewrite planned_request_eq.
    rewrite fold_update_get; [reflexivity| |].
    + intros key m Hin. apply filter_In in Hin. destruct Hin as [Hin _].
      now apply (Hwf key m).
    + intros key m Hin. apply filter_In in Hin. destruct Hin as [Hin Hi].
      now apply (Hnone key m).
Qed.

Lemma dict_update_nil V (d : dict V) : dict_update d [] = d.
Proof.
  reflexivity. Qed.

(** X18.  A cycle in which no module is due.  When no module of the device
    is queried in a cycle after the first (every module has its own
    interval still running, or the collection is empty), the cycle sends a
    request all the same, the empty one; and unless that request is
    answered with something, the cycle raises KasaException, for want of
    the device info, and leaves the device as it was. *)
Theorem idle_cycle_sends_empty_request update_time w d :
  (forall key m, In (key, m) (_modules d) ->
                 included false update_time m = false) ->
  planned_request false update_time d = []
  /\ forall e r,
       protocol_query (remote w) [] = (e, r) ->
       r = Ok [] \/ (exists ex, r = Raise ex) ->
       _modular_update false update_time (w, d)
       = ((add_event (set_remote w e) (Sent []), d), Raise KasaException).
Proof.
  tidy.
  intros Hidle.
  assert (Hreq : planned_request false update_time d = []).
  { rewrite planned_request_eq.
    assert (Hnil : filter (fun km => included false update_time (snd km))
                     (_modules d) = []).
    { generalize Hidle. generalize (_modules d). intros l Hl.
      induction l as [|[key m] l IH]; [reflexivity|].
      cbn [filter snd]. rewrite (Hl key m (or_introl eq_refl)).
      apply IH. intros key' m' Hin. apply (Hl key' m'). now right. }
    now rewrite Hnil. }
  split; [exact Hreq|].
  intros e r Hq Hr.
  assert (Hbatch : batch false (planned_request false update_time d)
                     (w, with_modules d (planned_modules false update_time d))
                   = ((add_event (set_remote w e) (Sent []),
                       with_modules d (planned_modules false update_time d)),
                      Ok [])).
  { rewrite Hreq. destruct Hr as [->|[ex ->]].
    - apply batch_answered. exact Hq.
    - rewrite (@batch_raised DeviceCore false []
                 (w, with_modules d (planned_modules false update_time d))
                 e ex Hq).
      reflexivity. }
  rewrite modular_update_eq with (1 := Hbatch). unfold cycle_end.
  cbn [fst _try_get_response dict_get is_error_code].
  rewrite planned_modules_later, with_modules_same, dict_update_nil.
  now destruct d.
Qed.

(** ** What the device reports of its modules *)

(** X19.  The energy meter and the cloud connection after an eviction.  In
    a cycle that reaches the hooks, if the hook of the module held under
    "Energy" raises, the device no longer reports an energy meter
    afterwards, and if the hook of the module held under "Cloud" raises, it
    reports that it is not connected to the cloud; and a device that has
    been updated and holds no such module reports the same after any
    further update cycle. *)
Theorem eviction_shows first_update update_time w d s2 resp info :
  dict_wf (_modules d) ->
  batch first_update (planned_request first_update update_time d)
        (w, with_modules d (planned_modules first_update update_time d))
  = (s2, Ok resp) ->
  _try_get_response
    (if first_update then dict_update (_last_update d) resp else resp)
    "get_device_info" None = Ok info ->
  let d4 := with_info
              (with_last_update
                 (with_modules d (planned_modules first_update update_time d))
                 (dict_update (_last_update d) resp)) info in
  let d' := snd (fst (_modular_update first_update update_time (w, d))) in
  (forall m, dict_get "Energy" (_modules d4) = Some m ->
             _post_update_hook d4 m = false ->
             has_emeter d' = false)
  /\ (forall m, dict_get "Cloud" (_modules d4) = Some m ->
                _post_update_hook d4 m = false ->
                is_cloud_connected d' = Ok false)
  /\ (forall dev update_children w0,
         _last_update_time dev <> None ->
         (has_emeter (core dev) = false ->
          has_emeter (core (snd (fst (update update_children (w0, dev)))))
          = false)
         /\ (dict_get "Cloud" (_modules (core dev)) = None ->
             is_cloud_connected
               (core (snd (fst (update update_children (w0, dev)))))
             = Ok false)).
Proof.
  tidy.
  intros Hwf Hb Hinfo d4 d'.
  assert (Hgone : forall key m,
            dict_get key (_modules d4) = Some m ->
            _post_update_hook d4 m = false ->
            dict_get key (_modules d') = None).
  { intros key m Hget Hhook. subst d'.
    rewrite modular_update_eq with (1 := Hb). unfold cycle_end.
    rewrite Hinfo. fold d4. cbn [fst snd _modules with_modules].
    rewrite touch_all_get.
    assert (Hwf4 : dict_wf (_modules d4)).
    { subst d4. cbn [_modules with_info with_last_update with_modules].
      unfold dict_wf. now rewrite planned_modules_keys. }
    rewrite pop_failing_get with (1 := Hwf4) (2 := Hget). rewrite Hhook.
    now destruct (list_mem key _). }
  split; [|split].
  - intros m Hget Hhook. unfold has_emeter, dict_mem.
    now rewrite (Hgone _ _ Hget Hhook).
  - intros m Hget Hhook. unfold is_cloud_connected.
    now rewrite (Hgone _ _ Hget Hhook).
  - intros dev update_children w0 Hlater.
    assert (Hkeep : forall key,
              dict_get key (_modules (core dev)) = None ->
              dict_get key
                (_modules (core (snd (fst (update update_children (w0, dev))))))
              = None).
    { intros key Hnone. apply dict_get_None.
      assert (Hev : evicted key dev).
      { split; [now apply dict_get_None | assumption]. }
      apply (update_keeps_evicted update_children w0) in Hev.
      exact (proj1 Hev). }
    split.
    + unfold has_emeter, dict_mem. intros H.
      destruct (dict_get "Energy" (_modules (core dev))) eqn:He;
        [discriminate|].
      now rewrite (Hkeep _ He).
    + intros H. unfold is_cloud_connected. now rewrite (Hkeep _ H).
Qed.


(** ** The features are built once *)

Lemma add_feature_keys f c k :
  In k (dict_keys (_features (_add_feature f c)))
  <-> k = feat_id f \/ In k (dict_keys (_features c)).
Proof.
  unfold _add_feature. cbn [_features with_features].
  apply dict_keys_set_incl.
Qed.

(** The loop of [_initialize_features] over the keys of the device info. *)
Lemma info_features_loop l : forall (s s' : world env * DeviceCore),
  for_each l
    (fun kf : string * string =>
       d <- get ;;
       present <- of_result (info_has (_info d) (fst kf)) ;;
       if present : bool
       then modify (_add_feature (mkFeature (snd kf) None))
       else ret tt) s
  = (s', Ok tt) ->
  _info (snd s') = _info (snd s)
  /\ _modules (snd s') = _modules (snd s)
  /\ (forall k, In k (dict_keys (_features (snd s))) ->
                In k (dict_keys (_features (snd s'))))
  /\ forall key id,
       In (key, id) l ->
       info_has (_info (snd s)) key = Ok true ->
       In id (dict_keys (_features (snd s'))).
Proof.
  tidy.
  induction l as [|[key0 id0] l IH]; intros s s' Hrun.
  - cbn in Hrun. inversion Hrun; subst. repeat split; auto.
    intros key id [].
  - cbn [for_each] in Hrun. unfold bind at 1 in Hrun.
    unfold bind at 1 in Hrun. unfold get at 1 in Hrun. cbn [fst snd] in Hrun.
    unfold bind at 1 in Hrun. unfold of_result at 1 in Hrun.
    destruct (info_has (_info (snd s)) key0) as [present|e] eqn:Hhas;
      [|discriminate].
    destruct present.
    + unfold modify at 1 in Hrun. cbn [fst snd] in Hrun.
      destruct (IH _ _ Hrun) as [Hi [Hm [Hk Hids]]]. cbn [fst snd] in *.
      split; [exact Hi|]. split; [exact Hm|]. split.
      * intros k Hin. apply Hk. apply add_feature_keys. now right.
      * intros key id [Heq|Hin] Hpresent.
        -- inversion Heq; subst. apply Hk. apply add_feature_keys. now left.
        -- now apply (Hids key id).
    + unfold ret at 1 in Hrun.
      destruct (IH _ _ Hrun) as [Hi [Hm [Hk Hids]]].
      split; [exact Hi|]. split; [exact Hm|]. split; [exact Hk|].
      intros key id [Heq|Hin] Hpresent.
      * inversion Heq; subst. congruence.
      * now apply (Hids key id).
Qed.

Lemma add_features_loop l : forall (s : world env * DeviceCore),
  exists c',
    for_each l (fun feat => modify (_add_feature feat)) s = ((fst s, c'), Ok tt)
    /\ _info c' = _info (snd s)
    /\ _modules c' = _modules (snd s)
    /\ (forall k, In k (dict_keys (_features (snd s))) ->
                  In k (dict_keys (_features c')))
    /\ forall f, In f l -> In (feat_id f) (dict_keys (_features c')).
Proof.
  tidy.
  induction l as [|f0 l IH]; intros s.
  - exists (snd s). cbn. destruct s. repeat split; auto. intros f [].
  - cbn [for_each]. unfold bind, modify. cbn [fst snd].
    destruct (IH (fst s, _add_feature f0 (snd s)))
      as [c' [Hrun [Hi [Hm [Hk Hids]]]]]. cbn [fst snd] in *.
    exists c'. split; [exact Hrun|]. split; [exact Hi|]. split; [exact Hm|].
    split.
    + intros k Hin. apply Hk. apply add_feature_keys. now right.
    + intros f [<-|Hin]; [|now apply Hids].
      apply Hk. apply add_feature_keys. now left.
Qed.

Lemma module_features_loop l : forall (s : world env * DeviceCore),
  exists c',
    for_each l
      (fun module =>
         for_each (dict_values (SmartModule._module_features module))
           (fun feat => modify (_add_feature feat))) s
    = ((fst s, c'), Ok tt)
    /\ _info c' = _info (snd s)
    /\ _modules c' = _modules (snd s)
    /\ (forall k, In k (dict_keys (_features (snd s))) ->
                  In k (dict_keys (_features c')))
    /\ forall m f, In m l -> In f (dict_values (SmartModule._module_features m)) ->
                   In (feat_id f) (dict_keys (_features c')).
Proof.
  tidy.
  induction l as [|m0 l IH]; intros s.
  - exists (snd s). cbn. destruct s. repeat split; auto. intros m f [].
  - cbn [for_each]. unfold bind at 1.
    destruct (add_features_loop
                (dict_values (SmartModule._module_features m0)) s)
      as [c1 [Hrun1 [Hi1 [Hm1 [Hk1 Hids1]]]]].
    rewrite Hrun1.
    destruct (IH (fst s, c1)) as [c' [Hrun [Hi [Hm [Hk Hids]]]]].
    cbn [fst snd] in *.
    exists c'. split; [exact Hrun|]. split; [congruence|]. split; [congruence|].
    split.
    + intros k Hin. apply Hk. now apply Hk1.
    + intros m f [<-|Hin] Hf; [|now apply (Hids m f)].
      apply Hk. now apply Hids1.
Qed.

Lemma initialize_own_features_spec w c s' :
  _initialize_own_features (w, c) = (s', Ok tt) ->
  _info (snd s') = _info c
  /\ _modules (snd s') = _modules c
  /\ In "device_id" (dict_keys (_features (snd s')))
  /\ (forall key id, In (key, id) INFO_FEATURES ->
                     info_has (_info c) key = Ok true ->
                     In id (dict_keys (_features (snd s'))))
  /\ (forall key m f,
         In (key, m) (_modules c) ->
         In f (dict_values (SmartModule._module_features m)) ->
         In (feat_id f) (dict_keys (_features (snd s')))).
Proof.
  tidy.
  intros Hrun. unfold _initialize_own_features in Hrun.
  unfold bind at 1 in Hrun. unfold modify at 1 in Hrun. cbn [fst snd] in Hrun.
  unfold bind at 1 in Hrun.
  match type of Hrun with
  | context [for_each INFO_FEATURES ?body ?s0] =>
      destruct (for_each INFO_FEATURES body s0) as [s1 [[]|e]] eqn:Hloop;
        [|discriminate]
  end.
  destruct (info_features_loop _ _ Hloop) as [Hi1 [Hm1 [Hk1 Hids1]]].
  cbn [fst snd] in *.
  unfold bind at 1 in Hrun. unfold get at 1 in Hrun. cbn [fst snd] in Hrun.
  destruct (module_features_loop (dict_values (_modules (snd s1))) s1)
    as [c' [Hrun2 [Hi2 [Hm2 [Hk2 Hids2]]]]].
  rewrite Hrun2 in Hrun. inversion Hrun; subst s'. cbn [fst snd].
  assert (Hi0 : forall f, _info (_add_feature f c) = _info c) by reflexivity.
  assert (Hm0 : forall f, _modules (_add_feature f c) = _modules c)
    by reflexivity.
  rewrite Hi0 in Hi1, Hids1. rewrite Hm0 in Hm1.
  split; [congruence|]. split; [congruence|]. split; [|split].
  - apply Hk2, Hk1. apply add_feature_keys. now left.
  - intros key id Hin Hpresent. apply Hk2. apply (Hids1 key id); auto.
  - intros key m f Hin Hf. apply (Hids2 m f); [|assumption].
    rewrite Hm1.
    unfold dict_values. change m with (snd (key, m)). now apply in_map.
Qed.

Lemma initialize_features_spec (s s' : world env * SmartDevice) :
  _initialize_features s = (s', Ok tt) ->
  _info (core (snd s')) = _info (core (snd s))
  /\ _modules (core (snd s')) = _modules (core (snd s))
  /\ In "device_id" (dict_keys (_features (core (snd s'))))
  /\ (forall key id, In (key, id) INFO_FEATURES ->
                     info_has (_info (core (snd s))) key = Ok true ->
                     In id (dict_keys (_features (core (snd s')))))
  /\ (forall key m f,
         In (key, m) (_modules (core (snd s))) ->
         In f (dict_values (SmartModule._module_features m)) ->
         In (feat_id f) (dict_keys (_features (core (snd s'))))).
Proof.
  tidy.
  intros Hrun. unfold _initialize_features in Hrun.
  unfold bind at 1 in Hrun. unfold on_core at 1 in Hrun.
  destruct (_initialize_own_features (fst s, core (snd s)))
    as [[w1 c1] [[]|e]] eqn:Hown; [|discriminate].
  apply initialize_own_features_spec in Hown. cbn [fst snd] in Hown.
  unfold bind at 1 in Hrun. unfold get at 1 in Hrun. cbn [fst snd] in Hrun.
  assert (Hpres : preserves (fun x : SmartDevice => core x = c1)
            (for_each (dict_keys (_children (with_core (snd s) c1)))
               (fun id => on_child id _initialize_own_features))).
  { apply preserves_for_each. intros id _. apply preserves_on_child.
    intros d0 k H. exact H. }
  specialize (Hpres (w1, with_core (snd s) c1) eq_refl).
  rewrite Hrun in Hpres. cbn [snd] in Hpres. rewrite Hpres. exact Hown.
Qed.

(** X20.  The features of a device are built once.  An [update] of a
    device that has no features yet, when it returns, leaves a device with
    features: the device id, the feature of every key of [INFO_FEATURES]
    that is in the device info (the "on since" feature for the key
    "on_time", whatever its value), and the features of every module the
    device holds.  From then on no update cycle changes the feature set.
    Features are registered by id, as the specification has it. *)
Theorem features_are_built_once update_children w d :
  _features (core d) = [] ->
  snd (update update_children (w, d)) = Ok tt ->
  let d1 := snd (fst (update update_children (w, d))) in
  In "device_id" (dict_keys (_features (core d1)))
  /\ (forall key id, In (key, id) INFO_FEATURES ->
                     info_has (_info (core d1)) key = Ok true ->
                     In id (dict_keys (_features (core d1))))
  /\ (forall key m f,
         In (key, m) (_modules (core d1)) ->
         In f (dict_values (SmartModule._module_features m)) ->
         In (feat_id f) (dict_keys (_features (core d1))))
  /\ forall d2, after_cycles d1 d2 -> _features (core d2) = _features (core d1).
Proof.
  tidy.
  intros Hnone Hok d1.
  assert (Hcred : credentials d <> None \/ credentials_hash d <> None).
  { destruct (credentials d) eqn:Hc; [left; discriminate|].
    destruct (credentials_hash d) eqn:Hh; [right; discriminate|].
    exfalso. unfold update, bind, get in Hok. cbn [fst snd] in Hok.
    rewrite Hc, Hh in Hok. discriminate. }
  assert (Hrun : update update_children (w, d)
                 = update update_children (w, d)) by reflexivity.
  rewrite update_samples_once in Hrun at 2 by assumption.
  unfold update_cycle in Hrun.
  set (F := fun x : SmartDevice => _features (core x) = []).
  unfold bind at 1 in Hrun.
  match type of Hrun with
  | context [match ?m ?s0 with _ => _ end] =>
      assert (Hpre : preserves F m);
        [ destruct (_last_update_time d); [apply preserves_ret|];
          apply preserves_bind; [apply negotiate_keeps_features|intros ?];
          apply initialize_modules_keeps_features
        | specialize (Hpre s0 Hnone);
          destruct (m s0) as [sa [[]|e]];
            [|rewrite Hrun in Hok; discriminate] ]
  end.
  unfold bind at 1 in Hrun.
  match type of Hrun with
  | context [match ?m ?s0 with _ => _ end] =>
      assert (Hmu : preserves F m);
        [ apply preserves_on_core_modular_update;
          intros x w0 Hx; unfold F; cbn [core with_core];
          now rewrite modular_update_features
        | specialize (Hmu s0 Hpre);
          destruct (m s0) as [sb [resp|e]];
            [|rewrite Hrun in Hok; discriminate] ]
  end.
  unfold bind at 1 in Hrun.
  match type of Hrun with
  | context [match ?m ?s0 with _ => _ end] =>
      assert (Huc : preserves F m);
        [ apply update_children_preserves; split; intros; assumption
        | specialize (Huc s0 Hmu);
          destruct (m s0) as [sc [[]|e]];
            [|rewrite Hrun in Hok; discriminate] ]
  end.
  unfold ensure_features in Hrun. unfold bind at 1 in Hrun.
  unfold get at 1 in Hrun. cbn [fst snd] in Hrun.
  unfold F in Huc. rewrite Huc in Hrun.
  assert (Hinit : _initialize_features sc = (fst (update update_children (w, d)), Ok tt)).
  { rewrite <- Hrun. clear Hrun.
    destruct (update update_children (w, d)) as [s' r].
    cbn [fst snd] in *. now subst r. }
  apply initialize_features_spec in Hinit. fold d1 in Hinit.
  destruct Hinit as [Hi [Hm [Hid [Hinfo Hmods]]]].
  split; [exact Hid|]. split; [|split].
  - intros key id Hin Hpresent. apply (Hinfo key id Hin). now rewrite <- Hi.
  - intros key m f Hin Hf. apply (Hmods key m f); [|assumption].
    now rewrite <- Hm.
  - intros d2 Hcycles. induction Hcycles as [|d2 uc w2 Hcycles IH];
      [reflexivity|].
    rewrite update_features_kept; [exact IH|].
    rewrite IH. intros Hempty. rewrite Hempty in Hid. exact Hid.
Qed.


(** ** The [update_children] flag *)

Lemma on_core_device_type_cached (s : world env * SmartDevice) :
  _device_type (core (snd s)) <> Unknown ->
  on_core device_type s = (s, Ok (_device_type (core (snd s)))).
Proof.
  intros Hty. unfold on_core, device_type, bind, get. cbn [fst snd].
  destruct s as [w d]. cbn [fst snd] in *.
  destruct (_device_type (core d)); try congruence;
    unfold ret; now rewrite with_core_same.
Qed.

Lemma bind_ext S A B (m : M S A) (k1 k2 : A -> M S B) (s : world env * S) :
  (forall a s', m s = (s', Ok a) -> k1 a s' = k2 a s') ->
  bind m k1 s = bind m k2 s.
Proof.
  intros H. unfold bind. destruct (m s) as [s' [a|e]]; auto. Qed.

Lemma on_core_modular_update_device_type first_update t
    (s s' : world env * SmartDevice) r :
  on_core (_modular_update first_update t) s = (s', r) ->
  _device_type (core (snd s')) = _device_type (core (snd s)).
Proof.
  intros Hrun. unfold on_core in Hrun.
  pose proof (modular_update_device_type first_update t (fst s) (core (snd s)))
    as Hty.
  destruct (_modular_update first_update t (fst s, core (snd s)))
    as [[w1 c1] r1].
  inversion Hrun; subst. exact Hty.
Qed.

Lemma update_on_hub w d t0 :
  (credentials d <> None \/ credentials_hash d <> None) ->
  _last_update_time d = Some t0 ->
  _device_type (core d) = Hub ->
  update false (w, d)
  = bind (on_core (_modular_update false (snd (time_time (remote w)))))
      (fun resp => push_child_infos_and_sweep ;;; ensure_features)
      (add_event (set_remote w (fst (time_time (remote w)))) ClockRead,
       with_last_update_time d (Some (snd (time_time (remote w))))).
Proof.
  tidy.
  intros Hcred Hlast Hhub.
  rewrite update_later with (t0 := t0) by assumption.
  apply bind_ext. intros resp s' Hrun.
  apply on_core_modular_update_device_type in Hrun.
  cbn [fst snd core with_last_update_time] in Hrun. rewrite Hhub in Hrun.
  unfold bind.
  assert (Heq : update_children_and_info false s'
                = push_child_infos_and_sweep s').
  { unfold update_children_and_info, push_child_infos_and_sweep.
    unfold bind at 1. unfold bind at 1.
    rewrite on_core_device_type_cached by (rewrite Hrun; discriminate).
    rewrite Hrun. reflexivity. }
  now rewrite Heq.
Qed.

Lemma update_flag_off_hub w d t0 :
  (credentials d <> None \/ credentials_hash d <> None) ->
  _last_update_time d = Some t0 ->
  _device_type (core d) <> Unknown ->
  _device_type (core d) <> Hub ->
  update false (w, d) = update true (w, d).
Proof.
  tidy.
  intros Hcred Hlast Hknown Hhub.
  rewrite !update_later with (t0 := t0) by assumption.
  apply bind_ext. intros resp s' Hrun.
  apply on_core_modular_update_device_type in Hrun.
  cbn [fst snd core with_last_update_time] in Hrun.
  assert (Heq : update_children_and_info false s'
                = update_children_and_info true s').
  { unfold update_children_and_info.
    unfold bind at 1. unfold bind at 1.
    rewrite on_core_device_type_cached by (rewrite Hrun; assumption).
    rewrite Hrun.
    destruct (_device_type (core d)); try congruence; reflexivity. }
  unfold bind. now rewrite Heq.
Qed.


End Orchestrator.

(** * The [update_children] flag *)

(** X21.  The [update_children] flag only matters on a hub.  In an update
    cycle after the first, on a device whose type has been determined:
    on a hub, [update] with [update_children] false does not depend on what
    the update of a child does (no child is updated); on any other
    device, [update] with the flag false is [update] with the flag true. *)
Theorem update_children_flag_only_on_hubs env
    (protocol_query : env -> dict value -> env * result (dict value))
    (time_time : env -> env * Z)
    (_post_update_hook : DeviceCore -> SmartModule.t -> bool)
    (int_of_string : string -> option Z)
    (SmartChildDevice_create :
       SmartDevice -> value -> dict Z -> env -> env * result DeviceCore)
    (child_update child_update' :
       DeviceCore -> env -> env * (DeviceCore * result unit))
    (REGISTERED_MODULES : list ModuleDescriptor)
    (new_module : ModuleClass -> option string -> DeviceCore -> SmartModule.t)
    _check_supported
    (w : world env) (d : SmartDevice) t0 :
  (credentials d <> None \/ credentials_hash d <> None) ->
  _last_update_time d = Some t0 ->
  (_device_type (core d) = Hub ->
   update protocol_query time_time _post_update_hook int_of_string
     SmartChildDevice_create child_update REGISTERED_MODULES new_module
     _check_supported false (w, d)
   = update protocol_query time_time _post_update_hook int_of_string
       SmartChildDevice_create child_update' REGISTERED_MODULES new_module
       _check_supported false (w, d))
  /\ (_device_type (core d) <> Hub ->
      _device_type (core d) <> Unknown ->
      update protocol_query time_time _post_update_hook int_of_string
        SmartChildDevice_create child_update REGISTERED_MODULES new_module
        _check_supported false (w, d)
      = update protocol_query time_time _post_update_hook int_of_string
          SmartChildDevice_create child_update REGISTERED_MODULES new_module
          _check_supported true (w, d)).
Proof.
  intros Hcred Hlast. split.
  - intros Hhub.
    rewrite !update_on_hub with (t0 := t0) by assumption. reflexivity.
  - intros Hhub Hknown. now apply update_flag_off_hub with (t0 := t0).
Qed.

(** * Examples: a plug and a hub against a scripted remote end *)

Abbreviation plug_update :=
  (update scripted_query script_clock data_hook no_int no_child idle_child
          plug_registry plug_module always_supported).
Abbreviation plug_modular_update :=
  (_modular_update scripted_query data_hook).
Abbreviation hub_pair :=
  (ChildSetup_pair scripted_query script_latency hub_categories
                   no_such_method).
Abbreviation hub_pair_with_method :=
  (ChildSetup_pair scripted_query script_latency hub_categories
                   renegotiation_requested).
Abbreviation hub_unpair :=
  (ChildSetup_unpair scripted_query script_latency renegotiation_requested).
Abbreviation at_start := (fun e : script => mkWorld e [] 0 None).

Example dict_set_keeps_the_place :
  dict_set "b" 9 [("a", 1); ("b", 2); ("c", 3)] = [("a", 1); ("b", 9); ("c", 3)]
  /\ dict_set "d" 4 [("a", 1); ("b", 2)] = [("a", 1); ("b", 2); ("d", 4)].
Proof. split; reflexivity. Qed.

Example dict_update_overwrites :
  dict_update [("a", 1); ("b", 2)] [("b", 5); ("c", 6)]
  = [("a", 1); ("b", 5); ("c", 6)].
Proof. reflexivity. Qed.

Example contains_substring :
  contains "PLUG" "SMART.TAPOPLUG" = true /\ contains "HUB" "SMART.TAPOPLUG" = false.
Proof. split; reflexivity. Qed.

Example try_get_response_error_code :
  _try_get_response [("get_device_info", VErr INTERNAL_QUERY_ERROR)]
                    "get_device_info" None
  = Raise KasaException
  /\ _try_get_response [] "get_child_device_list" (Some (VDict []))
     = Ok (VDict []).
Proof. split; reflexivity. Qed.

Example classify_bulb :
  _get_device_type_from_components ["brightness"; "color"] "SMART.TAPOBULB"
  = Bulb.
Proof. reflexivity. Qed.

Example classify_unknown_falls_back :
  _get_device_type_from_components [] "SMART.IPCAMERA" = Plug.
Proof. reflexivity. Qed.

Lemma classifier_first_match_witness :
  contains "HUB" "SMART.KASAPLUG" = false
  /\ contains "PLUG" "SMART.KASAPLUG" = true
  /\ _get_device_type_from_components ["device"; "child_device"] "SMART.KASAPLUG"
     = Strip
  /\ _get_device_type_from_components ["device"] "SMART.KASAPLUG" = Plug.
Proof.
  split; [reflexivity|]. split; [reflexivity|]. split.
  - apply (proj2 (proj2 (classifier_first_match
                           ["device"; "child_device"] "SMART.KASAPLUG")));
      reflexivity.
  - apply (proj2 (proj2 (classifier_first_match ["device"] "SMART.KASAPLUG")));
      reflexivity.
Defined.

(** A tag that contains "PLUG" and capabilities that contain "child_device",
    classified as a hub because the tag contains "HUB" too. *)
Lemma classifier_hub_before_plug :
  contains "PLUG" "SMART.HUBPLUG" = true
  /\ list_mem "child_device" ["child_device"] = true
  /\ _get_device_type_from_components ["child_device"] "SMART.HUBPLUG" = Hub.
Proof. repeat split. Qed.


Example on_since_off :
  on_since (fun _ => 0) 1000 None
    (with_info plug_core (VDict [("device_on", VBool false); ("on_time", VNum 0)]))
  = Ok None.
Proof. reflexivity. Qed.

Lemma batch_failure_keeps_every_key_witness :
  scripted_query lost_batch (planned_request false 700 plug_core)
  = ([Ok [("get_device_info", plug_info)]; Raise TimeoutError],
     Raise TimeoutError)
  /\ dict_keys
       (_last_update
          (snd (fst (plug_modular_update false 700
                       (at_start lost_batch, plug_core)))))
     = ["component_nego"; "get_device_info"; "get_connect_cloud_state";
        "get_energy_usage"]
  /\ dict_get "get_energy_usage"
       (_last_update
          (snd (fst (plug_modular_update false 700
                       (at_start lost_batch, plug_core)))))
     = Some (VErr INTERNAL_QUERY_ERROR).
Proof.
  split; [reflexivity|]. split; [reflexivity|].
  destruct (batch_failure_keeps_every_key scripted_query data_hook false 700
              (at_start lost_batch) plug_core (eq_refl : _ = (_, Raise TimeoutError)))
    as [responses [_ [_ [Hvals [_ Hmerged]]]]].
  specialize (Hvals [("get_device_info", VNone)] "get_energy_usage" VNone
                    [("get_connect_cloud_state", VNone)] eq_refl).
  destruct (Hmerged "get_energy_usage") as [v [Hv Hfinal]].
  { simpl. auto. }
  rewrite Hfinal, <- Hv, Hvals. reflexivity.
Defined.


Lemma later_modules_wf : dict_wf (_modules later_core).
Proof.
  unfold dict_wf. simpl.
  repeat constructor; simpl; intuition discriminate.
Qed.



Lemma odd_modules_wf : dict_wf (_modules odd_core).
Proof.
  unfold dict_wf. simpl.
  repeat constructor; simpl; intuition discriminate.
Qed.



Example update_needs_credentials :
  plug_update false
    (at_start two_cycles, mkDevice fresh_core None None None [])
  = ((at_start two_cycles, mkDevice fresh_core None None None []),
     Raise AuthenticationError).
Proof. reflexivity. Qed.

(** A later cycle answered with an error code for the device info: the
    update raises, the answer has been merged, the modules are untouched. *)
Lemma stale_info_raises_witness :
  _last_update_time updated_plug = Some 500
  /\ dict_get "get_device_info" (answer_of [] (hd (Raise KeyError) no_info_answer))
     = Some (VErr (DeviceErrorCode (-1001)))
  /\ snd (plug_update false (at_start no_info_answer, updated_plug))
     = Raise KasaException
  /\ _modules (core (snd (fst (plug_update false
                                 (at_start no_info_answer, updated_plug)))))
     = _modules (core updated_plug)
  /\ dict_get "get_energy_usage"
       (_last_update
          (core (snd (fst (plug_update false
                             (at_start no_info_answer, updated_plug))))))
     = Some (VDict [("today", VNum 5)]).
Proof.
  split; [reflexivity|]. split; [reflexivity|].
  destruct (@stale_info_raises script scripted_query script_clock data_hook
              no_int no_child idle_child plug_registry plug_module
              always_supported false (at_start no_info_answer) updated_plug 500
              (fst (batch scripted_query false
                      (planned_request false 900 later_core)
                      (add_event (at_start no_info_answer) ClockRead, later_core)))
              (answer_of [] (hd (Raise KeyError) no_info_answer)))
    as [Heq _].
  - left. discriminate.
  - reflexivity.
  - vm_compute. reflexivity.
  - right. exists (DeviceErrorCode (-1001)). reflexivity.
  - rewrite Heq. repeat split.
Defined.

Abbreviation hub_turn :=
  (scan_turn scripted_query script_latency hub_categories).
Abbreviation hub_scanning :=
  (scanning scripted_query script_latency hub_categories).
Abbreviation hub_call :=
  (@call script scripted_query script_latency SmartDevice).

(** The world in which the scan starts: scanning has begun on the hub, and
    the timeout block of [timeout] milliseconds is entered. *)
Abbreviation scan_start e timeout :=
  (set_deadline
     (fst (fst (hub_call "begin_scanning_child_device" VNone (at_start e, hub))))
     (Some (clock (fst (fst (hub_call "begin_scanning_child_device" VNone
                               (at_start e, hub))))
            + timeout)),
   snd (fst (hub_call "begin_scanning_child_device" VNone (at_start e, hub)))).

(** On the hub as it is, the scan finds a device at its third poll and the
    add request is sent and answered; the call of [request_renegotiation]
    then raises, and the answer is lost. *)
Example pair_raises_after_the_add_request :
  hub_pair 10000 (at_start scan_finds, hub)
  = ((mkWorld []
        [Sent [("begin_scanning_child_device", VNone)];
         Sent [("get_scan_child_device_list",
                VDict [("scan_list", VList [VStr "subg.trv"; VStr "subg.trigger"])])];
         Sent [("get_scan_child_device_list",
                VDict [("scan_list", VList [VStr "subg.trv"; VStr "subg.trigger"])])];
         Sent [("get_scan_child_device_list",
                VDict [("scan_list", VList [VStr "subg.trv"; VStr "subg.trigger"])])];
         Sent [("add_child_device_list", found_device)]]
        2500 None,
      hub),
     Raise AttributeError).
Proof. vm_compute. reflexivity. Qed.

(** On a hub that has the method the same scan returns the answer. *)
Example pair_finds_a_device :
  hub_pair_with_method 10000 (at_start scan_finds, hub)
  = ((mkWorld []
        [Sent [("begin_scanning_child_device", VNone)];
         Sent [("get_scan_child_device_list",
                VDict [("scan_list", VList [VStr "subg.trv"; VStr "subg.trigger"])])];
         Sent [("get_scan_child_device_list",
                VDict [("scan_list", VList [VStr "subg.trv"; VStr "subg.trigger"])])];
         Sent [("get_scan_child_device_list",
                VDict [("scan_list", VList [VStr "subg.trv"; VStr "subg.trigger"])])];
         Sent [("add_child_device_list", found_device)]]
        2500 None,
      forget_last_update hub),
     Ok (Some [("add_child_device_list", VNone)])).
Proof. vm_compute. reflexivity. Qed.

Example pair_times_out :
  snd (hub_pair 2000 (at_start scan_finds_nothing, hub)) = Ok None
  /\ filter is_add_request
       (log (fst (fst (hub_pair 2000 (at_start scan_finds_nothing, hub)))))
     = [].
Proof. vm_compute. split; reflexivity. Qed.

Lemma scan_finds_at_third_poll :
  hub_scanning (scan_start scan_finds 10000)
    (fst (hub_turn (fst (hub_turn (fst (hub_turn (scan_start scan_finds 10000)))))),
     Ok found_device).
Proof.
  eapply scanning_again; [vm_compute; reflexivity | reflexivity |].
  eapply scanning_again; [vm_compute; reflexivity | reflexivity |].
  eapply scanning_found; [vm_compute; reflexivity | reflexivity].
Qed.

Lemma scan_cut_at_third_poll :
  hub_scanning (scan_start scan_finds_nothing 2000)
    (fst (hub_turn (fst (hub_turn (fst (hub_turn
            (scan_start scan_finds_nothing 2000)))))),
     Raise TimeoutError).
Proof.
  eapply scanning_again; [vm_compute; reflexivity | reflexivity |].
  eapply scanning_again; [vm_compute; reflexivity | reflexivity |].
  eapply scanning_raised. vm_compute. reflexivity.
Qed.

(** A scan with a timeout of ten seconds that finds a device at its third
    poll sends the add request, and raises [AttributeError] at the call of
    [request_renegotiation]; one with a timeout of two seconds during which
    nothing is found returns nothing and adds nothing. *)
Lemma pair_spec_witness :
  snd (hub_call "begin_scanning_child_device" VNone (at_start scan_finds, hub))
  = Ok [("begin_scanning_child_device", VNone)]
  /\ (exists w3 r,
         log w3
         = log (fst (fst (hub_turn (fst (hub_turn (fst (hub_turn
                  (scan_start scan_finds 10000))))))))
           ++ [Sent [("add_child_device_list", found_device)]]
         /\ ((exists answer : dict value,
                 r = Ok answer
                 /\ hub_pair 10000 (at_start scan_finds, hub)
                    = ((w3, hub), Raise AttributeError))
             \/ (exists e,
                    r = Raise e
                    /\ hub_pair 10000 (at_start scan_finds, hub)
                       = ((w3, hub), Raise e))))
  /\ snd (hub_pair 2000 (at_start scan_finds_nothing, hub)) = Ok None.
Proof.
  split; [reflexivity|]. split.
  - destruct (pair_spec scripted_query script_latency hub_categories
                no_such_method 10000 (at_start scan_finds) hub
                (s1 := fst (hub_call "begin_scanning_child_device" VNone
                              (at_start scan_finds, hub)))
                (r0 := [("begin_scanning_child_device", VNone)]) eq_refl)
      as [_ [Hfound _]].
    destruct (Hfound _ found_device [VDict [("device_id", VStr "child-2")]]
                scan_finds_at_third_poll eq_refl)
      as [w3 [r [Hlog [_ [Hpair _]]]]].
    exists w3, r. split; [exact Hlog | exact Hpair].
  - destruct (pair_spec scripted_query script_latency hub_categories
                no_such_method 2000 (at_start scan_finds_nothing) hub
                (s1 := fst (hub_call "begin_scanning_child_device" VNone
                              (at_start scan_finds_nothing, hub)))
                (r0 := [("begin_scanning_child_device", VNone)]) eq_refl)
      as [_ [_ Hnone]].
    destruct (Hnone _ scan_cut_at_third_poll) as [Hpair _].
    rewrite Hpair. reflexivity.
Defined.

Lemma unpair_leaves_children_witness :
  (exists w' d' r,
      hub_unpair "child-1" (at_start [Ok [("remove_child_device_list", VNone)]], hub)
      = ((w', d'), r)
      /\ log w'
         = [Sent [("remove_child_device_list",
                   VDict [("child_device_list",
                           VList [VDict [("device_id", VStr "child-1")]])])]]
      /\ _children d' = [("child-1", fresh_core)]).
Proof.
  exact (proj1 (unpair_leaves_children scripted_query script_latency
                  renegotiation_requested "child-1" VNone
                  (at_start [Ok [("remove_child_device_list", VNone)]]) hub
                  (fun x => eq_refl))).
Defined.

Example unpair_on_the_wire :
  hub_unpair "child-1" (at_start [Ok [("remove_child_device_list", VNone)]], hub)
  = ((mkWorld []
        [Sent [("remove_child_device_list",
                VDict [("child_device_list",
                        VList [VDict [("device_id", VStr "child-1")]])])]]
        200 None,
      forget_last_update hub),
     Ok [("remove_child_device_list", VNone)]).
Proof. reflexivity. Qed.




(** ** The further properties, on the plug and on the hub *)

(** The type of the plug is worked out from its components once, and read
    back from the cache whatever the device holds then. *)
Lemma device_type_cached_witness :
  device_type (at_start one_answer, plug_core)
  = ((at_start one_answer, with_device_type plug_core Plug), Ok Plug)
  /\ Plug <> Unknown
  /\ device_type (at_start one_answer, mkCore VNone [] [] [] [] Plug)
     = ((at_start one_answer, mkCore VNone [] [] [] [] Plug), Ok Plug).
Proof.
  destruct (device_type_cached (at_start one_answer) plug_core
              (w' := at_start one_answer)
              (d' := with_device_type plug_core Plug) (t := Plug) eq_refl)
    as [_ [Hknown [_ Hcached]]].
  split; [reflexivity|]. split; [exact Hknown|].
  exact (Hcached (at_start one_answer) VNone [] [] [] []).
Defined.

(** The plug is named "Lamp": the name goes out in base64, and a device
    that holds it under "nickname" has "Lamp" for its alias. *)
Lemma alias_after_set_alias_witness :
  utf8_valid "Lamp" = true
  /\ snd (set_alias scripted_query "Lamp" (at_start [Ok []], plug_core)) = Ok []
  /\ log (fst (fst (set_alias scripted_query "Lamp"
                      (at_start [Ok []], plug_core))))
     = [Sent [("set_device_info", VDict [("nickname", VStr "TGFtcA==")])]]
  /\ alias named_core = Ok (Some "Lamp").
Proof.
  pose proof (alias_after_set_alias scripted_query "Lamp"
                (at_start [Ok []], plug_core) eq_refl) as H.
  cbv zeta in H. destruct H as [Hsent Halias].
  split; [reflexivity|]. rewrite Hsent.
  split; [reflexivity|]. split; [reflexivity|].
  apply (Halias named_core
           [("type", VStr "SMART.TAPOPLUG"); ("nickname", VStr "TGFtcA==");
            ("ssid", VStr "SG9tZQ=="); ("mac", VStr "A8-42-A1-00-11-22")]);
    reflexivity.
Defined.

(** The plug that has joined "Home" reports it, and the plug whose info
    has no "ssid" reports "No SSID". *)
Lemma ssid_spec_witness :
  ssid plug_core = Ok "No SSID" /\ ssid named_core = Ok "Home".
Proof.
  split.
  - edestruct (ssid_spec plug_core) as [Habsent _]; [reflexivity|].
    apply Habsent. reflexivity.
  - edestruct (ssid_spec named_core) as [_ [_ Hname]]; [reflexivity|].
    apply Hname; [reflexivity | discriminate | reflexivity].
Defined.

(** The address of the plug, with colons for the dashes. *)
Lemma mac_has_no_dash_witness :
  exists m,
    mac (fun _ => "") named_core = Ok m
    /\ contains "-" m = false
    /\ m = "A8:42:A1:00:11:22".
Proof.
  edestruct (mac_has_no_dash (fun _ => "") named_core)
    as [m [Hm [Hdash [Hstr _]]]]; [reflexivity|].
  exists m. split; [exact Hm|]. split; [exact Hdash|].
  destruct (Hstr "A8-42-A1-00-11-22" eq_refl) as [-> _]. reflexivity.
Defined.

(** The plug joins "Home": one request, with the credentials, the password
    and the name of the network in base64 and the time of the device; the
    connection drops, and the answer is [None]. *)
Lemma wifi_join_spec_witness :
  wifi_join scripted_query no_device_error any_kasa_exception
    "Home" "pass" "wpa2_psk" (at_start dropped, timed_plug)
  = ((add_event (set_remote (at_start dropped) [])
        (Sent [("set_qs_info",
                VDict [("account", VDict [("username", VStr "dXNlcg==");
                                          ("password", VStr "c2VjcmV0")]);
                       ("wireless", VDict [("key_type", VStr "wpa2_psk");
                                           ("password", VStr "cGFzcw==");
                                           ("ssid", VStr "SG9tZQ==")]);
                       ("time", device_time)])]),
      timed_plug),
     Ok None).
Proof.
  destruct (wifi_join_spec scripted_query no_device_error any_kasa_exception
              "Home" "pass" "wpa2_psk" (at_start dropped) timed_plug)
    as [_ [_ Hjoin]].
  rewrite (Hjoin "user" "secret" device_time eq_refl eq_refl).
  reflexivity.
Defined.

(** New credentials for the plug: one request, from which the device can
    read them back. *)
Lemma update_credentials_spec_witness :
  update_credentials scripted_query "user" "secret"
    (at_start [Ok []], timed_core)
  = ((add_event (set_remote (at_start [Ok []]) [])
        (Sent [("set_qs_info",
                VDict [("account", VDict [("username", VStr "dXNlcg==");
                                          ("password", VStr "c2VjcmV0")]);
                       ("time", device_time)])]),
      timed_core),
     Ok [])
  /\ b64decode_text (VStr "dXNlcg==") = Ok "user".
Proof.
  destruct (update_credentials_spec scripted_query "user" "secret"
              (at_start [Ok []]) timed_core) as [_ Hsend].
  destruct (Hsend device_time eq_refl) as [Hrun [Huser _]].
  split; [rewrite Hrun; reflexivity | exact (Huser eq_refl)].
Defined.

(** A scan that finds the network "Home". *)
Lemma wifi_scan_spec_witness :
  snd (wifi_scan scripted_query (at_start scan_answer, plug_core))
  = Ok [WifiNetwork.mk "Home" (VNum 2) (VStr "wpa2_psk") (VNum 6) (VNum 3)
          (VStr "A8-42-A1-00-11-23")]
  /\ log (fst (fst (wifi_scan scripted_query (at_start scan_answer, plug_core))))
     = [Sent [("get_wireless_scan_info", VDict [("start_index", VNum 0)])]]
  /\ List.length [home_ap] = 1%nat.
Proof.
  edestruct (wifi_scan_spec scripted_query (at_start scan_answer, plug_core))
    as [Hstate [Hnets _]]; [reflexivity | reflexivity | reflexivity |].
  split; [reflexivity|]. rewrite Hstate.
  split; [reflexivity|].
  symmetry. apply (Hnets _ eq_refl).
Defined.

(** The negotiation of the plug: its components are those of the answer,
    and as "child_device" is not among them no child is asked for. *)
Lemma negotiate_spec_witness :
  _negotiate scripted_query no_int no_child (at_start [negotiation], fresh_plug)
  = ((add_event (set_remote (at_start [negotiation]) [])
        (Sent [("component_nego", VNone); ("get_device_info", VNone);
               ("get_connect_cloud_state", VNone)]),
      with_core fresh_plug
        (mkCore plug_info
           [("component_nego", plug_components); ("get_device_info", plug_info);
            ("get_connect_cloud_state", VDict [("status", VNum 0)])]
           [("device", 2); ("energy_monitoring", 2); ("cloud_connect", 1)]
           [] [] Unknown)),
     Ok tt).
Proof.
  pose proof (@negotiate_spec _ scripted_query no_int no_child
             (at_start [negotiation]) fresh_plug []
             [("component_nego", plug_components); ("get_device_info", plug_info);
              ("get_connect_cloud_state", VDict [("status", VNum 0)])]
             plug_info plug_components
             [VDict [("id", VStr "device"); ("ver_code", VNum 2)];
              VDict [("id", VStr "energy_monitoring"); ("ver_code", VNum 2)];
              VDict [("id", VStr "cloud_connect"); ("ver_code", VNum 1)]]
             [("device", 2); ("energy_monitoring", 2); ("cloud_connect", 1)]
             eq_refl eq_refl eq_refl eq_refl) as H.
  cbv zeta in H.
  etransitivity; [apply H | reflexivity].
  repeat constructor; cbn [fst snd]; eexists; split; reflexivity.
Defined.

(** A negotiation that is lost, and one whose answer has no device info. *)
Lemma negotiate_failure_witness :
  _negotiate scripted_query no_int no_child (at_start dropped, fresh_plug)
  = ((add_event (set_remote (at_start dropped) [])
        (Sent [("component_nego", VNone); ("get_device_info", VNone);
               ("get_connect_cloud_state", VNone)]),
      fresh_plug),
     Raise TimeoutError)
  /\ snd (_negotiate scripted_query no_int no_child
            (at_start [Ok [("component_nego", plug_components)]], fresh_plug))
     = Raise KasaException.
Proof.
  split.
  - pose proof (negotiate_failure scripted_query no_int no_child
                  (at_start dropped) fresh_plug []) as H.
    cbv zeta in H. destruct H as [Hlost _].
    exact (Hlost TimeoutError eq_refl).
  - pose proof (negotiate_failure scripted_query no_int no_child
                  (at_start [Ok [("component_nego", plug_components)]])
                  fresh_plug []) as H.
    cbv zeta in H. destruct H as [_ Hanswered].
    destruct (Hanswered [("component_nego", plug_components)] eq_refl)
      as [Hnoinfo _].
    rewrite Hnoinfo; [reflexivity|]. left. reflexivity.
Defined.

(** The first update of the plug with the negotiation lost: the update
    raises, and the time of the update is set all the same. *)
Lemma failed_negotiation_is_not_retried_witness :
  snd (plug_update false (at_start dropped, fresh_plug)) = Raise TimeoutError
  /\ _last_update_time
       (snd (fst (plug_update false (at_start dropped, fresh_plug))))
     = Some 900.
Proof.
  pose proof (@failed_negotiation_is_not_retried _ scripted_query script_clock
                data_hook no_int no_child idle_child plug_registry plug_module
                always_supported false (at_start dropped) fresh_plug
                TimeoutError) as H.
  cbv zeta in H.
  destruct H as [Hrun _];
    [left; discriminate | reflexivity | reflexivity |].
  rewrite Hrun. split; reflexivity.
Defined.

(** An update of the hub leaves it with the child it had. *)
Lemma update_keeps_topology_witness :
  dict_keys (_children (snd (fst (plug_update true (at_start hub_answer, hub)))))
  = ["child-1"]
  /\ credentials (snd (fst (plug_update true (at_start hub_answer, hub))))
     = Some ("user", "secret").
Proof.
  destruct (@update_keeps_topology _ scripted_query script_clock data_hook
              no_int no_child idle_child plug_registry plug_module
              always_supported true (at_start hub_answer) hub 100 eq_refl)
    as [Hkids [Hcred _]].
  split; [exact Hkids | exact Hcred].
Defined.

(** The hub is told of "child-9", which it does not hold: the update
    raises KeyError. *)
Lemma unknown_child_fails_update_witness :
  snd (plug_update false (at_start hub_answer, hub_with_stranger))
  = Raise KeyError.
Proof.
  pose proof (unknown_child_fails_update scripted_query script_clock
                data_hook no_int no_child idle_child plug_registry plug_module
                always_supported (at_start hub_answer) hub_with_stranger) as H.
  refine (proj2 (H 100 _ _ _ [VDict [("device_id", VStr "child-1")]]
                   (VDict [("device_id", VStr "child-9")]) [] "child-9"
                   _ _ _ _ _ _ _ _) eq_refl).
  - left; discriminate.
  - reflexivity.
  - vm_compute. reflexivity.
  - reflexivity.
  - reflexivity.
  - intros i [<-|[]]. exists "child-1". split; [reflexivity | now left].
  - reflexivity.
  - intros [H0|[]]. discriminate.
Defined.

(** The children of a hub, from its answer: one request, and one child,
    "child-1". *)
Lemma initialize_children_spec_witness :
  log (fst (fst (_initialize_children scripted_query no_int bare_child
                   (at_start children_answer, fresh_plug))))
  = [Sent [("get_child_device_component_list", VNone);
           ("get_child_device_list", VNone)]]
  /\ snd (_initialize_children scripted_query no_int bare_child
            (at_start children_answer, fresh_plug)) = Ok tt
  /\ (In "child-1"
        (dict_keys (_children
                      (snd (fst (_initialize_children scripted_query no_int
                                   bare_child
                                   (at_start children_answer, fresh_plug))))))
      <-> exists child_info,
            In child_info [VDict [("device_id", VStr "child-1")]]
            /\ subscript child_info "device_id" = Ok (VStr "child-1")).
Proof.
  pose proof (initialize_children_spec scripted_query no_int bare_child
                (at_start children_answer) fresh_plug) as H.
  cbv zeta in H. destruct H as [Hlog [_ Hkids]].
  split; [exact Hlog|]. split; [reflexivity|].
  destruct (Hkids eq_refl) as [child_list [children [Hlist [Hsub Hids]]]].
  vm_compute in Hlist. inversion Hlist; subst child_list.
  vm_compute in Hsub. inversion Hsub; subst children.
  apply Hids.
Defined.

Lemma plug_module_class cls component d :
  SmartModule.cls (plug_module cls component d) = cls.
Proof.
  destruct cls; try reflexivity. unfold plug_module.
  repeat match goal with
         | |- context [match ?x with _ => _ end] =>
             is_var x; destruct x; try reflexivity
         end.
Qed.

(** The modules of a socket of a power strip: of the registry of the plug
    it gets the energy module alone. *)
Lemma child_skips_parent_only_modules_witness :
  dict_keys
    (_modules
       (snd (fst (_initialize_modules plug_registry plug_module always_supported
                    (Some Strip) (at_start [], socket_core)))))
  = ["Energy"]
  /\ (dict_get "Energy" (_modules socket_core) = Some energy_module
      \/ class_in (SmartModule.cls energy_module) NON_HUB_PARENT_ONLY_MODULES
         = false).
Proof.
  split; [reflexivity|].
  destruct (child_skips_parent_only_modules plug_registry plug_module
              always_supported Strip (at_start []) socket_core plug_module_class)
    as [Hskip _].
  apply (Hskip ltac:(discriminate) "Energy" energy_module). reflexivity.
Defined.

(** The batched request of the plug falls back on one request for each of
    its two keys. *)
Lemma fallback_retries_each_key_witness :
  log (fst (fst (batch scripted_query false
                   [("get_device_info", VNone); ("get_energy_usage", VNone)]
                   (at_start lost_batch, later_core))))
  = [Sent [("get_device_info", VNone); ("get_energy_usage", VNone)];
     Sent [("get_device_info", VNone)];
     Sent [("get_energy_usage", VNone)]]
  /\ snd (fst (batch scripted_query false
                 [("get_device_info", VNone); ("get_energy_usage", VNone)]
                 (at_start lost_batch, later_core)))
     = later_core.
Proof.
  destruct (fallback_retries_each_key scripted_query false
              [("get_device_info", VNone); ("get_energy_usage", VNone)]
              (at_start lost_batch, later_core)) as [Hlost _].
  destruct (Hlost _ TimeoutError eq_refl) as [Hlog [Hstate _]].
  split; [exact Hlog | exact Hstate].
Defined.

Lemma later_queries_wf key m :
  In (key, m) (_modules later_core) -> dict_wf (SmartModule.query m).
Proof.
  intros [H|[H|[H|[]]]]; inversion H; subst; unfold dict_wf; simpl;
    repeat constructor; simpl; intuition discriminate.
Qed.

(** The request of the plug at time 700: the energy usage is in it, as the
    energy module asks for it; the cloud state is not, as the cloud module
    is not due. *)
Lemma batch_request_last_writer_witness :
  dict_get "get_energy_usage" (planned_request false 700 later_core)
  = Some VNone
  /\ dict_get "get_connect_cloud_state" (planned_request false 700 later_core)
     = None.
Proof.
  destruct (batch_request_last_writer false 700 later_core later_queries_wf)
    as [Hin Hout].
  split.
  - apply (Hin [("DeviceModule", device_module)] "Energy" energy_module
             [("Cloud", later_cloud_module)]); try reflexivity.
    intros key' m' [H|[]] Hinc. inversion H; subst. discriminate.
  - apply Hout.
    intros key m [H|[H|[H|[]]]] Hinc; inversion H; subst;
      [reflexivity | reflexivity | discriminate].
Defined.

(** At time 700 the cloud module is not due: the plug that holds it alone
    sends the empty request, and with the connection lost gets no info. *)
Lemma idle_cycle_sends_empty_request_witness :
  planned_request false 700 idle_core = []
  /\ plug_modular_update false 700 (at_start [], idle_core)
     = ((add_event (set_remote (at_start []) []) (Sent []), idle_core),
        Raise KasaException).
Proof.
  destruct (idle_cycle_sends_empty_request scripted_query data_hook 700
              (at_start []) idle_core) as [Hreq Hrun].
  - intros key m [H|[]]. inversion H; subst. reflexivity.
  - split; [exact Hreq|].
    apply (Hrun [] (Raise (OtherError "connection lost")));
      [reflexivity | right; eauto].
Defined.

(** The energy usage comes back as an error code: the energy module is
    evicted, and the plug reports no energy meter. *)
Lemma eviction_shows_witness :
  has_emeter later_core = true
  /\ has_emeter
       (snd (fst (plug_modular_update false 700
                    (at_start energy_error_answer, later_core))))
     = false.
Proof.
  split; [reflexivity|].
  edestruct (eviction_shows scripted_query script_clock data_hook no_int
               no_child idle_child plug_registry plug_module always_supported
               (fun _ _ => Ok true) false 700
               (at_start energy_error_answer) later_core)
    as [Henergy _].
  - exact later_modules_wf.
  - vm_compute. reflexivity.
  - reflexivity.
  - apply (Henergy energy_module); reflexivity.
Defined.

(** The first update of the plug registers its features, the id of the
    device among them. *)
Lemma features_are_built_once_witness :
  snd (plug_update false (at_start two_cycles, fresh_plug)) = Ok tt
  /\ In "device_id"
       (dict_keys
          (_features
             (core (snd (fst (plug_update false
                                (at_start two_cycles, fresh_plug))))))).
Proof.
  assert (Hrun : snd (plug_update false (at_start two_cycles, fresh_plug))
                 = Ok tt) by (vm_compute; reflexivity).
  split; [exact Hrun|].
  pose proof (features_are_built_once scripted_query script_clock data_hook
                no_int no_child idle_child plug_registry plug_module
                always_supported false (at_start two_cycles) fresh_plug
                eq_refl Hrun) as H.
  cbv zeta in H. exact (proj1 H).
Defined.

(** On the hub, without the flag, a child whose update would fail makes
    no difference; on the plug, the flag makes none. *)
Lemma update_children_flag_only_on_hubs_witness :
  plug_update false (at_start hub_answer, hub)
  = update scripted_query script_clock data_hook no_int no_child
      failing_child plug_registry plug_module always_supported false
      (at_start hub_answer, hub)
  /\ plug_update false (at_start one_answer, updated_plug)
     = plug_update true (at_start one_answer, updated_plug).
Proof.
  split.
  - apply (proj1 (update_children_flag_only_on_hubs scripted_query
                    script_clock data_hook no_int no_child idle_child
                    failing_child plug_registry plug_module always_supported
                    (at_start hub_answer) hub (t0 := 100)
                    ltac:(left; discriminate) eq_refl)).
    reflexivity.
  - apply (proj2 (update_children_flag_only_on_hubs scripted_query
                    script_clock data_hook no_int no_child idle_child
                    idle_child plug_registry plug_module always_supported
                    (at_start one_answer) updated_plug (t0 := 500)
                    ltac:(left; discriminate) eq_refl)); discriminate.
Defined.
